(** * wincurses: a shallow embedding of wincurses.c / wincurses.h

    The library keeps all of its state in process-wide globals and in
    [WINDOW] objects reached through pointers, and it drives the Windows
    console through a handful of API calls.  The embedding threads one
    [STATE] record (the globals, the heap of [WINDOW] objects and the console)
    through every function; C integers are [Z] with the conversions of the
    32-bit Windows ABI written out. *)

From Stdlib Require Import ZArith List Bool Lia.
Import ListNotations.
Local Open Scope Z_scope.

(** ** Machine integers *)

(** Conversion to a 16-bit [SHORT] / [short]. *)
Definition to_short (z : Z) : Z := (z + 32768) mod 65536 - 32768.

(** Conversion to a 32-bit [int]. *)
Definition to_int (z : Z) : Z := (z + 2147483648) mod 4294967296 - 2147483648.

(** Conversion to a 16-bit unsigned [WORD]. *)
Definition to_WORD (z : Z) : Z := z mod 65536.

(** Conversion to a 32-bit [unsigned int] / [DWORD]. *)
Definition to_unsigned (z : Z) : Z := z mod 4294967296.

(** C's logical negation [!e] on an integer. *)
Definition lnot_c (z : Z) : Z := if z =? 0 then 1 else 0.

(** ** wincurses.h: constants *)

Definition ERR : Z := 0.
Definition FALSE : Z := 0.
Definition OK : Z := 1.
Definition TRUE : Z := 1.

Definition HAS_COLORS : Z := TRUE.
Definition CAN_CHANGE_COLOR : Z := FALSE.
Definition NUM_COLORS : Z := 8.
Definition COLOR_BITS : Z := 6.
Definition MAX_NUM_PAIRS : Z := 64.

Definition NULL : Z := 0.

(** Global program flag bit masks. *)
Definition WC_ECHO : Z := Z.shiftl 1 0.
Definition WC_COLOR : Z := Z.shiftl 1 1.

(** Window-specific flag bit masks. *)
Definition WC_WKEYPAD : Z := Z.shiftl 1 0.
Definition WC_NODELAY : Z := Z.shiftl 1 1.

(** Attribute bit masks ([enum attr]). *)
Definition A_ALTCHARSET : Z := Z.shiftl 1 0.
Definition A_BLINK : Z := Z.shiftl 1 1.
Definition A_BOLD : Z := Z.shiftl 1 2.
Definition A_DIM : Z := Z.shiftl 1 3.
Definition A_INVIS : Z := Z.shiftl 1 4.
Definition A_PROTECT : Z := Z.shiftl 1 5.
Definition A_REVERSE : Z := Z.shiftl 1 6.
Definition A_STANDOUT : Z := Z.shiftl 1 7.
Definition A_UNDERLINE : Z := Z.shiftl 1 8.

(** Color codes ([enum colorcode]). *)
Definition COLOR_BLACK : Z := 0.
Definition COLOR_BLUE : Z := 1.
Definition COLOR_GREEN : Z := 2.
Definition COLOR_CYAN : Z := 3.
Definition COLOR_RED : Z := 4.
Definition COLOR_MAGENTA : Z := 5.
Definition COLOR_YELLOW : Z := 6.
Definition COLOR_WHITE : Z := 7.

(** [A_COLOR_DATA(attrs)] is [(attrs >> (32 - COLOR_BITS))]; on an [int] the
    shift is arithmetic, which is what [Z.shiftr] computes. *)
Definition A_COLOR_DATA (attrs : Z) : Z := Z.shiftr attrs (32 - COLOR_BITS).

(** [FTOB(f)] is [(f << 4)]. *)
Definition FTOB (f : Z) : Z := Z.shiftl f 4.

(** Key codes ([enum keycode]): every enumerator without an initialiser is
    its predecessor plus one. *)
Definition KEY_CODE_YES : Z := 256.
Definition KEY_BREAK : Z := KEY_CODE_YES + 1.
Definition KEY_DOWN : Z := KEY_BREAK + 1.
Definition KEY_UP : Z := KEY_DOWN + 1.
Definition KEY_LEFT : Z := KEY_UP + 1.
Definition KEY_RIGHT : Z := KEY_LEFT + 1.
Definition KEY_HOME : Z := KEY_RIGHT + 1.
Definition KEY_BACKSPACE : Z := KEY_HOME + 1.
Definition KEY_F0 : Z := KEY_BACKSPACE + 1.
Definition KEY_DL : Z := KEY_F0 + 64.
Definition KEY_IL : Z := KEY_DL + 1.
Definition KEY_DC : Z := KEY_IL + 1.
Definition KEY_IC : Z := KEY_DC + 1.
Definition KEY_EIC : Z := KEY_IC + 1.
Definition KEY_CLEAR : Z := KEY_EIC + 1.
Definition KEY_EOS : Z := KEY_CLEAR + 1.
Definition KEY_EOL : Z := KEY_EOS + 1.
Definition KEY_SF : Z := KEY_EOL + 1.
Definition KEY_SR : Z := KEY_SF + 1.
Definition KEY_NPAGE : Z := KEY_SR + 1.
Definition KEY_PPAGE : Z := KEY_NPAGE + 1.
Definition KEY_STAB : Z := KEY_PPAGE + 1.
Definition KEY_CTAB : Z := KEY_STAB + 1.
Definition KEY_CATAB : Z := KEY_CTAB + 1.
Definition KEY_ENTER : Z := KEY_CATAB + 1.
Definition KEY_SRESET : Z := KEY_ENTER + 1.
Definition KEY_RESET : Z := KEY_SRESET + 1.
Definition KEY_PRINT : Z := KEY_RESET + 1.
Definition KEY_LL : Z := KEY_PRINT + 1.
Definition KEY_A1 : Z := KEY_LL + 1.
Definition KEY_A3 : Z := KEY_A1 + 1.
Definition KEY_B2 : Z := KEY_A3 + 1.
Definition KEY_C1 : Z := KEY_B2 + 1.
Definition KEY_C3 : Z := KEY_C1 + 1.
Definition KEY_BTAB : Z := KEY_C3 + 1.
Definition KEY_BEG : Z := KEY_BTAB + 1.
Definition KEY_CANCEL : Z := KEY_BEG + 1.
Definition KEY_CLOSE : Z := KEY_CANCEL + 1.
Definition KEY_COMMAND : Z := KEY_CLOSE + 1.
Definition KEY_COPY : Z := KEY_COMMAND + 1.
Definition KEY_CREATE : Z := KEY_COPY + 1.
Definition KEY_END : Z := KEY_CREATE + 1.
Definition KEY_EXIT : Z := KEY_END + 1.
Definition KEY_FIND : Z := KEY_EXIT + 1.
Definition KEY_HELP : Z := KEY_FIND + 1.
Definition KEY_MARK : Z := KEY_HELP + 1.
Definition KEY_MESSAGE : Z := KEY_MARK + 1.
Definition KEY_MOVE : Z := KEY_MESSAGE + 1.
Definition KEY_NEXT : Z := KEY_MOVE + 1.
Definition KEY_OPEN : Z := KEY_NEXT + 1.
Definition KEY_OPTIONS : Z := KEY_OPEN + 1.
Definition KEY_PREVIOUS : Z := KEY_OPTIONS + 1.
Definition KEY_REDO : Z := KEY_PREVIOUS + 1.
Definition KEY_REFERENCE : Z := KEY_REDO + 1.
Definition KEY_REFRESH : Z := KEY_REFERENCE + 1.
Definition KEY_REPLACE : Z := KEY_REFRESH + 1.
Definition KEY_RESTART : Z := KEY_REPLACE + 1.
Definition KEY_RESUME : Z := KEY_RESTART + 1.
Definition KEY_SAVE : Z := KEY_RESUME + 1.
Definition KEY_SBEG : Z := KEY_SAVE + 1.
Definition KEY_SCANCEL : Z := KEY_SBEG + 1.
Definition KEY_SCOMMAND : Z := KEY_SCANCEL + 1.
Definition KEY_SCOPY : Z := KEY_SCOMMAND + 1.
Definition KEY_SCREATE : Z := KEY_SCOPY + 1.
Definition KEY_SDC : Z := KEY_SCREATE + 1.
Definition KEY_SDL : Z := KEY_SDC + 1.
Definition KEY_SELECT : Z := KEY_SDL + 1.
Definition KEY_SEND : Z := KEY_SELECT + 1.
Definition KEY_SEOL : Z := KEY_SEND + 1.
Definition KEY_SEXIT : Z := KEY_SEOL + 1.
Definition KEY_SFIND : Z := KEY_SEXIT + 1.
Definition KEY_SHELP : Z := KEY_SFIND + 1.
Definition KEY_SHOME : Z := KEY_SHELP + 1.
Definition KEY_SIC : Z := KEY_SHOME + 1.
Definition KEY_SLEFT : Z := KEY_SIC + 1.
Definition KEY_SMESSAGE : Z := KEY_SLEFT + 1.
Definition KEY_SMOVE : Z := KEY_SMESSAGE + 1.
Definition KEY_SNEXT : Z := KEY_SMOVE + 1.
Definition KEY_SOPTIONS : Z := KEY_SNEXT + 1.
Definition KEY_SPREVIOUS : Z := KEY_SOPTIONS + 1.
Definition KEY_SPRINT : Z := KEY_SPREVIOUS + 1.
Definition KEY_SREDO : Z := KEY_SPRINT + 1.
Definition KEY_SREPLACE : Z := KEY_SREDO + 1.
Definition KEY_SRIGHT : Z := KEY_SREPLACE + 1.
Definition KEY_SRSUME : Z := KEY_SRIGHT + 1.
Definition KEY_SSAVE : Z := KEY_SRSUME + 1.
Definition KEY_SSUSPEND : Z := KEY_SSAVE + 1.
Definition KEY_SUNDO : Z := KEY_SSUSPEND + 1.
Definition KEY_SUSPEND : Z := KEY_SUNDO + 1.
Definition KEY_UNDO : Z := KEY_SUSPEND + 1.

(** [KEY_F(n)] is [(KEY_F0 + n)]. *)
Definition KEY_F (n : Z) : Z := KEY_F0 + n.

(** ** The Windows console

    The console is the library's external collaborator: its types, constants
    and functions come from <windows.h> and <conio.h>, which are not part of
    the repository.  What the library relies on is modelled here, after
    section 6 of the specification and the documentation of the console API:
    screen buffers addressed by [HANDLE], the input mode of an input handle,
    and the queue of pending input events.  A call on a handle that does not
    denote an open object of the right kind fails and changes nothing. *)

(** Modelled from the spec: the opaque handle of a backend object. *)
Definition HANDLE : Type := Z.
Definition INVALID_HANDLE_VALUE : HANDLE := -1.

(** Modelled from the spec: a position or a size, in [SHORT] columns [X] and
    rows [Y]. *)
Record COORD : Type := mkCOORD { X : Z; Y : Z }.

(** Modelled from the spec: a rectangle of cells, bounds inclusive. *)
Record SMALL_RECT : Type :=
  mkSMALL_RECT { Left : Z; Top : Z; Right : Z; Bottom : Z }.

(** Modelled from the spec: a cell, a character with its style mask. *)
Record CHAR_INFO : Type := mkCHAR_INFO { Char : Z; Attributes : Z }.

(** Modelled from the spec: an input event, with the members of
    [INPUT_RECORD] that [wgetch] reads. *)
Record INPUT_RECORD : Type := mkINPUT_RECORD {
  EventType : Z;
  bKeyDown : Z;
  wVirtualKeyCode : Z;
  AsciiChar : Z
}.

(** Modelled from the spec: the console constants and native key
    identifiers of <wincon.h> and <winuser.h>, which the specification names
    by their role only; the values are those of the Windows headers. *)
Definition KEY_EVENT : Z := 1.

Definition ENABLE_PROCESSED_INPUT : Z := 1.
Definition ENABLE_LINE_INPUT : Z := 2.

Definition FOREGROUND_BLUE : Z := 1.
Definition FOREGROUND_GREEN : Z := 2.
Definition FOREGROUND_RED : Z := 4.
Definition FOREGROUND_INTENSITY : Z := 8.
Definition BACKGROUND_INTENSITY : Z := 128.
Definition COMMON_LVB_REVERSE_VIDEO : Z := 16384.
Definition COMMON_LVB_UNDERSCORE : Z := 32768.

Definition VK_CANCEL : Z := 3.
Definition VK_BACK : Z := 8.
Definition VK_CLEAR : Z := 12.
Definition VK_RETURN : Z := 13.
Definition VK_CONTROL : Z := 17.
Definition VK_ESCAPE : Z := 27.
Definition VK_PRIOR : Z := 33.
Definition VK_NEXT : Z := 34.
Definition VK_END : Z := 35.
Definition VK_HOME : Z := 36.
Definition VK_LEFT : Z := 37.
Definition VK_UP : Z := 38.
Definition VK_RIGHT : Z := 39.
Definition VK_DOWN : Z := 40.
Definition VK_SELECT : Z := 41.
Definition VK_PRINT : Z := 42.
Definition VK_INSERT : Z := 45.
Definition VK_DELETE : Z := 46.
Definition VK_HELP : Z := 47.
Definition VK_NUMPAD0 : Z := 96.
Definition VK_NUMPAD1 : Z := 97.
Definition VK_NUMPAD2 : Z := 98.
Definition VK_NUMPAD3 : Z := 99.
Definition VK_NUMPAD4 : Z := 100.
Definition VK_NUMPAD5 : Z := 101.
Definition VK_NUMPAD6 : Z := 102.
Definition VK_NUMPAD7 : Z := 103.
Definition VK_NUMPAD8 : Z := 104.
Definition VK_NUMPAD9 : Z := 105.
Definition VK_F1 : Z := 112.
Definition VK_F2 : Z := 113.
Definition VK_F3 : Z := 114.
Definition VK_F4 : Z := 115.
Definition VK_F5 : Z := 116.
Definition VK_F6 : Z := 117.
Definition VK_F7 : Z := 118.
Definition VK_F8 : Z := 119.
Definition VK_F9 : Z := 120.
Definition VK_F10 : Z := 121.
Definition VK_F11 : Z := 122.
Definition VK_F12 : Z := 123.
Definition VK_F13 : Z := 124.
Definition VK_F14 : Z := 125.
Definition VK_F15 : Z := 126.
Definition VK_F16 : Z := 127.
Definition VK_F17 : Z := 128.
Definition VK_F18 : Z := 129.
Definition VK_F19 : Z := 130.
Definition VK_F20 : Z := 131.
Definition VK_F21 : Z := 132.
Definition VK_F22 : Z := 133.
Definition VK_F23 : Z := 134.
Definition VK_F24 : Z := 135.

(** Modelled from the spec: a console screen buffer, a character-cell buffer
    [dwSize] cells wide and high, addressed by row and column. *)
Record SCREEN_BUFFER : Type := mkSCREEN_BUFFER {
  dwSize : COORD;
  dwCursorPosition : COORD;
  cells : Z -> Z -> CHAR_INFO
}.

(** Modelled from the spec: the console, that is the open screen buffers, the
    one displayed, the input modes and the pending input events. *)
Record CONSOLE : Type := mkCONSOLE {
  screens : HANDLE -> option SCREEN_BUFFER;
  active : HANDLE;
  input_mode : HANDLE -> option Z;
  events : list INPUT_RECORD
}.

Definition set_screen (con : CONSOLE) (h : HANDLE) (b : SCREEN_BUFFER) : CONSOLE :=
  {| screens := fun h' => if h' =? h then Some b else screens con h';
     active := active con;
     input_mode := input_mode con;
     events := events con |}.

Definition set_active (con : CONSOLE) (h : HANDLE) : CONSOLE :=
  {| screens := screens con;
     active := h;
     input_mode := input_mode con;
     events := events con |}.

Definition set_input_mode (con : CONSOLE) (h : HANDLE) (m : Z) : CONSOLE :=
  {| screens := screens con;
     active := active con;
     input_mode := fun h' => if h' =? h then Some m else input_mode con h';
     events := events con |}.

Definition set_events (con : CONSOLE) (evs : list INPUT_RECORD) : CONSOLE :=
  {| screens := screens con;
     active := active con;
     input_mode := input_mode con;
     events := evs |}.

(** Whether cell (row [y], column [x]) lies in a rectangle (bounds
    inclusive, as in [SMALL_RECT]). *)
Definition in_rect (r : SMALL_RECT) (y x : Z) : bool :=
  (Top r <=? y) && (y <=? Bottom r) && (Left r <=? x) && (x <=? Right r).

(** The part of the requested rectangle [r] that a bulk transfer uses: the
    cells that exist in a screen buffer of size [dims] and that have a place
    in the caller's [bsize] array when the transfer starts at [bcoord]. *)
Definition used_rect (dims bsize bcoord : COORD) (r : SMALL_RECT) : SMALL_RECT :=
  {| Left := Z.max (Left r) 0;
     Top := Z.max (Top r) 0;
     Right := Z.min (Right r) (Z.min (X dims - 1) (Left r + (X bsize - X bcoord) - 1));
     Bottom := Z.min (Bottom r) (Z.min (Y dims - 1) (Top r + (Y bsize - Y bcoord) - 1)) |}.

(** Index in the caller's row-major array of the element that corresponds to
    cell ([y], [x]) of the requested rectangle [r]. *)
Definition tbuf_index (bsize bcoord : COORD) (r : SMALL_RECT) (y x : Z) : Z :=
  (Y bcoord + (y - Top r)) * X bsize + (X bcoord + (x - Left r)).

(** The contents of one cell of an open screen buffer. *)
Definition cell_at (con : CONSOLE) (h : HANDLE) (y x : Z) : option CHAR_INFO :=
  match screens con h with
  | Some b =>
      if (0 <=? y) && (y <? Y (dwSize b)) && (0 <=? x) && (x <? X (dwSize b))
      then Some (cells b y x) else None
  | None => None
  end.

(** Modelled from the spec: the bulk write of a rectangle of cells,
    [WriteConsoleOutput(h, lpBuffer, dwBufferSize, dwBufferCoord, lpWriteRegion)]:
    the result, the console afterwards and the rectangle reported back through
    [lpWriteRegion].  On an open screen buffer the call succeeds and writes
    the cells of [used_rect], which may be none. *)
Definition WriteConsoleOutput (con : CONSOLE) (h : HANDLE) (lpBuffer : list CHAR_INFO)
    (dwBufferSize dwBufferCoord : COORD) (region : SMALL_RECT)
    : Z * CONSOLE * SMALL_RECT :=
  match screens con h with
  | None => (FALSE, con, region)
  | Some b =>
      let u := used_rect (dwSize b) dwBufferSize dwBufferCoord region in
      let cells' := fun y x =>
        if in_rect u y x
        then nth (Z.to_nat (tbuf_index dwBufferSize dwBufferCoord region y x))
                 lpBuffer (cells b y x)
        else cells b y x in
      (TRUE,
       set_screen con h {| dwSize := dwSize b;
                           dwCursorPosition := dwCursorPosition b;
                           cells := cells' |},
       u)
  end.

(** Modelled from the spec: the bulk read of a rectangle of cells,
    [ReadConsoleOutput(h, lpBuffer, dwBufferSize, dwBufferCoord, lpReadRegion)]:
    the result, the caller's array afterwards and the rectangle reported back
    through [lpReadRegion]. *)
Definition ReadConsoleOutput (con : CONSOLE) (h : HANDLE) (lpBuffer : list CHAR_INFO)
    (dwBufferSize dwBufferCoord : COORD) (region : SMALL_RECT)
    : Z * list CHAR_INFO * SMALL_RECT :=
  match screens con h with
  | None => (FALSE, lpBuffer, region)
  | Some b =>
      let u := used_rect (dwSize b) dwBufferSize dwBufferCoord region in
      let element := fun (k : nat) (old : CHAR_INFO) =>
        let y := Z.of_nat k / X dwBufferSize - Y dwBufferCoord + Top region in
        let x := Z.of_nat k mod X dwBufferSize - X dwBufferCoord + Left region in
        if in_rect u y x then cells b y x else old in
      (TRUE,
       map (fun k => element k (nth k lpBuffer (mkCHAR_INFO 0 0)))
           (seq 0 (length lpBuffer)),
       u)
  end.

(** Modelled from the spec: setting which buffer is displayed,
    [SetConsoleActiveScreenBuffer(h)]. *)
Definition SetConsoleActiveScreenBuffer (con : CONSOLE) (h : HANDLE) : Z * CONSOLE :=
  match screens con h with
  | None => (FALSE, con)
  | Some _ => (TRUE, set_active con h)
  end.

(** Modelled from the spec: setting the cursor position,
    [SetConsoleCursorPosition(h, pos)]; the position must lie in the buffer. *)
Definition SetConsoleCursorPosition (con : CONSOLE) (h : HANDLE) (pos : COORD)
    : Z * CONSOLE :=
  match screens con h with
  | None => (FALSE, con)
  | Some b =>
      if (0 <=? Y pos) && (Y pos <? Y (dwSize b)) && (0 <=? X pos) && (X pos <? X (dwSize b))
      then (TRUE, set_screen con h {| dwSize := dwSize b;
                                      dwCursorPosition := pos;
                                      cells := cells b |})
      else (FALSE, con)
  end.

(** Modelled from the spec: reading the input mode, [GetConsoleMode(h, &mode)];
    the mode, when the call succeeds. *)
Definition GetConsoleMode (con : CONSOLE) (h : HANDLE) : option Z :=
  input_mode con h.

(** Modelled from the spec: setting the input mode, [SetConsoleMode(h, mode)]. *)
Definition SetConsoleMode (con : CONSOLE) (h : HANDLE) (mode : Z) : Z * CONSOLE :=
  match input_mode con h with
  | None => (FALSE, con)
  | Some _ => (TRUE, set_input_mode con h mode)
  end.

(** A pending event that is a key press. *)
Definition is_key_down (c : INPUT_RECORD) : bool :=
  (EventType c =? KEY_EVENT) && negb (bKeyDown c =? 0).

(** Modelled from the spec: the check for available input, [kbhit()] of
    <conio.h>; whether a key press is waiting in the queue of pending events. *)
Definition kbhit (evs : list INPUT_RECORD) : bool := existsb is_key_down evs.

(** ** wincurses.h: types and process-wide state *)

Module Color.
(** [color_t]. *)
Record color_t : Type := mk { r : Z; g : Z; b : Z }.
End Color.

Module ColorInfo.
(** [colorinfo_t]. *)
Record colorinfo_t : Type := mk { f : Z; b : Z }.
End ColorInfo.

(** [chtype] is [char]. *)
Definition chtype : Type := Z.

(** [WINDOW].  The member [flags] is called [wflags] here, the global of the
    same name keeps [flags]. *)
Record WINDOW : Type := mkWINDOW {
  rect : SMALL_RECT;
  size : COORD;
  cur : COORD;
  hcon : list HANDLE;
  prim : Z;
  bbuf : Z;
  wflags : Z;
  attrs : Z
}.

(** [win->hcon[i]]. *)
Definition hcon_at (w : WINDOW) (i : Z) : HANDLE :=
  nth (Z.to_nat i) (hcon w) INVALID_HANDLE_VALUE.

Definition set_rect (v : SMALL_RECT) (w : WINDOW) : WINDOW :=
  mkWINDOW v (size w) (cur w) (hcon w) (prim w) (bbuf w) (wflags w) (attrs w).
Definition set_cur (v : COORD) (w : WINDOW) : WINDOW :=
  mkWINDOW (rect w) (size w) v (hcon w) (prim w) (bbuf w) (wflags w) (attrs w).
Definition set_prim (v : Z) (w : WINDOW) : WINDOW :=
  mkWINDOW (rect w) (size w) (cur w) (hcon w) v (bbuf w) (wflags w) (attrs w).
Definition set_bbuf (v : Z) (w : WINDOW) : WINDOW :=
  mkWINDOW (rect w) (size w) (cur w) (hcon w) (prim w) v (wflags w) (attrs w).
Definition set_wflags (v : Z) (w : WINDOW) : WINDOW :=
  mkWINDOW (rect w) (size w) (cur w) (hcon w) (prim w) (bbuf w) v (attrs w).
Definition set_attrs (v : Z) (w : WINDOW) : WINDOW :=
  mkWINDOW (rect w) (size w) (cur w) (hcon w) (prim w) (bbuf w) (wflags w) v.

(** A [WINDOW *]: the address of a [WINDOW] object, [NULL] being 0. *)
Definition WINDOW_PTR : Type := Z.

(** The globals of wincurses.h, the [WINDOW] objects by address, the console,
    and the caller's own [short] variables (the targets of the pointers that
    the color queries take). *)
Record STATE : Type := mkSTATE {
  heap : WINDOW_PTR -> WINDOW;
  stdscr : WINDOW_PTR;
  hstdout : HANDLE;
  hstdin : HANDLE;
  cursize : Z;
  flags : Z;
  COLORS : Z;
  COLOR_PAIRS : Z;
  colors : list Color.color_t;
  color_pairs : list ColorInfo.colorinfo_t;
  console : CONSOLE;
  user_shorts : nat -> Z
}.

Definition set_heap (v : WINDOW_PTR -> WINDOW) (st : STATE) : STATE :=
  mkSTATE v (stdscr st) (hstdout st) (hstdin st) (cursize st) (flags st) (COLORS st)
          (COLOR_PAIRS st) (colors st) (color_pairs st) (console st) (user_shorts st).
Definition set_flags (v : Z) (st : STATE) : STATE :=
  mkSTATE (heap st) (stdscr st) (hstdout st) (hstdin st) (cursize st) v (COLORS st)
          (COLOR_PAIRS st) (colors st) (color_pairs st) (console st) (user_shorts st).
Definition set_COLORS (v : Z) (st : STATE) : STATE :=
  mkSTATE (heap st) (stdscr st) (hstdout st) (hstdin st) (cursize st) (flags st) v
          (COLOR_PAIRS st) (colors st) (color_pairs st) (console st) (user_shorts st).
Definition set_COLOR_PAIRS (v : Z) (st : STATE) : STATE :=
  mkSTATE (heap st) (stdscr st) (hstdout st) (hstdin st) (cursize st) (flags st) (COLORS st)
          v (colors st) (color_pairs st) (console st) (user_shorts st).
Definition set_colors (v : list Color.color_t) (st : STATE) : STATE :=
  mkSTATE (heap st) (stdscr st) (hstdout st) (hstdin st) (cursize st) (flags st) (COLORS st)
          (COLOR_PAIRS st) v (color_pairs st) (console st) (user_shorts st).
Definition set_color_pairs (v : list ColorInfo.colorinfo_t) (st : STATE) : STATE :=
  mkSTATE (heap st) (stdscr st) (hstdout st) (hstdin st) (cursize st) (flags st) (COLORS st)
          (COLOR_PAIRS st) (colors st) v (console st) (user_shorts st).
Definition set_console (v : CONSOLE) (st : STATE) : STATE :=
  mkSTATE (heap st) (stdscr st) (hstdout st) (hstdin st) (cursize st) (flags st) (COLORS st)
          (COLOR_PAIRS st) (colors st) (color_pairs st) v (user_shorts st).

(** Array element access and assignment, [a[i]] and [a[i] = v]. *)
Definition elt {A : Type} (d : A) (a : list A) (i : Z) : A := nth (Z.to_nat i) a d.

Fixpoint assign_nth {A : Type} (n : nat) (v : A) (a : list A) {struct a} : list A :=
  match a with
  | [] => []
  | x :: a' =>
      match n with
      | O => v :: a'
      | S n' => x :: assign_nth n' v a'
      end
  end.

Definition assign_elt {A : Type} (a : list A) (i : Z) (v : A) : list A :=
  assign_nth (Z.to_nat i) v a.

Definition color0 : Color.color_t := Color.mk 0 0 0.
Definition pair0 : ColorInfo.colorinfo_t := ColorInfo.mk 0 0.

(** ** The state monad of the library's functions *)

Definition M (A : Type) : Type := STATE -> A * STATE.

Definition ret {A : Type} (a : A) : M A := fun st => (a, st).

Definition bind {A B : Type} (m : M A) (k : A -> M B) : M B :=
  fun st => let (a, st') := m st in k a st'.

Notation "x <- m ;; k" := (bind m (fun x => k))
  (at level 61, m at next level, right associativity).
Notation "m ;; k" := (bind m (fun _ => k))
  (at level 61, right associativity).

Definition gets {A : Type} (p : STATE -> A) : M A := fun st => (p st, st).
Definition modify (u : STATE -> STATE) : M unit := fun st => (tt, u st).

(** [*win] and an assignment to members of [*win]. *)
Definition deref (win : WINDOW_PTR) : M WINDOW := gets (fun st => heap st win).

Definition update (win : WINDOW_PTR) (u : WINDOW -> WINDOW) : M unit :=
  modify (fun st =>
    set_heap (fun p => if p =? win then u (heap st win) else heap st p) st).

(** A C condition: non-zero is true. *)
Definition truth (z : Z) : bool := negb (z =? 0).

(** [a && b] with C's left-to-right, short-circuit evaluation. *)
Definition andc (a b : M bool) : M bool :=
  x <- a ;; if x then b else ret false.

(** Console calls made on the state's console. *)
Definition call_WriteConsoleOutput (h : HANDLE) (lpBuffer : list CHAR_INFO)
    (dwBufferSize dwBufferCoord : COORD) (region : SMALL_RECT) : M (Z * SMALL_RECT) :=
  fun st =>
    let '(res, con, u) :=
      WriteConsoleOutput (console st) h lpBuffer dwBufferSize dwBufferCoord region in
    ((res, u), set_console con st).

Definition call_ReadConsoleOutput (h : HANDLE) (lpBuffer : list CHAR_INFO)
    (dwBufferSize dwBufferCoord : COORD) (region : SMALL_RECT)
    : M (Z * list CHAR_INFO * SMALL_RECT) :=
  fun st =>
    (ReadConsoleOutput (console st) h lpBuffer dwBufferSize dwBufferCoord region, st).

Definition call_SetConsoleActiveScreenBuffer (h : HANDLE) : M Z :=
  fun st =>
    let (res, con) := SetConsoleActiveScreenBuffer (console st) h in
    (res, set_console con st).

Definition call_SetConsoleCursorPosition (h : HANDLE) (pos : COORD) : M Z :=
  fun st =>
    let (res, con) := SetConsoleCursorPosition (console st) h pos in
    (res, set_console con st).

Definition call_GetConsoleMode (h : HANDLE) : M (option Z) :=
  gets (fun st => GetConsoleMode (console st) h).

Definition call_SetConsoleMode (h : HANDLE) (mode : Z) : M Z :=
  fun st =>
    let (res, con) := SetConsoleMode (console st) h mode in
    (res, set_console con st).

(** ** wincurses.c

    Parameters are values of their declared C type; a conversion is written
    wherever the code converts (an [int] stored in a [SHORT], an [int] passed
    for an [unsigned int], the result of arithmetic on a [SHORT]). *)

(** [refresh].  [uninit] is the indeterminate content of the memory that
    [malloc] hands out.  No result of a console call is looked at. *)
Definition refresh (uninit : CHAR_INFO) : M Z :=
  scr <- gets stdscr ;;
  w <- deref scr ;;
  (* Set the back buffer as the current console screen buffer *)
  call_SetConsoleActiveScreenBuffer (hcon_at w (bbuf w)) ;;
  (* Move our cursor to the correct position *)
  call_SetConsoleCursorPosition (hcon_at w (bbuf w)) (cur w) ;;
  (* Allocate enough memory for the temporary buffer *)
  let tbuf := repeat uninit (Z.to_nat (Y (size w) * X (size w))) in
  (* We want to start at (0, 0) and have size (Y, X) *)
  let orig := {| X := 0; Y := 0 |} in
  let size := {| X := X (size w); Y := Y (size w) |} in
  (* Read the output from stdscr *)
  rd <- call_ReadConsoleOutput (hcon_at w (bbuf w)) tbuf size orig (rect w) ;;
  let tbuf := snd (fst rd) in
  update scr (set_rect (snd rd)) ;;
  (* Copy from the temporary buffer to the primary buffer *)
  w <- deref scr ;;
  wr <- call_WriteConsoleOutput (hcon_at w (prim w)) tbuf size orig (rect w) ;;
  update scr (set_rect (snd wr)) ;;
  (* 'Swap' the primary and back buffers by swapping their values *)
  update scr (fun w => set_prim (lnot_c (prim w)) w) ;;
  update scr (fun w => set_bbuf (lnot_c (prim w)) w) ;;
  ret OK.

(** [waddch].  ['\r'] is 13 and ['\n'] is 10; the local [size] of the C
    function is [csize] here. *)
Definition waddch (win : WINDOW_PTR) (ch : chtype) : M Z :=
  let csize := {| X := 1; Y := 1 |} in
  let origin := {| X := 0; Y := 0 |} in
  (* Sanity check: NULL pointer *)
  if win =? NULL then ret ERR else
  w <- deref win ;;
  (* Set up our region to write to *)
  let rect := {| Left := X (cur w);
                 Top := Y (cur w);
                 Right := to_short (X (cur w) + X csize);
                 Bottom := to_short (Y (cur w) + Y csize) |} in
  (* Set up our character for output *)
  let c := {| Char := to_WORD ch; Attributes := attrs w |} in
  if ch =? 13 then
    update win (fun w => set_cur {| X := 0; Y := Y (cur w) |} w) ;;
    ret OK
  else if ch =? 10 then
    update win (fun w => set_cur {| X := 0; Y := Y (cur w) |} w) ;;
    update win (fun w => set_cur {| X := X (cur w); Y := to_short (Y (cur w) + 1) |} w) ;;
    ret OK
  else
    wr <- call_WriteConsoleOutput (hcon_at w (bbuf w)) [c] csize origin rect ;;
    if fst wr =? 0 then ret ERR else
    (* Advance the cursor *)
    update win (fun w =>
      set_cur {| X := to_short (Z.rem (X (cur w) + 1) (X (size w)));
                 Y := Y (cur w) |} w) ;;
    (* Check for line wrap *)
    w <- deref win ;;
    (if X (cur w) =? 0
     then update win (fun w => set_cur {| X := X (cur w); Y := to_short (Y (cur w) + 1) |} w)
     else ret tt) ;;
    ret OK.

(** [addch]. *)
Definition addch (ch : chtype) : M Z :=
  scr <- gets stdscr ;; waddch scr ch.

(** [wmove]. *)
Definition wmove (win : WINDOW_PTR) (y x : Z) : M Z :=
  w <- deref win ;;
  (* Sanity check: within bounds? *)
  if (y >=? Y (size w)) || (x >=? X (size w)) || (y <? 0) || (x <? 0) then ret ERR else
  (* Set the cursor position *)
  update win (fun w => set_cur {| X := X (cur w); Y := to_short y |} w) ;;
  update win (fun w => set_cur {| X := to_short x; Y := Y (cur w) |} w) ;;
  ret OK.

(** [move]. *)
Definition move (y x : Z) : M Z :=
  scr <- gets stdscr ;; wmove scr y x.

(** [mvwaddch]. *)
Definition mvwaddch (win : WINDOW_PTR) (y x : Z) (ch : chtype) : M Z :=
  res <- wmove win y x ;;
  if res =? ERR then ret ERR else waddch win ch.

(** Modelled from the spec: formatting into a bounded buffer,
    [vsprintf_s(s, sizeOfBuffer, fmt, args)].  Formatting itself is opaque:
    [rendered] is the text that [fmt] and [args] expand to, if they expand at
    all.  The call fails when they do not, or when the text and its
    terminating zero do not fit in [sizeOfBuffer] characters. *)
Definition vsprintf_s (sizeOfBuffer : Z) (rendered : option (list chtype))
    : Z * list chtype :=
  match rendered with
  | None => (-1, [])
  | Some text =>
      if Z.of_nat (length text) <? sizeOfBuffer
      then (Z.of_nat (length text), text)
      else (-1, [])
  end.

(** The loop [while (s[n] && waddch(win, s[n]) == OK) n++;] of [va_wprintw],
    over the characters of [s] from position [n] on. *)
Fixpoint va_wprintw_loop (win : WINDOW_PTR) (s : list chtype) : M unit :=
  match s with
  | [] => ret tt
  | c :: s' =>
      if c =? 0 then ret tt else
      res <- waddch win c ;;
      if res =? OK then va_wprintw_loop win s' else ret tt
  end.

(** [va_wprintw]. *)
Definition va_wprintw (win : WINDOW_PTR) (rendered : option (list chtype)) : M Z :=
  scr <- gets stdscr ;;
  w <- deref scr ;;
  (* Save our formatted string into a temporary location in a safe way *)
  let fmt := vsprintf_s (Y (size w) * X (size w)) rendered in
  if fst fmt <? 0 then ret ERR else
  (* Print our formatted string *)
  va_wprintw_loop win (snd fmt) ;;
  ret OK.

(** [printw]. *)
Definition printw (rendered : option (list chtype)) : M Z :=
  scr <- gets stdscr ;; va_wprintw scr rendered.

(** [wprintw]. *)
Definition wprintw (win : WINDOW_PTR) (rendered : option (list chtype)) : M Z :=
  if win =? NULL then ret ERR else va_wprintw win rendered.

(** [mvprintw]. *)
Definition mvprintw (y x : Z) (rendered : option (list chtype)) : M Z :=
  scr <- gets stdscr ;;
  (* Save our old cursor position in case it needs to be restored later *)
  w <- deref scr ;;
  let oldcur := cur w in
  (* Move to desired location in the desired window *)
  wmove scr y x ;;
  (* Print our formatted string *)
  res <- va_wprintw scr rendered ;;
  (* If we were unable to print the string, restore the original cursor location *)
  (if res =? ERR then update scr (set_cur oldcur) else ret tt) ;;
  ret res.

(** [mvwprintw]. *)
Definition mvwprintw (win : WINDOW_PTR) (y x : Z) (rendered : option (list chtype))
    : M Z :=
  scr <- gets stdscr ;;
  (* Save our old cursor position in case it needs to be restored later *)
  w <- deref scr ;;
  let oldcur := cur w in
  (* Sanity check: NULL pointer *)
  if win =? NULL then ret ERR else
  (* Move to desired location in the desired window *)
  wmove win y x ;;
  (* Print our formatted string *)
  res <- va_wprintw win rendered ;;
  (* If we were unable to print the string, restore the original cursor location *)
  (if res =? ERR then update scr (set_cur oldcur) else ret tt) ;;
  ret res.

(** [COLOR_PAIR]: the shift is done in a 32-bit [int]. *)
Definition COLOR_PAIR (n : Z) : Z := to_int (Z.shiftl n (32 - COLOR_BITS)).

(** [PAIR_NUMBER]. *)
Definition PAIR_NUMBER (value : Z) : Z := A_COLOR_DATA value.

(** [can_change_color]. *)
Definition can_change_color : M Z := ret CAN_CHANGE_COLOR.

(** [has_colors]. *)
Definition has_colors : M Z :=
  modify (set_COLORS 0) ;;
  modify (set_COLOR_PAIRS 0) ;;
  (if HAS_COLORS =? TRUE
   then
     (* Set up our global variables *)
     modify (set_COLORS NUM_COLORS) ;;
     modify (set_COLOR_PAIRS MAX_NUM_PAIRS)
   else ret tt) ;;
  ret HAS_COLORS.

(** [getattrs].  Its parameter is an [unsigned int]; [PAIR_NUMBER] takes it
    back as an [int]. *)
Definition getattrs (attrs : Z) : M Z :=
  let bmask := 0 in
  (* Set up our bit mask *)
  let bmask := if truth (Z.land attrs A_BOLD)
               then to_WORD (Z.lor bmask FOREGROUND_INTENSITY) else bmask in
  let bmask := if truth (Z.land attrs A_REVERSE)
               then to_WORD (Z.lor bmask COMMON_LVB_REVERSE_VIDEO) else bmask in
  let bmask := if truth (Z.land attrs A_STANDOUT)
               then to_WORD (Z.lor bmask BACKGROUND_INTENSITY) else bmask in
  let bmask := if truth (Z.land attrs A_UNDERLINE)
               then to_WORD (Z.lor bmask COMMON_LVB_UNDERSCORE) else bmask in
  (* Apply colors using console flags if we cannot change them *)
  c <- andc (fl <- gets flags ;; ret (truth (Z.land fl WC_COLOR)))
            (ccc <- can_change_color ;; ret (ccc =? FALSE)) ;;
  if c then
    cols <- gets colors ;;
    pairs <- gets color_pairs ;;
    let pair := elt pair0 pairs (PAIR_NUMBER (to_int attrs)) in
    let fg := elt color0 cols (ColorInfo.f pair) in
    let bg := elt color0 cols (ColorInfo.b pair) in
    let colormask :=
      Z.lor (Z.lor (if Color.r fg =? 0 then 0 else FOREGROUND_RED)
                   (if Color.g fg =? 0 then 0 else FOREGROUND_GREEN))
            (if Color.b fg =? 0 then 0 else FOREGROUND_BLUE) in
    let bmask := to_WORD (Z.lor bmask colormask) in
    let colormask :=
      Z.lor (Z.lor (if Color.r bg =? 0 then 0 else FOREGROUND_RED)
                   (if Color.g bg =? 0 then 0 else FOREGROUND_GREEN))
            (if Color.b bg =? 0 then 0 else FOREGROUND_BLUE) in
    let bmask := to_WORD (Z.lor bmask (FTOB colormask)) in
    ret bmask
  else ret bmask.

(** [wattron].  The parameter [attrs] of the C function is [a] here, as in
    the next two. *)
Definition wattron (win : WINDOW_PTR) (a : Z) : M Z :=
  (* Set up our bit mask *)
  bmask <- getattrs (to_unsigned a) ;;
  (* Set our bit mask *)
  update win (fun w => set_attrs (to_WORD (Z.lor (attrs w) bmask)) w) ;;
  ret OK.

(** [wattroff]. *)
Definition wattroff (win : WINDOW_PTR) (a : Z) : M Z :=
  bmask <- getattrs (to_unsigned a) ;;
  (* Clear our bit mask *)
  update win (fun w => set_attrs (to_WORD (Z.land (attrs w) (Z.lnot bmask))) w) ;;
  ret OK.

(** [wattrset]. *)
Definition wattrset (win : WINDOW_PTR) (a : Z) : M Z :=
  bmask <- getattrs (to_unsigned a) ;;
  (* Assign our bit mask *)
  update win (set_attrs bmask) ;;
  ret OK.

(** [attrset]. *)
Definition attrset (a : Z) : M Z :=
  scr <- gets stdscr ;; wattrset scr a.

(** [init_pair]. *)
Definition init_pair (pair f b : Z) : M Z :=
  (* Make sure we are using colors and have values within range *)
  c <- andc (fl <- gets flags ;; ret (truth (Z.land fl WC_COLOR)))
      (andc (hc <- has_colors ;; ret (truth hc))
      (andc (cp <- gets COLOR_PAIRS ;; ret (pair <? cp))
            (ret (pair >? 0)))) ;;
  if c then
    (* Assign our color values *)
    modify (fun st => set_color_pairs
      (assign_elt (color_pairs st) pair
         (ColorInfo.mk f (ColorInfo.b (elt pair0 (color_pairs st) pair)))) st) ;;
    modify (fun st => set_color_pairs
      (assign_elt (color_pairs st) pair
         (ColorInfo.mk (ColorInfo.f (elt pair0 (color_pairs st) pair)) b)) st) ;;
    ret OK
  else ret ERR.

(** A [short *]: the address of one of the caller's variables, or of a
    member of the global tables. *)
Inductive short_ptr : Type :=
| user_short (a : nat)
| pair_f (i : Z)
| pair_b (i : Z)
| color_r (i : Z)
| color_g (i : Z)
| color_b (i : Z).

(** [*p] for a [short *]. *)
Definition load (st : STATE) (p : short_ptr) : Z :=
  match p with
  | user_short a => user_shorts st a
  | pair_f i => ColorInfo.f (elt pair0 (color_pairs st) i)
  | pair_b i => ColorInfo.b (elt pair0 (color_pairs st) i)
  | color_r i => Color.r (elt color0 (colors st) i)
  | color_g i => Color.g (elt color0 (colors st) i)
  | color_b i => Color.b (elt color0 (colors st) i)
  end.

(** [pair_content].  The body assigns to the parameters [f] and [b]
    themselves ([f = &color_pairs[pair].f;]); it stores nothing through
    them.  The result carries the final values of the two parameters next to
    the return value, so that the assignments can be observed. *)
Definition pair_content (pair : Z) (f b : short_ptr) : M (Z * (short_ptr * short_ptr)) :=
  (* Make sure we are using colors and have values within range *)
  c <- andc (fl <- gets flags ;; ret (truth (Z.land fl WC_COLOR)))
      (andc (hc <- has_colors ;; ret (truth hc))
      (andc (cp <- gets COLOR_PAIRS ;; ret (pair <? cp))
            (ret (pair >=? 0)))) ;;
  if c then
    (* Assign our color pointer values *)
    let f := pair_f pair in
    let b := pair_b pair in
    ret (OK, (f, b))
  else ret (ERR, (f, b)).

(** The three assignments [colors[i].r = r; colors[i].g = g; colors[i].b = b;]. *)
Definition assign_color (i r g b : Z) : M unit :=
  modify (fun st =>
    let c := elt color0 (colors st) i in
    set_colors (assign_elt (colors st) i (Color.mk r (Color.g c) (Color.b c))) st) ;;
  modify (fun st =>
    let c := elt color0 (colors st) i in
    set_colors (assign_elt (colors st) i (Color.mk (Color.r c) g (Color.b c))) st) ;;
  modify (fun st =>
    let c := elt color0 (colors st) i in
    set_colors (assign_elt (colors st) i (Color.mk (Color.r c) (Color.g c) b)) st).

(** [start_color]. *)
Definition start_color : M Z :=
  (* Make sure we are using colors *)
  hc <- has_colors ;;
  if truth hc then
    (* Initialize the eight basic console colors *)
    assign_color COLOR_BLACK 0 0 0 ;;
    assign_color COLOR_BLUE 0 0 1000 ;;
    assign_color COLOR_GREEN 0 1000 0 ;;
    assign_color COLOR_CYAN 0 1000 1000 ;;
    assign_color COLOR_RED 1000 0 0 ;;
    assign_color COLOR_MAGENTA 1000 0 1000 ;;
    assign_color COLOR_YELLOW 1000 1000 0 ;;
    assign_color COLOR_WHITE 1000 1000 1000 ;;
    (* Set up the console defaults *)
    init_pair 0 COLOR_WHITE COLOR_BLACK ;;
    attrset (COLOR_PAIR 0) ;;
    (* Turn colors on globally *)
    modify (fun st => set_flags (to_unsigned (Z.lor (flags st) WC_COLOR)) st) ;;
    ret OK
  else ret ERR.

(** [clearmode]. *)
Definition clearmode (hcon : HANDLE) (bmask : Z) : M Z :=
  (* Get the current console mode *)
  got <- call_GetConsoleMode hcon ;;
  match got with
  | None => (* Return ERR on error *) ret ERR
  | Some mode =>
      (* Apply the bit mask *)
      let mode := to_unsigned (Z.land mode (Z.lnot bmask)) in
      (* Set the new console mode and return its status *)
      res <- call_SetConsoleMode hcon mode ;;
      ret (if truth res then OK else ERR)
  end.

(** [setmode].  In the source the condition is followed by a semicolon:
    [if (!GetConsoleMode(hcon, &mode));] is a complete statement with an empty
    body, and the [return ERR;] on the next line is executed whatever the call
    gave.  The statements after it are never reached. *)
Definition setmode (hcon : HANDLE) (bmask : Z) : M Z :=
  (* Get the current console mode *)
  got <- call_GetConsoleMode hcon ;;
  (match got with
   | None => (* the empty statement *) ret tt
   | Some _ => ret tt
   end) ;;
  ret ERR.

(** [cbreak]. *)
Definition cbreak : M Z :=
  hin <- gets hstdin ;;
  (* Clear the enable line input flag *)
  res <- clearmode hin ENABLE_LINE_INPUT ;;
  if res =? ERR then ret ERR else
  (* Set the enable processed input flag *)
  res <- setmode hin ENABLE_PROCESSED_INPUT ;;
  if res =? ERR then ret ERR else
  ret OK.

(** [nocbreak]. *)
Definition nocbreak : M Z :=
  hin <- gets hstdin ;;
  setmode hin (Z.lor ENABLE_LINE_INPUT ENABLE_PROCESSED_INPUT).

(** [raw]. *)
Definition raw : M Z :=
  hin <- gets hstdin ;;
  res <- clearmode hin ENABLE_LINE_INPUT ;;
  if res =? ERR then ret ERR else
  res <- clearmode hin ENABLE_PROCESSED_INPUT ;;
  if res =? ERR then ret ERR else
  ret OK.

(** [echo] and [noecho]. *)
Definition echo : M Z :=
  modify (fun st => set_flags (to_unsigned (Z.lor (flags st) WC_ECHO)) st) ;;
  ret OK.

Definition noecho : M Z :=
  modify (fun st => set_flags (to_unsigned (Z.land (flags st) (Z.lnot WC_ECHO))) st) ;;
  ret OK.

(** [keypad]. *)
Definition keypad (win : WINDOW_PTR) (bf : Z) : M Z :=
  if win =? NULL then ret ERR else
  (if bf =? FALSE
   then update win (fun w =>
          set_wflags (to_unsigned (Z.land (wflags w) (Z.lnot WC_WKEYPAD))) w)
   else update win (fun w =>
          set_wflags (to_unsigned (Z.lor (wflags w) WC_WKEYPAD)) w)) ;;
  ret OK.

(** [nodelay]. *)
Definition nodelay (win : WINDOW_PTR) (bf : Z) : M Z :=
  if win =? NULL then ret ERR else
  (if bf =? TRUE
   then update win (fun w =>
          set_wflags (to_unsigned (Z.lor (wflags w) WC_NODELAY)) w)
   else update win (fun w =>
          set_wflags (to_unsigned (Z.land (wflags w) (Z.lnot WC_NODELAY))) w)) ;;
  ret OK.

(** The [switch] on [c.Event.KeyEvent.wVirtualKeyCode] in [wgetch]: [r] comes
    in as the raw character and goes out unchanged when no [case] matches. *)
Definition keypad_switch (vk : Z) (r : Z) : Z :=
  if vk =? VK_ESCAPE then KEY_EXIT
  else if vk =? VK_CANCEL then KEY_CANCEL
  else if vk =? VK_BACK then KEY_BACKSPACE
  else if vk =? VK_CLEAR then KEY_CLEAR
  else if vk =? VK_RETURN then KEY_ENTER
  else if vk =? VK_CONTROL then KEY_COMMAND
  else if vk =? VK_PRIOR then KEY_PPAGE
  else if vk =? VK_NEXT then KEY_NPAGE
  else if vk =? VK_END then KEY_END
  else if vk =? VK_HOME then KEY_HOME
  else if vk =? VK_LEFT then KEY_LEFT
  else if vk =? VK_UP then KEY_UP
  else if vk =? VK_RIGHT then KEY_RIGHT
  else if vk =? VK_DOWN then KEY_DOWN
  else if vk =? VK_SELECT then KEY_SELECT
  else if vk =? VK_PRINT then KEY_PRINT
  else if vk =? VK_DELETE then KEY_DC
  else if vk =? VK_HELP then KEY_HELP
  else if vk =? VK_NUMPAD1 then KEY_C1
  else if vk =? VK_NUMPAD2 then KEY_DOWN
  else if vk =? VK_NUMPAD3 then KEY_C3
  else if vk =? VK_NUMPAD4 then KEY_LEFT
  else if vk =? VK_NUMPAD5 then KEY_B2
  else if vk =? VK_NUMPAD6 then KEY_RIGHT
  else if vk =? VK_NUMPAD7 then KEY_A1
  else if vk =? VK_NUMPAD8 then KEY_UP
  else if vk =? VK_NUMPAD9 then KEY_A3
  else if vk =? VK_F1 then KEY_F 1
  else if vk =? VK_F2 then KEY_F 2
  else if vk =? VK_F3 then KEY_F 3
  else if vk =? VK_F4 then KEY_F 4
  else if vk =? VK_F5 then KEY_F 5
  else if vk =? VK_F6 then KEY_F 6
  else if vk =? VK_F7 then KEY_F 7
  else if vk =? VK_F8 then KEY_F 8
  else if vk =? VK_F9 then KEY_F 9
  else if vk =? VK_F10 then KEY_F 10
  else if vk =? VK_F11 then KEY_F 11
  else if vk =? VK_F12 then KEY_F 12
  else if vk =? VK_F13 then KEY_F 13
  else if vk =? VK_F14 then KEY_F 14
  else if vk =? VK_F15 then KEY_F 15
  else if vk =? VK_F16 then KEY_F 16
  else if vk =? VK_F17 then KEY_F 17
  else if vk =? VK_F18 then KEY_F 18
  else if vk =? VK_F19 then KEY_F 19
  else if vk =? VK_F20 then KEY_F 20
  else if vk =? VK_F21 then KEY_F 21
  else if vk =? VK_F22 then KEY_F 22
  else if vk =? VK_F23 then KEY_F 23
  else if vk =? VK_F24 then KEY_F 24
  else r.

(** How the polling loop of [wgetch] ends. *)
Inductive polled : Type :=
| key_down (c : INPUT_RECORD) (rest : list INPUT_RECORD)
| no_input (rest : list INPUT_RECORD)
| blocked.

(** The loop
    [do { if (win->flags & WC_NODELAY && !kbhit()) return ERR;
          ReadConsoleInput(hstdin, &c, 1, &len); }
     while (c.EventType != KEY_EVENT || !c.Event.KeyEvent.bKeyDown);]
    over the queue of pending events.  [ReadConsoleInput] takes the first
    event off the queue; on an empty queue it waits, and the call does not
    return. *)
Fixpoint poll_console (nodelay_on : bool) (evs : list INPUT_RECORD) : polled :=
  if nodelay_on && negb (kbhit evs) then no_input evs else
  match evs with
  | [] => blocked
  | c :: rest => if is_key_down c then key_down c rest else poll_console nodelay_on rest
  end.

(** [wgetch].  [None] stands for a call that waits for input for ever.
    [hstdin] is taken to be the console's input, as [initscr] checked. *)
Definition wgetch (win : WINDOW_PTR) (st : STATE) : option (Z * STATE) :=
  (* Poll the console for input *)
  match poll_console (truth (Z.land (wflags (heap st win)) WC_NODELAY))
                     (events (console st)) with
  | blocked => None
  | no_input rest => Some (ERR, set_console (set_events (console st) rest) st)
  | key_down c rest =>
      let st := set_console (set_events (console st) rest) st in
      (* Echo input if applicable *)
      let st := if truth (Z.land (flags st) WC_ECHO)
                then snd (addch (AsciiChar c) st) else st in
      (* By default, pass on the raw character value *)
      let r := AsciiChar c in
      (* If we've chosen to translate special keys, return the appropriate key code *)
      let r := if truth (Z.land (wflags (heap st win)) WC_WKEYPAD)
               then keypad_switch (wVirtualKeyCode c) r else r in
      Some (r, st)
  end.

(** [mvwgetch]. *)
Definition mvwgetch (win : WINDOW_PTR) (y x : Z) (st : STATE) : option (Z * STATE) :=
  (* Move to the desired location *)
  let (_, st) := wmove (stdscr st) y x st in
  (* Get input from the window *)
  wgetch win st.

(** [getch] and [mvgetch]. *)
Definition getch (st : STATE) : option (Z * STATE) := wgetch (stdscr st) st.

Definition mvgetch (y x : Z) (st : STATE) : option (Z * STATE) :=
  mvwgetch (stdscr st) y x st.

(** ** wincurses.c, continued *)

(** [mvaddch]. *)
Definition mvaddch (y x : Z) (ch : chtype) : M Z :=
  scr <- gets stdscr ;; mvwaddch scr y x ch.

(** [attron] and [attroff]. *)
Definition attron (a : Z) : M Z :=
  scr <- gets stdscr ;; wattron scr a.

Definition attroff (a : Z) : M Z :=
  scr <- gets stdscr ;; wattroff scr a.

(** [noraw]. *)
Definition noraw : M Z :=
  hin <- gets hstdin ;;
  setmode hin (Z.lor ENABLE_LINE_INPUT ENABLE_PROCESSED_INPUT).

(** [color_content].  Like [pair_content], the body assigns to its pointer
    parameters and stores nothing through them; the result carries their
    final values next to the return value. *)
Definition color_content (color : Z) (red green blue : short_ptr)
    : M (Z * (short_ptr * short_ptr * short_ptr)) :=
  (* Make sure we are using colors and have values within range *)
  c <- andc (fl <- gets flags ;; ret (truth (Z.land fl WC_COLOR)))
      (andc (hc <- has_colors ;; ret (truth hc))
      (andc (ccc <- can_change_color ;; ret (truth ccc))
      (andc (cs <- gets COLORS ;; ret (color <? cs))
            (ret (color >? 0))))) ;;
  if c then
    (* Assign pointers to our color values *)
    let red := color_r color in
    let green := color_g color in
    let blue := color_b color in
    ret (OK, (red, green, blue))
  else ret (ERR, (red, green, blue)).

(** [init_color]. *)
Definition init_color (color red green blue : Z) : M Z :=
  (* Make sure we are using colors and have values within range *)
  c <- andc (fl <- gets flags ;; ret (truth (Z.land fl WC_COLOR)))
      (andc (hc <- has_colors ;; ret (truth hc))
      (andc (ccc <- can_change_color ;; ret (truth ccc))
      (andc (cs <- gets COLORS ;; ret (color <? cs))
            (ret (color >? 0))))) ;;
  if c then
    (* Make sure our color values are within range *)
    if (red >? 1000) || (green >? 1000) || (blue >? 1000) ||
       (red <? 0) || (green <? 0) || (blue <? 0)
    then ret ERR else
    (* Assign our color value *)
    assign_color color red green blue ;;
    ret OK
  else ret ERR.

(** ** The process around the library

    [initscr], [endwin], [curs_set] and [cls] need more of the process than
    the functions above: the standard handles, the creation and the closing
    of screen buffers, their viewports and cursor shapes, and the allocation
    of the [WINDOW] object.  [PROCESS] adds these to the [STATE] of the
    functions above, together with the two globals [LINES] and [COLS]. *)

Module CursorInfo.
(** Modelled from the spec: the shape and the visibility of a cursor,
    [CONSOLE_CURSOR_INFO]; [dwSize] is the percentage of the cell that the
    cursor fills, from 1 to 100. *)
Record CONSOLE_CURSOR_INFO : Type := mk { dwSize : Z; bVisible : Z }.
End CursorInfo.

Module BufferInfo.
(** Modelled from the spec: what a screen buffer reports about itself,
    [CONSOLE_SCREEN_BUFFER_INFO], with the two members the library reads:
    the size of the buffer and the viewport, the rectangle of the buffer that
    the console window shows. *)
Record CONSOLE_SCREEN_BUFFER_INFO : Type := mk { dwSize : COORD; srWindow : SMALL_RECT }.
End BufferInfo.

(** Modelled from the spec: the arguments of [GetStdHandle], as [DWORD]s. *)
Definition STD_INPUT_HANDLE : Z := to_unsigned (-10).
Definition STD_OUTPUT_HANDLE : Z := to_unsigned (-11).

(** [WC_BGND], the background character [' ']. *)
Definition WC_BGND : Z := 32.

Record PROCESS : Type := mkPROCESS {
  (* the globals, the windows and the console, as above *)
  globals : STATE;
  (* the globals [LINES] and [COLS] of wincurses.h *)
  LINES : Z;
  COLS : Z;
  (* the standard output and input handles of the process *)
  std_output : HANDLE;
  std_input : HANDLE;
  (* per screen buffer: its viewport, its current text attributes and its
     cursor shape *)
  viewport : HANDLE -> SMALL_RECT;
  text_attributes : HANDLE -> Z;
  cursor_info : HANDLE -> CursorInfo.CONSOLE_CURSOR_INFO;
  (* the handles that the next screen buffers will get; none when the
     console cannot create one *)
  new_handles : list HANDLE;
  (* the addresses that the next calls to [malloc] will return; none when
     memory is exhausted *)
  new_blocks : list WINDOW_PTR;
  (* the addresses given back with [free] *)
  freed : list WINDOW_PTR
}.

Definition set_globals (v : STATE) (p : PROCESS) : PROCESS :=
  mkPROCESS v (LINES p) (COLS p) (std_output p) (std_input p) (viewport p)
            (text_attributes p) (cursor_info p) (new_handles p) (new_blocks p) (freed p).
Definition set_LINES (v : Z) (p : PROCESS) : PROCESS :=
  mkPROCESS (globals p) v (COLS p) (std_output p) (std_input p) (viewport p)
            (text_attributes p) (cursor_info p) (new_handles p) (new_blocks p) (freed p).
Definition set_COLS (v : Z) (p : PROCESS) : PROCESS :=
  mkPROCESS (globals p) (LINES p) v (std_output p) (std_input p) (viewport p)
            (text_attributes p) (cursor_info p) (new_handles p) (new_blocks p) (freed p).
Definition set_viewport (v : HANDLE -> SMALL_RECT) (p : PROCESS) : PROCESS :=
  mkPROCESS (globals p) (LINES p) (COLS p) (std_output p) (std_input p) v
            (text_attributes p) (cursor_info p) (new_handles p) (new_blocks p) (freed p).
Definition set_text_attributes (v : HANDLE -> Z) (p : PROCESS) : PROCESS :=
  mkPROCESS (globals p) (LINES p) (COLS p) (std_output p) (std_input p) (viewport p)
            v (cursor_info p) (new_handles p) (new_blocks p) (freed p).
Definition set_cursor_info (v : HANDLE -> CursorInfo.CONSOLE_CURSOR_INFO) (p : PROCESS)
    : PROCESS :=
  mkPROCESS (globals p) (LINES p) (COLS p) (std_output p) (std_input p) (viewport p)
            (text_attributes p) v (new_handles p) (new_blocks p) (freed p).
Definition set_new_handles (v : list HANDLE) (p : PROCESS) : PROCESS :=
  mkPROCESS (globals p) (LINES p) (COLS p) (std_output p) (std_input p) (viewport p)
            (text_attributes p) (cursor_info p) v (new_blocks p) (freed p).
Definition set_new_blocks (v : list WINDOW_PTR) (p : PROCESS) : PROCESS :=
  mkPROCESS (globals p) (LINES p) (COLS p) (std_output p) (std_input p) (viewport p)
            (text_attributes p) (cursor_info p) (new_handles p) v (freed p).
Definition set_freed (v : list WINDOW_PTR) (p : PROCESS) : PROCESS :=
  mkPROCESS (globals p) (LINES p) (COLS p) (std_output p) (std_input p) (viewport p)
            (text_attributes p) (cursor_info p) (new_handles p) (new_blocks p) v.

(** Assignments to the globals [stdscr], [hstdout], [hstdin] and [cursize],
    and to the members [size] and [hcon] of a window. *)
Definition set_stdscr (v : WINDOW_PTR) (st : STATE) : STATE :=
  mkSTATE (heap st) v (hstdout st) (hstdin st) (cursize st) (flags st) (COLORS st)
          (COLOR_PAIRS st) (colors st) (color_pairs st) (console st) (user_shorts st).
Definition set_hstdout (v : HANDLE) (st : STATE) : STATE :=
  mkSTATE (heap st) (stdscr st) v (hstdin st) (cursize st) (flags st) (COLORS st)
          (COLOR_PAIRS st) (colors st) (color_pairs st) (console st) (user_shorts st).
Definition set_hstdin (v : HANDLE) (st : STATE) : STATE :=
  mkSTATE (heap st) (stdscr st) (hstdout st) v (cursize st) (flags st) (COLORS st)
          (COLOR_PAIRS st) (colors st) (color_pairs st) (console st) (user_shorts st).
Definition set_cursize (v : Z) (st : STATE) : STATE :=
  mkSTATE (heap st) (stdscr st) (hstdout st) (hstdin st) v (flags st) (COLORS st)
          (COLOR_PAIRS st) (colors st) (color_pairs st) (console st) (user_shorts st).

Definition set_size (v : COORD) (w : WINDOW) : WINDOW :=
  mkWINDOW (rect w) v (cur w) (hcon w) (prim w) (bbuf w) (wflags w) (attrs w).
Definition set_hcon (v : list HANDLE) (w : WINDOW) : WINDOW :=
  mkWINDOW (rect w) (size w) (cur w) v (prim w) (bbuf w) (wflags w) (attrs w).

(** How a call ends: it returns, or the process has called [exit]. *)
Inductive outcome (A : Type) : Type :=
| returned (a : A) (p : PROCESS)
| exited (status : Z).

Arguments returned {A} a p.
Arguments exited {A} status.

(** The monad of the functions that work on the process. *)
Definition P (A : Type) : Type := PROCESS -> outcome A.

Definition retP {A : Type} (a : A) : P A := fun p => returned a p.

Definition bindP {A B : Type} (m : P A) (k : A -> P B) : P B :=
  fun p =>
    match m p with
    | returned a p' => k a p'
    | exited status => exited status
    end.

Notation "x <~ m ;; k" := (bindP m (fun x => k))
  (at level 61, m at next level, right associativity).
Notation "m ~;; k" := (bindP m (fun _ => k))
  (at level 61, right associativity).

(** [exit(status)]. *)
Definition exit {A : Type} (status : Z) : P A := fun _ => exited status.

(** A function of the library's state, run in the process. *)
Definition lift {A : Type} (m : M A) : P A :=
  fun p => let (a, st) := m (globals p) in returned a (set_globals st p).

Definition getsP {A : Type} (f : PROCESS -> A) : P A := fun p => returned (f p) p.
Definition modifyP (u : PROCESS -> PROCESS) : P unit := fun p => returned tt (u p).

(** Modelled from the spec: [malloc(sizeof(WINDOW))]; the next free address,
    or [NULL].  The block holds whatever the heap holds at that address. *)
Definition malloc : P WINDOW_PTR :=
  fun p =>
    match new_blocks p with
    | [] => returned NULL p
    | a :: rest => returned a (set_new_blocks rest p)
    end.

(** Modelled from the spec: [free(ptr)]. *)
Definition free (ptr : WINDOW_PTR) : P unit :=
  modifyP (fun p => set_freed (ptr :: freed p) p).

(** Modelled from the spec: [GetStdHandle(nStdHandle)]. *)
Definition GetStdHandle (nStdHandle : Z) : P HANDLE :=
  getsP (fun p =>
    if nStdHandle =? STD_OUTPUT_HANDLE then std_output p
    else if nStdHandle =? STD_INPUT_HANDLE then std_input p
    else INVALID_HANDLE_VALUE).

(** Modelled from the spec: the query for the viewport and the size of a
    screen buffer, [GetConsoleScreenBufferInfo(h, &info)]; the information,
    when the call succeeds. *)
Definition GetConsoleScreenBufferInfo (h : HANDLE)
    : P (option BufferInfo.CONSOLE_SCREEN_BUFFER_INFO) :=
  getsP (fun p =>
    match screens (console (globals p)) h with
    | Some b => Some (BufferInfo.mk (dwSize b) (viewport p h))
    | None => None
    end).

(** The console of the process, replaced. *)
Definition set_process_console (con : CONSOLE) (p : PROCESS) : PROCESS :=
  set_globals (set_console con (globals p)) p.

(** Modelled from the spec: the allocation of a character-cell buffer,
    [CreateConsoleScreenBuffer(...)] for a text-mode buffer.  The new buffer
    takes the size of the console window, that is of the viewport of the
    buffer displayed, and the text attributes and the cursor shape of that
    buffer; it is blank, and it is not displayed.  The result is its handle,
    or [INVALID_HANDLE_VALUE]. *)
Definition CreateConsoleScreenBuffer : P HANDLE :=
  fun p =>
    match new_handles p with
    | [] => returned INVALID_HANDLE_VALUE p
    | h :: rest =>
        let con := console (globals p) in
        let shown := viewport p (active con) in
        let cols := Right shown - Left shown + 1 in
        let rows := Bottom shown - Top shown + 1 in
        let attr := text_attributes p (active con) in
        let shape := cursor_info p (active con) in
        let b := {| dwSize := {| X := cols; Y := rows |};
                    dwCursorPosition := {| X := 0; Y := 0 |};
                    cells := fun _ _ => {| Char := 32; Attributes := attr |} |} in
        returned h
          (set_new_handles rest
          (set_cursor_info (fun h' => if h' =? h then shape else cursor_info p h')
          (set_text_attributes (fun h' => if h' =? h then attr else text_attributes p h')
          (set_viewport
             (fun h' => if h' =? h
                        then {| Left := 0; Top := 0; Right := cols - 1; Bottom := rows - 1 |}
                        else viewport p h')
          (set_process_console (set_screen con h b) p)))))
    end.

(** Modelled from the spec: [SetConsoleScreenBufferSize(h, size)].  The size
    must be positive and not smaller than the viewport of the buffer; cells
    that the buffer gains are blank. *)
Definition SetConsoleScreenBufferSize (h : HANDLE) (size : COORD) : P Z :=
  fun p =>
    let con := console (globals p) in
    match screens con h with
    | None => returned FALSE p
    | Some b =>
        let shown := viewport p h in
        if (Right shown - Left shown + 1 <=? X size) &&
           (Bottom shown - Top shown + 1 <=? Y size) &&
           (0 <? X size) && (0 <? Y size)
        then
          let cells' := fun y x =>
            if (y <? Y (dwSize b)) && (x <? X (dwSize b)) then cells b y x
            else {| Char := 32; Attributes := text_attributes p h |} in
          returned TRUE
            (set_process_console
               (set_screen con h {| dwSize := size;
                                    dwCursorPosition := dwCursorPosition b;
                                    cells := cells' |}) p)
        else returned FALSE p
    end.

(** Modelled from the spec: [FillConsoleOutputCharacter(h, ch, n, coord,
    &written)]: the character goes into [n] consecutive cells from [coord]
    on, row after row, up to the end of the buffer; the attributes of the
    cells stay.  The count written is not modelled, no caller reads it. *)
Definition FillConsoleOutputCharacter (h : HANDLE) (ch : Z) (n : Z) (coord : COORD)
    : P Z :=
  fun p =>
    let con := console (globals p) in
    match screens con h with
    | None => returned FALSE p
    | Some b =>
        if (0 <=? Y coord) && (Y coord <? Y (dwSize b)) &&
           (0 <=? X coord) && (X coord <? X (dwSize b))
        then
          let first := Y coord * X (dwSize b) + X coord in
          let cells' := fun y x =>
            let k := y * X (dwSize b) + x in
            if (0 <=? y) && (y <? Y (dwSize b)) && (0 <=? x) && (x <? X (dwSize b)) &&
               (first <=? k) && (k <? first + n)
            then {| Char := ch; Attributes := Attributes (cells b y x) |}
            else cells b y x in
          returned TRUE
            (set_process_console
               (set_screen con h {| dwSize := dwSize b;
                                    dwCursorPosition := dwCursorPosition b;
                                    cells := cells' |}) p)
        else returned FALSE p
    end.

(** Modelled from the spec: reading and setting the cursor shape of a
    screen buffer, [GetConsoleCursorInfo(h, &info)] and
    [SetConsoleCursorInfo(h, &info)]; the latter takes sizes from 1 to 100
    only. *)
Definition GetConsoleCursorInfo (h : HANDLE) : P (option CursorInfo.CONSOLE_CURSOR_INFO) :=
  getsP (fun p =>
    match screens (console (globals p)) h with
    | Some _ => Some (cursor_info p h)
    | None => None
    end).

Definition SetConsoleCursorInfo (h : HANDLE) (info : CursorInfo.CONSOLE_CURSOR_INFO) : P Z :=
  fun p =>
    match screens (console (globals p)) h with
    | None => returned FALSE p
    | Some _ =>
        if (1 <=? CursorInfo.dwSize info) && (CursorInfo.dwSize info <=? 100)
        then returned TRUE
               (set_cursor_info (fun h' => if h' =? h then info else cursor_info p h') p)
        else returned FALSE p
    end.

(** Modelled from the spec: releasing the handle of a screen buffer,
    [CloseHandle(h)]. *)
Definition CloseHandle (h : HANDLE) : P Z :=
  fun p =>
    let con := console (globals p) in
    match screens con h with
    | None => returned FALSE p
    | Some _ =>
        returned TRUE
          (set_process_console
             {| screens := fun h' => if h' =? h then None else screens con h';
                active := active con;
                input_mode := input_mode con;
                events := events con |} p)
    end.

(** [cls].  The result of [GetConsoleScreenBufferInfo] is not looked at:
    when the call fails, [coninfo] is what the stack held, [uninit]. *)
Definition cls (uninit : BufferInfo.CONSOLE_SCREEN_BUFFER_INFO) (hcon : HANDLE) : P unit :=
  (* Get console information *)
  got <~ GetConsoleScreenBufferInfo hcon ;;
  let coninfo := match got with Some info => info | None => uninit end in
  (* Calculate the number of spaces to fill ('size') *)
  let size := to_unsigned (to_int (Y (BufferInfo.dwSize coninfo) *
                                   X (BufferInfo.dwSize coninfo))) in
  (* We want to start at (0, 0) *)
  let orig := {| X := 0; Y := 0 |} in
  (* Now fill 'size' characters with WC_BGND starting at 'orig' *)
  FillConsoleOutputCharacter hcon WC_BGND size orig ~;;
  retP tt.

(** [initscr].  [uninit_coninfo] and [uninit_curinfo] are what the stack
    holds where [cls] and [initscr] keep the locals that a failed query
    leaves unset.  The member [flags] of the new window is not assigned. *)
Definition initscr (uninit_coninfo : BufferInfo.CONSOLE_SCREEN_BUFFER_INFO)
    (uninit_curinfo : CursorInfo.CONSOLE_CURSOR_INFO) : P WINDOW_PTR :=
  (* Allocate memory for a new window for stdscr *)
  scr <~ malloc ;;
  lift (modify (set_stdscr scr)) ~;;
  (* Sanity check: successfully allocated a screen *)
  if scr =? NULL then exit 1 else
  (* Set up our primary and back buffer indices *)
  lift (update scr (set_prim 0)) ~;;
  lift (update scr (set_bbuf (lnot_c 0))) ~;;
  (* Get and set up console information *)
  hout <~ GetStdHandle STD_OUTPUT_HANDLE ;;
  got <~ GetConsoleScreenBufferInfo hout ;;
  match got with
  | None => exit 1
  | Some coninfo =>
  lift (update scr (set_rect (BufferInfo.srWindow coninfo))) ~;;
  lift (update scr (fun w =>
    set_size {| X := X (size w);
                Y := to_short (Bottom (rect w) - Top (rect w) + 1) |} w)) ~;;
  lift (update scr (fun w =>
    set_size {| X := to_short (Right (rect w) - Left (rect w) + 1);
                Y := Y (size w) |} w)) ~;;
  w <~ lift (deref scr) ;;
  modifyP (set_LINES (Y (size w))) ~;;
  modifyP (set_COLS (X (size w))) ~;;
  (* Set cursor position to origin (0, 0) *)
  lift (update scr (fun w => set_cur {| X := 0; Y := Y (cur w) |} w)) ~;;
  lift (update scr (fun w => set_cur {| X := X (cur w); Y := 0 |} w)) ~;;
  (* Create our console buffers *)
  h <~ CreateConsoleScreenBuffer ;;
  lift (update scr (fun w => set_hcon (assign_elt (hcon w) (prim w) h) w)) ~;;
  (* Sanity check: console buffer successfully created *)
  w <~ lift (deref scr) ;;
  if hcon_at w (prim w) =? INVALID_HANDLE_VALUE then exit 1 else
  h <~ CreateConsoleScreenBuffer ;;
  lift (update scr (fun w => set_hcon (assign_elt (hcon w) (bbuf w) h) w)) ~;;
  (* Sanity check: console buffer successfully created *)
  w <~ lift (deref scr) ;;
  if hcon_at w (bbuf w) =? INVALID_HANDLE_VALUE then exit 1 else
  (* Set the size of our buffers to match the window size *)
  res <~ SetConsoleScreenBufferSize (hcon_at w (prim w)) (size w) ;;
  if res =? 0 then exit 1 else
  res <~ SetConsoleScreenBufferSize (hcon_at w (bbuf w)) (size w) ;;
  if res =? 0 then exit 1 else
  (* Clear our buffers *)
  cls uninit_coninfo (hcon_at w (prim w)) ~;;
  cls uninit_coninfo (hcon_at w (bbuf w)) ~;;
  (* Save a handle to our (soon to be) old console buffer *)
  hout <~ GetStdHandle STD_OUTPUT_HANDLE ;;
  lift (modify (set_hstdout hout)) ~;;
  (* Sanity check: able to get handle *)
  if hout =? INVALID_HANDLE_VALUE then exit 1 else
  (* Grab our standard cursor size *)
  got <~ GetConsoleCursorInfo hout ;;
  let curinfo := match got with Some info => info | None => uninit_curinfo end in
  lift (modify (set_cursize (CursorInfo.dwSize curinfo))) ~;;
  (* Get a handle to our input buffer *)
  hin <~ GetStdHandle STD_INPUT_HANDLE ;;
  lift (modify (set_hstdin hin)) ~;;
  (* Sanity check: able to get handle *)
  if hin =? INVALID_HANDLE_VALUE then exit 1 else
  (* Set any window attributes initially to grey text, black background *)
  lift (update scr (set_attrs
    (to_WORD (Z.lor (Z.lor FOREGROUND_RED FOREGROUND_GREEN) FOREGROUND_BLUE)))) ~;;
  (* Start with a clean console mode *)
  res <~ lift (call_SetConsoleMode hin 0) ;;
  if res =? 0 then exit 1 else
  (* Set the primary buffer as the current console screen buffer *)
  w <~ lift (deref scr) ;;
  res <~ lift (call_SetConsoleActiveScreenBuffer (hcon_at w (prim w))) ;;
  if res =? 0 then exit 1 else
  (* Return the default window (stdscr) *)
  retP scr
  end.

(** [endwin].  No result of a console call is looked at. *)
Definition endwin : P Z :=
  (* Restore our saved stdout *)
  hout <~ lift (gets hstdout) ;;
  lift (call_SetConsoleActiveScreenBuffer hout) ~;;
  (* Close the handle to our buffers *)
  scr <~ lift (gets stdscr) ;;
  w <~ lift (deref scr) ;;
  CloseHandle (hcon_at w (prim w)) ~;;
  w <~ lift (deref scr) ;;
  CloseHandle (hcon_at w (bbuf w)) ~;;
  (* Free the stdscr pointer *)
  free scr ~;;
  retP OK.

(** [curs_set]. *)
Definition curs_set (visibility : Z) : P Z :=
  scr <~ lift (gets stdscr) ;;
  w <~ lift (deref scr) ;;
  (* Get our old cursor information *)
  got <~ GetConsoleCursorInfo (hcon_at w (prim w)) ;;
  match got with
  | None => retP ERR
  | Some curold =>
  (* Copy our old cursor information to our new cursor *)
  let curinfo := curold in
  (* Assign the proper visibility *)
  assigned <~
    (if visibility =? 0 then
       retP (Some (CursorInfo.mk (CursorInfo.dwSize curinfo) FALSE))
     else if visibility =? 1 then
       cs <~ lift (gets cursize) ;;
       retP (Some (CursorInfo.mk cs TRUE))
     else if visibility =? 2 then
       retP (Some (CursorInfo.mk 100 TRUE))
     else retP None) ;;
  match assigned with
  | None => retP ERR
  | Some curinfo =>
  (* Apply the new visibility settings to all buffers *)
  r1 <~ SetConsoleCursorInfo (hcon_at w (prim w)) curinfo ;;
  r2 <~ SetConsoleCursorInfo (hcon_at w (bbuf w)) curinfo ;;
  let r := Z.lor r1 r2 in
  if r =? 0 then retP ERR else
  (* Return our old state *)
  if CursorInfo.bVisible curold =? FALSE then retP 0 else
  cs <~ lift (gets cursize) ;;
  if CursorInfo.dwSize curold =? cs then retP 1 else
  retP 2
  end
  end.

(** ** A session to run the functions on

    The state that [initscr] leaves behind on an 80 x 25 console whose
    viewport starts at the origin: two blank screen buffers under the handles
    100 and 101, the console input under handle 3 with a clean mode, the
    default window at address 4096 showing buffer 0.  A second window, owned
    by the caller, lives at address 8192 and draws into buffers of its own. *)

Definition blank_buffer : SCREEN_BUFFER :=
  {| dwSize := {| X := 80; Y := 25 |};
     dwCursorPosition := {| X := 0; Y := 0 |};
     cells := fun _ _ => {| Char := 32; Attributes := 7 |} |}.

Definition console0 : CONSOLE :=
  {| screens := fun h =>
       if (h =? 7) || (h =? 100) || (h =? 101) || (h =? 200) || (h =? 201)
       then Some blank_buffer else None;
     active := 100;
     input_mode := fun h => if h =? 3 then Some 0 else None;
     events := [] |}.

Definition stdscr0 : WINDOW :=
  {| rect := {| Left := 0; Top := 0; Right := 79; Bottom := 24 |};
     size := {| X := 80; Y := 25 |};
     cur := {| X := 0; Y := 0 |};
     hcon := [100; 101];
     prim := 0;
     bbuf := 1;
     wflags := 0;
     attrs := 7 |}.

Definition window1 : WINDOW :=
  {| rect := {| Left := 0; Top := 0; Right := 79; Bottom := 24 |};
     size := {| X := 80; Y := 25 |};
     cur := {| X := 4; Y := 3 |};
     hcon := [200; 201];
     prim := 0;
     bbuf := 1;
     wflags := 0;
     attrs := 7 |}.

Definition session0 : STATE :=
  {| heap := fun p => if p =? 8192 then window1 else stdscr0;
     stdscr := 4096;
     hstdout := 7;
     hstdin := 3;
     cursize := 25;
     flags := 0;
     COLORS := 0;
     COLOR_PAIRS := 0;
     colors := repeat color0 (Z.to_nat NUM_COLORS);
     color_pairs := repeat pair0 (Z.to_nat MAX_NUM_PAIRS);
     console := console0;
     user_shorts := fun _ => -1 |}.

(** ** Basic facts about the embedding *)

Definition is_SHORT (z : Z) : Prop := -32768 <= z <= 32767.

Lemma to_short_id (z : Z) : is_SHORT z -> to_short z = z.
Proof.
  unfold is_SHORT, to_short. intros H.
  rewrite Z.mod_small by lia. lia.
Qed.

Lemma heap_update_same (win : WINDOW_PTR) (u : WINDOW -> WINDOW) (st : STATE) :
  heap (snd (update win u st)) win = u (heap st win).
Proof.
  unfold update, modify. simpl. now rewrite Z.eqb_refl.
Qed.

Lemma heap_update_other (win p : WINDOW_PTR) (u : WINDOW -> WINDOW) (st : STATE) :
  p <> win -> heap (snd (update win u st)) p = heap st p.
Proof.
  intros Hp. unfold update, modify. simpl.
  destruct (Z.eqb_spec p win); [contradiction | reflexivity].
Qed.

(** ** wmove *)

Lemma wmove_out_of_bounds (win : WINDOW_PTR) (y x : Z) (st : STATE) :
  y < 0 \/ y >= Y (size (heap st win)) \/ x < 0 \/ x >= X (size (heap st win)) ->
  wmove win y x st = (ERR, st).
Proof.
  intros H. unfold wmove, bind, deref, gets.
  replace ((y >=? Y (size (heap st win))) || (x >=? X (size (heap st win)))
           || (y <? 0) || (x <? 0)) with true; [reflexivity |].
  symmetry. rewrite !orb_true_iff. rewrite !Z.geb_le, !Z.ltb_lt. lia.
Qed.

Lemma wmove_in_bounds (win : WINDOW_PTR) (y x : Z) (st : STATE) :
  0 <= y < Y (size (heap st win)) -> 0 <= x < X (size (heap st win)) ->
  let st' := snd (wmove win y x st) in
  fst (wmove win y x st) = OK /\
  heap st' win = set_cur {| X := to_short x; Y := to_short y |} (heap st win) /\
  (forall p, p <> win -> heap st' p = heap st p) /\
  set_heap (heap st) st' = st.
Proof.
  intros Hy Hx. unfold wmove, bind, deref, gets.
  replace ((y >=? Y (size (heap st win))) || (x >=? X (size (heap st win)))
           || (y <? 0) || (x <? 0)) with false.
  - unfold update, modify, ret. simpl. rewrite !Z.eqb_refl. repeat split.
    + intros p Hp. destruct (Z.eqb_spec p win); [contradiction | reflexivity].
    + now destruct st.
  - symmetry. rewrite !orb_false_iff. rewrite !Z.geb_leb, !Z.leb_gt, !Z.ltb_ge. lia.
Qed.

Lemma wmove_sets_cursor_in_bounds_aux (st : STATE) (win : WINDOW_PTR) (y x : Z) :
  is_SHORT (Y (size (heap st win))) ->
  is_SHORT (X (size (heap st win))) ->
  0 <= y < Y (size (heap st win)) -> 0 <= x < X (size (heap st win)) ->
  cur (heap (snd (wmove win y x st)) win) = {| X := x; Y := y |}.
Proof.
  intros HY HX Hy Hx.
  destruct (wmove_in_bounds win y x st Hy Hx) as (_ & Hwin & _).
  rewrite Hwin. simpl.
  rewrite !to_short_id by (unfold is_SHORT in *; lia).
  reflexivity.
Qed.

(** C8.  On any window, [wmove] to a position inside the window's size
    returns [OK] and leaves the cursor at exactly that position; a position
    with a negative coordinate, or one at or beyond the size, makes it return
    [ERR] with the cursor (and everything else) as it was.  The size members
    are [SHORT]s, which is all that is assumed. *)
Theorem wmove_sets_cursor_iff_in_bounds (st : STATE) (win : WINDOW_PTR) (y x : Z) :
  is_SHORT (Y (size (heap st win))) ->
  is_SHORT (X (size (heap st win))) ->
  (0 <= y < Y (size (heap st win)) -> 0 <= x < X (size (heap st win)) ->
     fst (wmove win y x st) = OK /\
     cur (heap (snd (wmove win y x st)) win) = {| X := x; Y := y |}) /\
  (y < 0 \/ y >= Y (size (heap st win)) \/ x < 0 \/ x >= X (size (heap st win)) ->
     fst (wmove win y x st) = ERR /\
     cur (heap (snd (wmove win y x st)) win) = cur (heap st win) /\
     snd (wmove win y x st) = st).
Proof.
  intros HY HX. split.
  - intros Hy Hx.
    destruct (wmove_in_bounds win y x st Hy Hx) as (Hok & Hwin & _).
    split; [exact Hok |].
    now apply wmove_sets_cursor_in_bounds_aux.
  - intros Hout. rewrite (wmove_out_of_bounds win y x st Hout). simpl. auto.
Qed.

Lemma wmove_sets_cursor_iff_in_bounds_witness :
  (fst (wmove 4096 3 4 session0) = OK /\
   cur (heap (snd (wmove 4096 3 4 session0)) 4096) = {| X := 4; Y := 3 |}) /\
  (fst (wmove 4096 25 0 session0) = ERR /\
   cur (heap (snd (wmove 4096 25 0 session0)) 4096) = cur (heap session0 4096) /\
   snd (wmove 4096 25 0 session0) = session0).
Proof.
  split.
  - apply (wmove_sets_cursor_iff_in_bounds session0 4096 3 4);
      unfold is_SHORT; simpl; lia.
  - apply (wmove_sets_cursor_iff_in_bounds session0 4096 25 0);
      unfold is_SHORT; simpl; lia.
Defined.

Lemma wmove_frame (win : WINDOW_PTR) (y x : Z) (st : STATE) :
  let st' := snd (wmove win y x st) in
  (forall p, size (heap st' p) = size (heap st p)) /\
  (forall p, p <> win -> heap st' p = heap st p) /\
  set_heap (heap st) st' = st.
Proof.
  destruct (Z_lt_ge_dec y 0) as [Hy0 | Hy0];
    [rewrite wmove_out_of_bounds by lia; simpl; repeat split; now destruct st |].
  destruct (Z_lt_ge_dec y (Y (size (heap st win)))) as [Hy1 | Hy1];
    [| rewrite wmove_out_of_bounds by lia; simpl; repeat split; now destruct st].
  destruct (Z_lt_ge_dec x 0) as [Hx0 | Hx0];
    [rewrite wmove_out_of_bounds by lia; simpl; repeat split; now destruct st |].
  destruct (Z_lt_ge_dec x (X (size (heap st win)))) as [Hx1 | Hx1];
    [| rewrite wmove_out_of_bounds by lia; simpl; repeat split; now destruct st].
  destruct (wmove_in_bounds win y x st) as (_ & Hwin & Hother & Hrest); try lia.
  cbv zeta. repeat split; try assumption.
  intros p. destruct (Z.eq_dec p win) as [-> | Hp].
  - rewrite Hwin. reflexivity.
  - now rewrite Hother.
Qed.

(** ** mvwgetch *)

(** C10.  [mvwgetch win y x] reads from [win] in the state that
    [wmove stdscr y x] produced: for a position inside the default window's
    size the cursor of [stdscr] is then at ([y], [x]), and when [win] is not
    [stdscr] the object [win] points to (its cursor included) is what it was
    before the call. *)
Theorem mvwgetch_moves_stdscr_not_win (st : STATE) (win : WINDOW_PTR) (y x : Z) :
  is_SHORT (Y (size (heap st (stdscr st)))) ->
  is_SHORT (X (size (heap st (stdscr st)))) ->
  0 <= y < Y (size (heap st (stdscr st))) ->
  0 <= x < X (size (heap st (stdscr st))) ->
  let st1 := snd (wmove (stdscr st) y x st) in
  mvwgetch win y x st = wgetch win st1 /\
  cur (heap st1 (stdscr st)) = {| X := x; Y := y |} /\
  (win <> stdscr st ->
     heap st1 win = heap st win /\ cur (heap st1 win) = cur (heap st win)).
Proof.
  intros HY HX Hy Hx st1. split; [| split].
  - unfold mvwgetch. subst st1. now destruct (wmove (stdscr st) y x st).
  - apply (wmove_sets_cursor_in_bounds_aux st (stdscr st) y x HY HX Hy Hx).
  - intros Hwin.
    destruct (wmove_frame (stdscr st) y x st) as (_ & Hother & _).
    fold st1 in Hother. now rewrite (Hother win Hwin).
Qed.

Lemma mvwgetch_moves_stdscr_not_win_witness :
  mvwgetch 8192 10 20 session0 = wgetch 8192 (snd (wmove 4096 10 20 session0)) /\
  cur (heap (snd (wmove 4096 10 20 session0)) 4096) = {| X := 20; Y := 10 |} /\
  (8192 <> 4096 ->
     heap (snd (wmove 4096 10 20 session0)) 8192 = window1 /\
     cur (heap (snd (wmove 4096 10 20 session0)) 8192) = {| X := 4; Y := 3 |}).
Proof.
  apply (mvwgetch_moves_stdscr_not_win session0 8192 10 20);
    unfold is_SHORT; simpl; lia.
Defined.

(** ** va_wprintw and the printw family *)

(** The text fits the temporary buffer of [va_wprintw], which is sized from
    the default window whatever window is written to. *)
Definition fits (st : STATE) (text : list chtype) : Prop :=
  Z.of_nat (length text) <
    Y (size (heap st (stdscr st))) * X (size (heap st (stdscr st))).

(** [written win s st st']: [waddch] accepted every character of [s] in turn,
    none of them the terminating zero, and took [st] to [st']. *)
Inductive written (win : WINDOW_PTR) : list chtype -> STATE -> STATE -> Prop :=
| written_nil (st : STATE) : written win [] st st
| written_cons (c : chtype) (s : list chtype) (st st' st'' : STATE) :
    c <> 0 ->
    waddch win c st = (OK, st') ->
    written win s st' st'' ->
    written win (c :: s) st st''.

Lemma va_wprintw_loop_stops (win : WINDOW_PTR) (pre : list chtype) (c : chtype)
    (post : list chtype) (st st1 : STATE) :
  written win pre st st1 ->
  c <> 0 ->
  fst (waddch win c st1) = ERR ->
  snd (va_wprintw_loop win (pre ++ c :: post) st) = snd (waddch win c st1).
Proof.
  intros Hpre Hc Hfail. induction Hpre as [st | c0 s st st' st'' Hc0 Hw _ IH].
  - simpl. unfold bind.
    destruct (Z.eqb_spec c 0); [contradiction |].
    destruct (waddch win c st) as [res st2]. simpl in *. subst res. reflexivity.
  - simpl. unfold bind.
    destruct (Z.eqb_spec c0 0); [contradiction |].
    rewrite Hw. simpl. apply IH. exact Hfail.
Qed.

Lemma va_wprintw_fits (win : WINDOW_PTR) (text : list chtype) (st : STATE) :
  fits st text ->
  va_wprintw win (Some text) st = (OK, snd (va_wprintw_loop win text st)).
Proof.
  unfold fits. intros Hfits.
  unfold va_wprintw, bind, gets, deref, vsprintf_s. simpl.
  destruct (Z.ltb_spec (Z.of_nat (length text))
              (Y (size (heap st (stdscr st))) * X (size (heap st (stdscr st)))));
    [| lia].
  simpl.
  destruct (Z.ltb_spec (Z.of_nat (length text)) 0); [lia |].
  destruct (va_wprintw_loop win text st). reflexivity.
Qed.

Lemma fits_after_wmove (win : WINDOW_PTR) (y x : Z) (st : STATE) (text : list chtype) :
  fits st text -> fits (snd (wmove win y x st)) text.
Proof.
  unfold fits.
  destruct (wmove_frame win y x st) as (Hsize & _ & Hrest).
  cbv zeta in Hsize, Hrest. intros H.
  assert (Hscr : stdscr (snd (wmove win y x st)) = stdscr st)
    by (now rewrite <- Hrest at 2).
  now rewrite Hscr, Hsize.
Qed.

(** C9.  When the rendered text fits the temporary buffer, [va_wprintw]
    returns [OK], and so do [printw], [wprintw], [mvprintw] and [mvwprintw]
    (the two that test their window for [NULL] when it is not [NULL]),
    whatever [waddch] returned along the way.  If [waddch] accepted the
    characters of a prefix and returned [ERR] on the next one, the state
    [va_wprintw] leaves is the state that failed call left: the rest of the
    text is not written, and the result is [OK] all the same. *)
Theorem va_wprintw_hides_waddch_failure (st : STATE) (win : WINDOW_PTR)
    (text : list chtype) :
  fits st text ->
  fst (va_wprintw win (Some text) st) = OK /\
  fst (printw (Some text) st) = OK /\
  (win <> NULL -> fst (wprintw win (Some text) st) = OK) /\
  (forall y x, fst (mvprintw y x (Some text) st) = OK) /\
  (forall y x, win <> NULL -> fst (mvwprintw win y x (Some text) st) = OK) /\
  (forall pre c post st1,
     text = pre ++ c :: post ->
     written win pre st st1 ->
     c <> 0 ->
     fst (waddch win c st1) = ERR ->
     snd (va_wprintw win (Some text) st) = snd (waddch win c st1)).
Proof.
  intros Hfits. repeat split.
  - now rewrite va_wprintw_fits.
  - unfold printw, bind, gets. now rewrite va_wprintw_fits.
  - intros Hwin. unfold wprintw.
    destruct (Z.eqb_spec win NULL); [contradiction |].
    now rewrite va_wprintw_fits.
  - intros y x. unfold mvprintw, bind, deref, gets.
    pose proof (fits_after_wmove (stdscr st) y x st text Hfits) as Hfits'.
    destruct (wmove (stdscr st) y x st) as [res st1]. simpl in Hfits'.
    rewrite (va_wprintw_fits _ _ _ Hfits'). reflexivity.
  - intros y x Hwin. unfold mvwprintw, bind, deref, gets.
    destruct (Z.eqb_spec win NULL); [contradiction |].
    pose proof (fits_after_wmove win y x st text Hfits) as Hfits'.
    destruct (wmove win y x st) as [res st1]. simpl in Hfits'.
    rewrite (va_wprintw_fits _ _ _ Hfits'). reflexivity.
  - intros pre c post st1 -> Hpre Hc Hfail.
    rewrite va_wprintw_fits by assumption. simpl.
    now apply va_wprintw_loop_stops.
Qed.

(** The session after the caller closed the handle of the second window's
    back buffer: every cell write to that window fails. *)
Definition session_closed : STATE :=
  set_console
    {| screens := fun h => if h =? 201 then None else screens console0 h;
       active := active console0;
       input_mode := input_mode console0;
       events := events console0 |}
    session0.

Lemma va_wprintw_hides_waddch_failure_witness :
  fst (waddch 8192 97 (snd (waddch 8192 10 session_closed))) = ERR /\
  fst (va_wprintw 8192 (Some [10; 97; 98]) session_closed) = OK /\
  snd (va_wprintw 8192 (Some [10; 97; 98]) session_closed) =
    snd (waddch 8192 97 (snd (waddch 8192 10 session_closed))).
Proof.
  assert (Hfits : fits session_closed [10; 97; 98]) by (unfold fits; simpl; lia).
  destruct (va_wprintw_hides_waddch_failure session_closed 8192 [10; 97; 98] Hfits)
    as (Hok & _ & _ & _ & _ & Hstop).
  split; [reflexivity |]. split; [exact Hok |].
  apply (Hstop [10] 97 [98]).
  - reflexivity.
  - apply written_cons with (st' := snd (waddch 8192 10 session_closed)).
    + lia.
    + reflexivity.
    + apply written_nil.
  - lia.
  - reflexivity.
Defined.

(** ** mvwprintw and mvprintw *)

Lemma va_wprintw_ERR_unchanged (win : WINDOW_PTR) (rendered : option (list chtype))
    (st : STATE) :
  fst (va_wprintw win rendered st) = ERR -> snd (va_wprintw win rendered st) = st.
Proof.
  unfold va_wprintw, bind, deref, gets.
  destruct (fst (vsprintf_s _ rendered) <? 0); [reflexivity |].
  destruct (va_wprintw_loop win _ st). simpl. discriminate.
Qed.

(** [mvprintw] puts the cursor of the default window back when the write
    step fails. *)
Lemma mvprintw_restores_cursor (y x : Z) (rendered : option (list chtype)) (st : STATE) :
  fst (mvprintw y x rendered st) = ERR ->
  cur (heap (snd (mvprintw y x rendered st)) (stdscr st)) = cur (heap st (stdscr st)).
Proof.
  unfold mvprintw, bind, deref, gets.
  destruct (wmove (stdscr st) y x st) as [r0 st1].
  destruct (va_wprintw (stdscr st) rendered st1) as [res st2].
  destruct (Z.eqb_spec res ERR) as [-> | Hres].
  - intros _. unfold update, modify, ret. simpl. now rewrite Z.eqb_refl.
  - unfold ret. simpl. intros Heq. contradiction.
Qed.

(** [mvwprintw] does the same when it is given the default window ... *)
Lemma mvwprintw_restores_cursor_of_stdscr (y x : Z) (rendered : option (list chtype))
    (st : STATE) :
  fst (mvwprintw (stdscr st) y x rendered st) = ERR ->
  cur (heap (snd (mvwprintw (stdscr st) y x rendered st)) (stdscr st)) =
    cur (heap st (stdscr st)).
Proof.
  unfold mvwprintw, bind, deref, gets.
  destruct (stdscr st =? NULL); [reflexivity |].
  destruct (wmove (stdscr st) y x st) as [r0 st1].
  destruct (va_wprintw (stdscr st) rendered st1) as [res st2].
  destruct (Z.eqb_spec res ERR) as [-> | Hres].
  - intros _. unfold update, modify, ret. simpl. now rewrite Z.eqb_refl.
  - unfold ret. simpl. intros Heq. contradiction.
Qed.

(** ... but for any other window the cursor that is saved and put back is
    still the default window's: after a failed write step the window's own
    cursor stays where [wmove] put it. *)
Lemma mvwprintw_leaves_other_window_moved (win : WINDOW_PTR) (y x : Z)
    (rendered : option (list chtype)) (st : STATE) :
  win <> NULL -> win <> stdscr st ->
  is_SHORT (Y (size (heap st win))) -> is_SHORT (X (size (heap st win))) ->
  0 <= y < Y (size (heap st win)) -> 0 <= x < X (size (heap st win)) ->
  fst (mvwprintw win y x rendered st) = ERR ->
  cur (heap (snd (mvwprintw win y x rendered st)) win) = {| X := x; Y := y |}.
Proof.
  intros Hnull Hscr HY HX Hy Hx.
  pose proof (wmove_sets_cursor_in_bounds_aux st win y x HY HX Hy Hx) as Hcur.
  destruct (wmove_frame win y x st) as (_ & _ & Hrest). cbv zeta in Hrest.
  assert (Hs : stdscr (snd (wmove win y x st)) = stdscr st)
    by (now rewrite <- Hrest at 2).
  unfold mvwprintw, bind, deref, gets.
  destruct (Z.eqb_spec win NULL); [contradiction |].
  destruct (wmove win y x st) as [r0 st1]. simpl in Hcur, Hs.
  pose proof (va_wprintw_ERR_unchanged win rendered st1) as Hva.
  destruct (va_wprintw win rendered st1) as [res st2]. simpl in Hva.
  destruct (Z.eqb_spec res ERR) as [-> | Hres].
  - intros _. rewrite (Hva eq_refl).
    unfold update, modify, ret. simpl.
    destruct (Z.eqb_spec win (stdscr st)); [contradiction | exact Hcur].
  - unfold ret. simpl. intros Heq. contradiction.
Qed.

(** A text of 2000 characters: with its terminating zero it does not fit the
    2000 characters that [va_wprintw] allocates on the 80 x 25 session. *)
Definition long_text : list chtype := repeat 120 2000.

(** C5, on the session: the second window's cursor is at row 3, column 4; a
    [mvwprintw] to (0, 0) of that window whose text does not fit the
    temporary buffer returns [ERR] and leaves that cursor at (0, 0).  What
    was saved and put back is the cursor of [stdscr]. *)
Theorem mvwprintw_failed_write_keeps_move :
  cur (heap session0 8192) = {| X := 4; Y := 3 |} /\
  fst (mvwprintw 8192 0 0 (Some long_text) session0) = ERR /\
  cur (heap (snd (mvwprintw 8192 0 0 (Some long_text) session0)) 8192) =
    {| X := 0; Y := 0 |} /\
  cur (heap (snd (mvwprintw 8192 0 0 (Some long_text) session0)) 4096) =
    cur (heap session0 4096).
Proof.
  vm_compute. repeat split.
Qed.

(** ** The input mode *)

(** [setmode] returns [ERR] and leaves the console alone, whatever the
    console answers. *)
Lemma setmode_always_ERR (hcon : HANDLE) (bmask : Z) (st : STATE) :
  setmode hcon bmask st = (ERR, st).
Proof.
  unfold setmode, bind, call_GetConsoleMode, gets, ret.
  now destruct (GetConsoleMode (console st) hcon).
Qed.

(** ... and so [cbreak] never returns [OK], nor do [nocbreak] and [noraw]. *)
Lemma cbreak_always_ERR (st : STATE) : fst (cbreak st) = ERR.
Proof.
  unfold cbreak, bind, gets.
  destruct (clearmode (hstdin st) ENABLE_LINE_INPUT st) as [res st1].
  destruct (res =? ERR); [reflexivity |].
  now rewrite setmode_always_ERR.
Qed.

(** When the console reports and accepts modes, [clearmode] does its work. *)
Lemma clearmode_clears (hcon : HANDLE) (bmask mode : Z) (st : STATE) :
  GetConsoleMode (console st) hcon = Some mode ->
  fst (clearmode hcon bmask st) = OK /\
  GetConsoleMode (console (snd (clearmode hcon bmask st))) hcon =
    Some (to_unsigned (Z.land mode (Z.lnot bmask))).
Proof.
  unfold GetConsoleMode. intros Hmode.
  unfold clearmode, bind, call_GetConsoleMode, call_SetConsoleMode, gets, ret,
    GetConsoleMode, SetConsoleMode.
  rewrite Hmode. simpl. rewrite Hmode. simpl. now rewrite Z.eqb_refl.
Qed.

(** C6, on the session, whose console reports its input mode and accepts
    every mode it is given: [cbreak] returns [ERR], and the processed-input
    bit is not set afterwards. *)
Theorem cbreak_fails_on_working_console :
  GetConsoleMode (console session0) (hstdin session0) = Some 0 /\
  (forall m, fst (SetConsoleMode (console session0) (hstdin session0) m) = TRUE) /\
  fst (cbreak session0) = ERR /\
  (exists m,
     GetConsoleMode (console (snd (cbreak session0))) (hstdin session0) = Some m /\
     Z.land m ENABLE_PROCESSED_INPUT = 0).
Proof.
  split; [reflexivity |]. split; [reflexivity |]. split; [reflexivity |].
  exists 0. split; reflexivity.
Qed.

(** ** Color pairs in an attribute word *)

(** The round trip holds for the pair numbers whose encoding does not reach
    the sign bit ... *)
Lemma PAIR_NUMBER_COLOR_PAIR_below_32 (p : Z) :
  0 <= p < 32 -> PAIR_NUMBER (COLOR_PAIR p) = p.
Proof.
  intros Hp. unfold PAIR_NUMBER, COLOR_PAIR, A_COLOR_DATA, COLOR_BITS, to_int.
  change (32 - 6) with 26.
  rewrite Z.shiftl_mul_pow2, Z.shiftr_div_pow2 by lia.
  change (2 ^ 26) with 67108864.
  rewrite Z.mod_small by lia.
  replace (p * 67108864 + 2147483648 - 2147483648) with (p * 67108864) by lia.
  apply Z.div_mul. lia.
Qed.

(** ... and from 32 on the encoding is a negative [int], whose arithmetic
    shift gives the pair number less 64. *)
Lemma PAIR_NUMBER_COLOR_PAIR_from_32 (p : Z) :
  32 <= p < 64 -> PAIR_NUMBER (COLOR_PAIR p) = p - 64.
Proof.
  intros Hp. unfold PAIR_NUMBER, COLOR_PAIR, A_COLOR_DATA, COLOR_BITS, to_int.
  change (32 - 6) with 26.
  rewrite Z.shiftl_mul_pow2, Z.shiftr_div_pow2 by lia.
  change (2 ^ 26) with 67108864.
  replace (p * 67108864 + 2147483648)
    with ((p * 67108864 - 2147483648) + 1 * 4294967296) by lia.
  rewrite Z.mod_add by lia.
  rewrite Z.mod_small by lia.
  replace (p * 67108864 - 2147483648 - 2147483648) with ((p - 64) * 67108864) by lia.
  apply Z.div_mul. lia.
Qed.

(** C2, at pair 32, a pair number below [MAX_NUM_PAIRS]: [COLOR_PAIR 32] is
    the most negative [int] and [PAIR_NUMBER] of it is -32. *)
Theorem PAIR_NUMBER_COLOR_PAIR_32 :
  32 < MAX_NUM_PAIRS /\
  COLOR_PAIR 32 = -2147483648 /\
  PAIR_NUMBER (COLOR_PAIR 32) = -32.
Proof.
  repeat split.
Qed.

(** ** The pair table *)

Lemma has_colors_eq (st : STATE) :
  has_colors st = (TRUE, set_COLOR_PAIRS MAX_NUM_PAIRS (set_COLORS NUM_COLORS st)).
Proof.
  reflexivity.
Qed.

(** [init_pair] turns pair 0 down in every state. *)
Lemma init_pair_0_ERR (f b : Z) (st : STATE) : fst (init_pair 0 f b st) = ERR.
Proof.
  unfold init_pair, andc, bind, gets, ret.
  destruct (truth (Z.land (flags st) WC_COLOR)); [| reflexivity].
  rewrite has_colors_eq. simpl.
  now destruct (0 <? 64).
Qed.

Lemma nth_assign_nth_same {A : Type} (n : nat) (v d : A) (a : list A) :
  (n < length a)%nat -> nth n (assign_nth n v a) d = v.
Proof.
  revert n. induction a as [| x a IH]; intros n Hn; simpl in *.
  - lia.
  - destruct n as [| n]; simpl; [reflexivity | apply IH; lia].
Qed.

Lemma nth_assign_nth_other {A : Type} (n m : nat) (v d : A) (a : list A) :
  n <> m -> nth m (assign_nth n v a) d = nth m a d.
Proof.
  revert n m. induction a as [| x a IH]; intros n m Hnm.
  - now destruct n.
  - destruct n as [| n], m as [| m]; simpl; try reflexivity; try lia.
    apply IH. lia.
Qed.

Lemma length_assign_nth {A : Type} (n : nat) (v : A) (a : list A) :
  length (assign_nth n v a) = length a.
Proof.
  revert n. induction a as [| x a IH]; intros n; simpl.
  - reflexivity.
  - destruct n; simpl; [reflexivity | now rewrite IH].
Qed.

(** With colors on, [init_pair] accepts every pair from 1 to 63 and the
    table then holds the two colors under that pair. *)
Lemma init_pair_stores (p f b : Z) (st : STATE) :
  Z.land (flags st) WC_COLOR <> 0 ->
  length (color_pairs st) = Z.to_nat MAX_NUM_PAIRS ->
  1 <= p < MAX_NUM_PAIRS ->
  fst (init_pair p f b st) = OK /\
  elt pair0 (color_pairs (snd (init_pair p f b st))) p = ColorInfo.mk f b.
Proof.
  intros Hflag Hlen Hp.
  unfold init_pair, andc, bind, gets, ret, truth.
  destruct (Z.eqb_spec (Z.land (flags st) WC_COLOR) 0); [contradiction |].
  cbn [negb]. rewrite has_colors_eq.
  change (negb (TRUE =? 0)) with true. cbv iota.
  cbn [COLOR_PAIRS set_COLOR_PAIRS].
  destruct (Z.ltb_spec p MAX_NUM_PAIRS); [| lia].
  replace (p >? 0) with true by (symmetry; apply Z.gtb_lt; lia).
  unfold modify.
  cbn [fst snd color_pairs set_color_pairs set_COLOR_PAIRS set_COLORS].
  split; [reflexivity |].
  unfold elt, assign_elt, MAX_NUM_PAIRS in *.
  rewrite nth_assign_nth_same by (rewrite length_assign_nth; lia).
  rewrite nth_assign_nth_same by lia.
  reflexivity.
Qed.

(** [pair_content] changes nothing but [COLORS] and [COLOR_PAIRS]: no
    variable of the caller and no table entry is written, whatever it
    returns. *)
Lemma pair_content_stores_nothing (pair : Z) (f b : short_ptr) (st : STATE) (p : short_ptr) :
  load (snd (pair_content pair f b st)) p = load st p.
Proof.
  unfold pair_content, andc, bind, gets, ret.
  destruct (truth (Z.land (flags st) WC_COLOR)); [| reflexivity].
  rewrite has_colors_eq.
  change (truth TRUE) with true. cbv iota.
  cbn [COLOR_PAIRS set_COLOR_PAIRS].
  destruct (pair <? MAX_NUM_PAIRS); [destruct (pair >=? 0) |]; now destruct p.
Qed.

(** The session with the color flag on, as [start_color] sets it. *)
Definition session_color : STATE := set_flags WC_COLOR session0.

(** C3, on the session with colors on: [init_pair 0] fails; [init_pair 1
    COLOR_RED COLOR_BLACK] succeeds and the table holds the pair;
    [pair_content 1 &f &b] returns [OK], its parameters end up pointing into
    the table, and the caller's [f] and [b] still hold the -1 they held
    before the call, not [COLOR_RED] and [COLOR_BLACK]. *)
Theorem pair_content_leaves_outputs_unset :
  let st1 := snd (init_pair 1 COLOR_RED COLOR_BLACK session_color) in
  let res := pair_content 1 (user_short 0) (user_short 1) st1 in
  fst (init_pair 0 COLOR_RED COLOR_BLACK session_color) = ERR /\
  fst (init_pair 1 COLOR_RED COLOR_BLACK session_color) = OK /\
  elt pair0 (color_pairs st1) 1 = ColorInfo.mk COLOR_RED COLOR_BLACK /\
  fst (fst res) = OK /\
  snd (fst res) = (pair_f 1, pair_b 1) /\
  load st1 (user_short 0) = -1 /\ load st1 (user_short 1) = -1 /\
  load (snd res) (user_short 0) = -1 /\ load (snd res) (user_short 1) = -1.
Proof.
  vm_compute. repeat split.
Qed.

(** ** start_color *)

(** [keeps proj m]: running [m] leaves the part [proj] of the state as it
    was. *)
Definition keeps {A B : Type} (proj : STATE -> B) (m : M A) : Prop :=
  forall st, proj (snd (m st)) = proj st.

Lemma keeps_ret {A B : Type} (proj : STATE -> B) (a : A) : keeps proj (ret a).
Proof. intros st. reflexivity. Qed.

Lemma keeps_gets {A B : Type} (proj : STATE -> B) (p : STATE -> A) : keeps proj (gets p).
Proof. intros st. reflexivity. Qed.

Lemma keeps_modify {B : Type} (proj : STATE -> B) (u : STATE -> STATE) :
  (forall st, proj (u st) = proj st) -> keeps proj (modify u).
Proof. intros H st. apply H. Qed.

Lemma keeps_bind {A B C : Type} (proj : STATE -> C) (m : M A) (k : A -> M B) :
  keeps proj m -> (forall a, keeps proj (k a)) -> keeps proj (bind m k).
Proof.
  intros Hm Hk st. unfold bind.
  specialize (Hm st). destruct (m st) as [a st1]. simpl in Hm.
  rewrite <- Hm. apply Hk.
Qed.

Lemma keeps_if {A B : Type} (proj : STATE -> B) (c : bool) (m1 m2 : M A) :
  keeps proj m1 -> keeps proj m2 -> keeps proj (if c then m1 else m2).
Proof. now destruct c. Qed.

Ltac keeps_step :=
  match goal with
  | |- keeps _ (ret _) => apply keeps_ret
  | |- keeps _ (gets _) => apply keeps_gets
  | |- keeps _ (modify _) => apply keeps_modify; intros ?; reflexivity
  | |- keeps _ (if _ then _ else _) => apply keeps_if
  | |- keeps _ (bind _ _) => apply keeps_bind; [| intros ?]
  | |- keeps _ (let _ := _ in _) => cbv zeta
  end.

Lemma has_colors_keeps_pairs : keeps color_pairs has_colors.
Proof. unfold has_colors. repeat keeps_step. Qed.

Lemma assign_color_keeps_pairs (i r g b : Z) : keeps color_pairs (assign_color i r g b).
Proof. unfold assign_color. repeat keeps_step. Qed.

Lemma attrset_keeps_pairs (a : Z) : keeps color_pairs (attrset a).
Proof.
  unfold attrset, wattrset, getattrs, update, andc, can_change_color.
  repeat keeps_step.
Qed.

Lemma init_pair_0_keeps_pairs (f b : Z) : keeps color_pairs (init_pair 0 f b).
Proof.
  intros st. unfold init_pair, andc, bind, gets, ret.
  destruct (truth (Z.land (flags st) WC_COLOR)); [| reflexivity].
  rewrite has_colors_eq. reflexivity.
Qed.

(** [start_color] does not touch the pair table, in any state: the
    [init_pair(0, COLOR_WHITE, COLOR_BLACK)] it makes is turned down. *)
Lemma start_color_keeps_pairs (st : STATE) :
  color_pairs (snd (start_color st)) = color_pairs st.
Proof.
  revert st. change (keeps color_pairs start_color). unfold start_color.
  repeat match goal with
  | |- keeps _ has_colors => apply has_colors_keeps_pairs
  | |- keeps _ (assign_color _ _ _ _) => apply assign_color_keeps_pairs
  | |- keeps _ (init_pair 0 _ _) => apply init_pair_0_keeps_pairs
  | |- keeps _ (attrset _) => apply attrset_keeps_pairs
  | _ => keeps_step
  end.
Qed.

(** C4, on the session: [start_color] returns [OK], the eight colors have
    their RGB values and the color flag is on, but pair 0 is still the
    (0, 0) it was and not ([COLOR_WHITE], [COLOR_BLACK]), and the attributes
    of the default window are 0. *)
Theorem start_color_leaves_pair_0_unassigned :
  let st := snd (start_color session0) in
  fst (start_color session0) = OK /\
  colors st = [Color.mk 0 0 0; Color.mk 0 0 1000; Color.mk 0 1000 0;
               Color.mk 0 1000 1000; Color.mk 1000 0 0; Color.mk 1000 0 1000;
               Color.mk 1000 1000 0; Color.mk 1000 1000 1000] /\
  flags st = WC_COLOR /\
  elt pair0 (color_pairs session0) 0 = ColorInfo.mk 0 0 /\
  elt pair0 (color_pairs st) 0 = ColorInfo.mk 0 0 /\
  ColorInfo.mk 0 0 <> ColorInfo.mk COLOR_WHITE COLOR_BLACK /\
  attrs (heap st (stdscr st)) = 0.
Proof.
  vm_compute. repeat split. discriminate.
Qed.

(** ** wgetch: keypad translation *)

(** The keys that [wgetch] translates, as a table from native key
    identifier to portable key code: the arrow keys; the editing keys delete,
    home, end, page-up and page-down; the numeric-keypad keys 1 to 9; the
    function keys F1 to F24; and the command keys escape, cancel, backspace,
    clear, enter, control, select, print and help. *)
Definition translated_keys : list (Z * Z) :=
  [ (VK_LEFT, KEY_LEFT); (VK_UP, KEY_UP); (VK_RIGHT, KEY_RIGHT); (VK_DOWN, KEY_DOWN);
    (VK_DELETE, KEY_DC); (VK_HOME, KEY_HOME); (VK_END, KEY_END);
    (VK_PRIOR, KEY_PPAGE); (VK_NEXT, KEY_NPAGE);
    (VK_NUMPAD1, KEY_C1); (VK_NUMPAD2, KEY_DOWN); (VK_NUMPAD3, KEY_C3);
    (VK_NUMPAD4, KEY_LEFT); (VK_NUMPAD5, KEY_B2); (VK_NUMPAD6, KEY_RIGHT);
    (VK_NUMPAD7, KEY_A1); (VK_NUMPAD8, KEY_UP); (VK_NUMPAD9, KEY_A3);
    (VK_F1, KEY_F 1); (VK_F2, KEY_F 2); (VK_F3, KEY_F 3); (VK_F4, KEY_F 4);
    (VK_F5, KEY_F 5); (VK_F6, KEY_F 6); (VK_F7, KEY_F 7); (VK_F8, KEY_F 8);
    (VK_F9, KEY_F 9); (VK_F10, KEY_F 10); (VK_F11, KEY_F 11); (VK_F12, KEY_F 12);
    (VK_F13, KEY_F 13); (VK_F14, KEY_F 14); (VK_F15, KEY_F 15); (VK_F16, KEY_F 16);
    (VK_F17, KEY_F 17); (VK_F18, KEY_F 18); (VK_F19, KEY_F 19); (VK_F20, KEY_F 20);
    (VK_F21, KEY_F 21); (VK_F22, KEY_F 22); (VK_F23, KEY_F 23); (VK_F24, KEY_F 24);
    (VK_ESCAPE, KEY_EXIT); (VK_CANCEL, KEY_CANCEL); (VK_BACK, KEY_BACKSPACE);
    (VK_CLEAR, KEY_CLEAR); (VK_RETURN, KEY_ENTER); (VK_CONTROL, KEY_COMMAND);
    (VK_SELECT, KEY_SELECT); (VK_PRINT, KEY_PRINT); (VK_HELP, KEY_HELP) ].

(** The table of the specification: the same, with the insert key among the
    editing keys. *)
Definition documented_keys : list (Z * Z) :=
  (VK_INSERT, KEY_IC) :: translated_keys.

Lemma keypad_switch_translated (vk k r : Z) :
  In (vk, k) translated_keys -> keypad_switch vk r = k.
Proof.
  intros Hin.
  assert (Hall : Forall (fun p => forall r, keypad_switch (fst p) r = snd p)
                        translated_keys)
    by (repeat constructor).
  rewrite Forall_forall in Hall. exact (Hall (vk, k) Hin r).
Qed.

Lemma keypad_switch_other (vk r : Z) :
  (forall k, ~ In (vk, k) translated_keys) -> keypad_switch vk r = r.
Proof.
  intros Hout. unfold keypad_switch.
  repeat match goal with
  | |- context [vk =? ?c] =>
      destruct (Z.eqb_spec vk c) as [-> | ?];
        [ exfalso; eapply Hout; unfold translated_keys;
          repeat first [ left; reflexivity | right ]
        | ]
  end.
  reflexivity.
Qed.

Lemma poll_console_skips (nodelay_on : bool) (pre : list INPUT_RECORD)
    (e : INPUT_RECORD) (post : list INPUT_RECORD) :
  forallb (fun c => negb (is_key_down c)) pre = true ->
  is_key_down e = true ->
  poll_console nodelay_on (pre ++ e :: post) = key_down e post.
Proof.
  intros Hpre He. induction pre as [| c pre IH].
  - cbn [app poll_console]. unfold kbhit. cbn [existsb]. rewrite He.
    cbn [orb negb]. now rewrite andb_false_r.
  - simpl in Hpre. apply andb_true_iff in Hpre. destruct Hpre as [Hc Hpre].
    apply negb_true_iff in Hc.
    change ((c :: pre) ++ e :: post) with (c :: (pre ++ e :: post)).
    unfold poll_console; fold poll_console.
    replace (kbhit (c :: pre ++ e :: post)) with true.
    + rewrite andb_false_r, Hc. now apply IH.
    + symmetry. apply existsb_exists. exists e. split; [| exact He].
      right. apply in_or_app. right. now left.
Qed.

Lemma keeps_update_wflags (p win : WINDOW_PTR) (u : WINDOW -> WINDOW) :
  (forall w, wflags (u w) = wflags w) ->
  keeps (fun st => wflags (heap st p)) (update win u).
Proof.
  intros Hu st. unfold update, modify. simpl.
  destruct (Z.eqb_spec p win) as [-> | _]; [apply Hu | reflexivity].
Qed.

Lemma keeps_call_WriteConsoleOutput {B : Type} (proj : STATE -> B) (h : HANDLE)
    (lpBuffer : list CHAR_INFO) (bsize bcoord : COORD) (region : SMALL_RECT) :
  (forall con st, proj (set_console con st) = proj st) ->
  keeps proj (call_WriteConsoleOutput h lpBuffer bsize bcoord region).
Proof.
  intros H st. unfold call_WriteConsoleOutput.
  destruct (WriteConsoleOutput (console st) h lpBuffer bsize bcoord region)
    as [[res con] u].
  apply H.
Qed.

Lemma waddch_keeps_wflags (p win : WINDOW_PTR) (ch : chtype) :
  keeps (fun st => wflags (heap st p)) (waddch win ch).
Proof.
  unfold waddch, deref.
  repeat match goal with
  | |- keeps _ (update _ _) => apply keeps_update_wflags; intros ?; reflexivity
  | |- keeps _ (call_WriteConsoleOutput _ _ _ _ _) =>
      apply keeps_call_WriteConsoleOutput; intros ? ?; reflexivity
  | _ => keeps_step
  end.
Qed.

(** C7, as the code has it.  In a window with the keypad flag on, when the
    first key press in the queue has a native identifier of the table
    [translated_keys], [wgetch] returns the portable code the table gives
    for it; when its identifier is not in the table (the insert key is
    one such) [wgetch] returns the raw character of the event. *)
Theorem wgetch_keypad_translation (st : STATE) (win : WINDOW_PTR)
    (pre : list INPUT_RECORD) (e : INPUT_RECORD) (post : list INPUT_RECORD) :
  truth (Z.land (wflags (heap st win)) WC_WKEYPAD) = true ->
  events (console st) = pre ++ e :: post ->
  forallb (fun c => negb (is_key_down c)) pre = true ->
  is_key_down e = true ->
  (forall k, In (wVirtualKeyCode e, k) translated_keys ->
     option_map fst (wgetch win st) = Some k) /\
  ((forall k, ~ In (wVirtualKeyCode e, k) translated_keys) ->
     option_map fst (wgetch win st) = Some (AsciiChar e)).
Proof.
  intros Hkeypad Hevs Hpre He.
  assert (Hres : option_map fst (wgetch win st) =
                 Some (keypad_switch (wVirtualKeyCode e) (AsciiChar e))).
  { unfold wgetch. rewrite Hevs, (poll_console_skips _ pre e post Hpre He).
    cbn [option_map fst].
    set (st1 := set_console (set_events (console st) post) st).
    assert (Hflags : wflags (heap
              (if truth (Z.land (flags st1) WC_ECHO)
               then snd (addch (AsciiChar e) st1) else st1) win) =
            wflags (heap st win)).
    { destruct (truth (Z.land (flags st1) WC_ECHO)); [| reflexivity].
      unfold addch, bind, gets.
      exact (waddch_keeps_wflags win (stdscr st1) (AsciiChar e) st1). }
    rewrite Hflags, Hkeypad. reflexivity. }
  split.
  - intros k Hin. rewrite Hres. f_equal. now apply keypad_switch_translated.
  - intros Hout. rewrite Hres. f_equal. now apply keypad_switch_other.
Qed.

(** The session with keypad translation on in the default window and the
    given events pending. *)
Definition session_keypad (evs : list INPUT_RECORD) : STATE :=
  let st := snd (keypad 4096 TRUE session0) in
  set_console (set_events (console st) evs) st.

Definition key_press (vk : Z) (ch : Z) : INPUT_RECORD :=
  {| EventType := KEY_EVENT; bKeyDown := TRUE; wVirtualKeyCode := vk; AsciiChar := ch |}.

(** A mouse event (event type 2): skipped by the polling loop. *)
Definition mouse_event : INPUT_RECORD :=
  {| EventType := 2; bKeyDown := 0; wVirtualKeyCode := 0; AsciiChar := 0 |}.

Lemma wgetch_keypad_translation_witness :
  option_map fst (wgetch 4096 (session_keypad [mouse_event; key_press VK_LEFT 0])) =
    Some KEY_LEFT /\
  option_map fst (wgetch 4096 (session_keypad [key_press 65 97])) = Some 97.
Proof.
  split.
  - apply (wgetch_keypad_translation
             (session_keypad [mouse_event; key_press VK_LEFT 0]) 4096
             [mouse_event] (key_press VK_LEFT 0) []); try reflexivity.
    simpl. tauto.
  - apply (wgetch_keypad_translation
             (session_keypad [key_press 65 97]) 4096 [] (key_press 65 97) []);
      try reflexivity.
    intros k Hin. simpl in Hin.
    repeat (destruct Hin as [Hin | Hin]; [discriminate Hin |]).
    exact Hin.
Defined.

(** C7 as the specification states it, with the insert key among the
    translated keys, does not hold: on the session with keypad translation on
    and a press of the insert key pending, [wgetch] returns the raw character
    of the event, 0, and not [KEY_IC]. *)
Lemma wgetch_insert_not_translated :
  ~ (forall (st : STATE) (win : WINDOW_PTR) (pre : list INPUT_RECORD) (e : INPUT_RECORD)
            (post : list INPUT_RECORD) (k : Z),
       truth (Z.land (wflags (heap st win)) WC_WKEYPAD) = true ->
       events (console st) = pre ++ e :: post ->
       forallb (fun c => negb (is_key_down c)) pre = true ->
       is_key_down e = true ->
       In (wVirtualKeyCode e, k) documented_keys ->
       option_map fst (wgetch win st) = Some k).
Proof.
  intros H.
  specialize (H (session_keypad [key_press VK_INSERT 0]) 4096 []
                (key_press VK_INSERT 0) [] KEY_IC
                eq_refl eq_refl eq_refl eq_refl (or_introl eq_refl)).
  discriminate H.
Qed.

(** ** refresh *)

Lemma refresh_unfold (uninit : CHAR_INFO) (st : STATE) :
  let scr := stdscr st in
  let w := heap st scr in
  let hb := hcon_at w (bbuf w) in
  let hp := hcon_at w (prim w) in
  let con1 := snd (SetConsoleActiveScreenBuffer (console st) hb) in
  let con2 := snd (SetConsoleCursorPosition con1 hb (cur w)) in
  let bsize := {| X := X (size w); Y := Y (size w) |} in
  let orig := {| X := 0; Y := 0 |} in
  let tbuf := repeat uninit (Z.to_nat (Y (size w) * X (size w))) in
  let rd := ReadConsoleOutput con2 hb tbuf bsize orig (rect w) in
  let wr := WriteConsoleOutput con2 hp (snd (fst rd)) bsize orig (snd rd) in
  fst (refresh uninit st) = OK /\
  stdscr (snd (refresh uninit st)) = scr /\
  console (snd (refresh uninit st)) = snd (fst wr) /\
  heap (snd (refresh uninit st)) scr =
    set_bbuf (lnot_c (lnot_c (prim w))) (set_prim (lnot_c (prim w)) (set_rect (snd wr) w)).
Proof.
  cbv zeta.
  unfold refresh, bind, deref, gets, update, modify, ret,
    call_SetConsoleActiveScreenBuffer, call_SetConsoleCursorPosition,
    call_ReadConsoleOutput, call_WriteConsoleOutput.
  destruct (SetConsoleActiveScreenBuffer (console st) _) as [r1 con1].
  cbn [snd fst console set_console heap stdscr set_heap].
  destruct (SetConsoleCursorPosition con1 _ _) as [r2 con2].
  cbn [snd fst console set_console heap stdscr set_heap].
  rewrite !Z.eqb_refl.
  cbn [snd fst console set_console heap stdscr set_heap rect set_rect hcon_at hcon prim bbuf].
  destruct (ReadConsoleOutput con2 _ _ _ _ _) as [[r3 tbuf1] u1].
  cbn [snd fst console set_console heap stdscr set_heap rect set_rect hcon_at hcon prim bbuf].
  destruct (WriteConsoleOutput con2 _ _ _ _ _) as [[r4 con3] u2].
  cbn [snd fst console set_console heap stdscr set_heap rect set_rect hcon_at hcon prim
       bbuf set_prim set_bbuf].
  rewrite !Z.eqb_refl.
  repeat split.
Qed.

(** *** The console calls that [refresh] makes *)

Lemma in_rect_iff (r : SMALL_RECT) (y x : Z) :
  in_rect r y x = true <-> Top r <= y <= Bottom r /\ Left r <= x <= Right r.
Proof.
  unfold in_rect. rewrite !andb_true_iff, !Z.leb_le. lia.
Qed.

Definition origin : COORD := {| X := 0; Y := 0 |}.

Lemma in_used_rect_iff (dims bsize : COORD) (r : SMALL_RECT) (y x : Z) :
  in_rect (used_rect dims bsize origin r) y x = true <->
  (Top r <= y <= Bottom r /\ Left r <= x <= Right r) /\
  (0 <= y < Y dims /\ 0 <= x < X dims) /\
  (y - Top r < Y bsize /\ x - Left r < X bsize).
Proof.
  rewrite in_rect_iff. unfold used_rect, origin. simpl. lia.
Qed.

Lemma tbuf_index_range (bsize : COORD) (r : SMALL_RECT) (y x : Z) :
  Top r <= y -> Left r <= x -> y - Top r < Y bsize -> x - Left r < X bsize ->
  0 <= tbuf_index bsize origin r y x < Y bsize * X bsize.
Proof.
  unfold tbuf_index, origin. simpl. intros. nia.
Qed.

Lemma tbuf_index_div (bsize : COORD) (r : SMALL_RECT) (y x : Z) :
  Left r <= x -> x - Left r < X bsize ->
  tbuf_index bsize origin r y x / X bsize = y - Top r /\
  tbuf_index bsize origin r y x mod X bsize = x - Left r.
Proof.
  unfold tbuf_index, origin. simpl. intros H1 H2. split.
  - symmetry. apply Z.div_unique with (r := x - Left r); lia.
  - symmetry. apply Z.mod_unique with (q := y - Top r); lia.
Qed.

(** What [ReadConsoleOutput] leaves in the caller's array for a cell of the
    rectangle it used. *)
Lemma ReadConsoleOutput_nth (con : CONSOLE) (h : HANDLE) (b : SCREEN_BUFFER)
    (tbuf : list CHAR_INFO) (bsize : COORD) (r : SMALL_RECT) (y x : Z) (d : CHAR_INFO) :
  screens con h = Some b ->
  length tbuf = Z.to_nat (Y bsize * X bsize) ->
  in_rect (used_rect (dwSize b) bsize origin r) y x = true ->
  nth (Z.to_nat (tbuf_index bsize origin r y x))
      (snd (fst (ReadConsoleOutput con h tbuf bsize origin r))) d = cells b y x.
Proof.
  intros Hb Hlen Hin. unfold ReadConsoleOutput. rewrite Hb. cbn [fst snd].
  pose proof Hin as Hin'. apply in_used_rect_iff in Hin'.
  destruct Hin' as ((Hy & Hx) & _ & (Hy' & Hx')).
  pose proof (tbuf_index_range bsize r y x) as Hk.
  pose proof (tbuf_index_div bsize r y x) as (Hdiv & Hmod); try lia.
  set (k := tbuf_index bsize origin r y x) in *.
  set (elem := fun i : nat => _).
  assert (Hklen : (Z.to_nat k < length tbuf)%nat) by lia.
  rewrite nth_indep with (d' := elem 0%nat)
    by (rewrite length_map, length_seq; exact Hklen).
  rewrite map_nth, seq_nth by exact Hklen.
  subst elem. cbn beta. rewrite Nat.add_0_l, Z2Nat.id by lia.
  rewrite Hdiv, Hmod. change (Y origin) with 0. change (X origin) with 0.
  replace (y - Top r - 0 + Top r) with y by lia.
  replace (x - Left r - 0 + Left r) with x by lia.
  now rewrite Hin.
Qed.

Lemma ReadConsoleOutput_rect (con : CONSOLE) (h : HANDLE) (b : SCREEN_BUFFER)
    (tbuf : list CHAR_INFO) (bsize : COORD) (r : SMALL_RECT) :
  screens con h = Some b ->
  snd (ReadConsoleOutput con h tbuf bsize origin r) = used_rect (dwSize b) bsize origin r.
Proof.
  intros Hb. unfold ReadConsoleOutput. now rewrite Hb.
Qed.

(** What a screen buffer holds after [WriteConsoleOutput] on it. *)
Lemma WriteConsoleOutput_written (con : CONSOLE) (h : HANDLE) (b : SCREEN_BUFFER)
    (tbuf : list CHAR_INFO) (bsize : COORD) (r : SMALL_RECT) :
  screens con h = Some b ->
  let u := used_rect (dwSize b) bsize origin r in
  let con' := snd (fst (WriteConsoleOutput con h tbuf bsize origin r)) in
  snd (WriteConsoleOutput con h tbuf bsize origin r) = u /\
  active con' = active con /\
  (forall h', h' <> h -> screens con' h' = screens con h') /\
  (forall y x, in_rect u y x = true ->
     cell_at con' h y x =
       Some (nth (Z.to_nat (tbuf_index bsize origin r y x)) tbuf (cells b y x))).
Proof.
  intros Hb. unfold WriteConsoleOutput. rewrite Hb. cbn [fst snd].
  repeat split.
  - intros h' Hh'. unfold set_screen. cbn [screens].
    destruct (Z.eqb_spec h' h); [contradiction | reflexivity].
  - intros y x Hin. unfold cell_at, set_screen. cbn [screens].
    rewrite Z.eqb_refl. cbn [dwSize cells]. rewrite Hin.
    apply in_used_rect_iff in Hin. destruct Hin as (_ & (Hy & Hx) & _).
    replace ((0 <=? y) && (y <? Y (dwSize b)) && (0 <=? x) && (x <? X (dwSize b)))
      with true; [reflexivity |].
    symmetry. rewrite !andb_true_iff, !Z.leb_le, !Z.ltb_lt. lia.
Qed.

(** [same_cells con con']: the two consoles have the same open screen
    buffers, of the same sizes and with the same cells. *)
Definition same_cells (con con' : CONSOLE) : Prop :=
  forall h,
    match screens con h, screens con' h with
    | Some b, Some b' => dwSize b' = dwSize b /\ cells b' = cells b
    | None, None => True
    | _, _ => False
    end.

Lemma same_cells_refl (con : CONSOLE) : same_cells con con.
Proof.
  intros h. now destruct (screens con h).
Qed.

Lemma SetConsoleActiveScreenBuffer_same_cells (con : CONSOLE) (h : HANDLE) :
  same_cells con (snd (SetConsoleActiveScreenBuffer con h)).
Proof.
  unfold SetConsoleActiveScreenBuffer.
  destruct (screens con h); [| apply same_cells_refl].
  intros h'. cbn [snd set_active screens]. now destruct (screens con h').
Qed.

Lemma SetConsoleActiveScreenBuffer_active (con : CONSOLE) (h : HANDLE) :
  screens con h <> None -> active (snd (SetConsoleActiveScreenBuffer con h)) = h.
Proof.
  unfold SetConsoleActiveScreenBuffer.
  destruct (screens con h); [reflexivity | contradiction].
Qed.

Lemma SetConsoleCursorPosition_same_cells (con : CONSOLE) (h : HANDLE) (pos : COORD) :
  same_cells con (snd (SetConsoleCursorPosition con h pos)) /\
  active (snd (SetConsoleCursorPosition con h pos)) = active con.
Proof.
  unfold SetConsoleCursorPosition.
  destruct (screens con h) as [b |] eqn:Hb; [| split; [apply same_cells_refl | reflexivity]].
  destruct ((0 <=? Y pos) && (Y pos <? Y (dwSize b)) && (0 <=? X pos) && (X pos <? X (dwSize b)));
    [| split; [apply same_cells_refl | reflexivity]].
  split; [| reflexivity].
  intros h'. unfold set_screen. cbn [snd screens].
  destruct (Z.eqb_spec h' h) as [-> | _].
  - rewrite Hb. now split.
  - now destruct (screens con h').
Qed.

Lemma used_rect_twice (dims1 dims2 bsize : COORD) (r : SMALL_RECT) (y x : Z) :
  0 <= Left r -> 0 <= Top r ->
  in_rect (used_rect dims2 bsize origin (used_rect dims1 bsize origin r)) y x = true ->
  in_rect (used_rect dims1 bsize origin r) y x = true /\
  (0 <= y < Y dims2 /\ 0 <= x < X dims2) /\
  tbuf_index bsize origin (used_rect dims1 bsize origin r) y x =
    tbuf_index bsize origin r y x.
Proof.
  intros HL HT Hin. apply in_used_rect_iff in Hin.
  destruct Hin as (Hin1 & Hdims & _).
  split; [| split; [exact Hdims |]].
  - apply in_rect_iff. exact Hin1.
  - unfold tbuf_index, used_rect. cbn [Top Left].
    rewrite !Z.max_l by lia. reflexivity.
Qed.

Lemma cell_at_outside (con : CONSOLE) (h : HANDLE) (d : COORD) (y x : Z) :
  option_map dwSize (screens con h) = Some d ->
  ~ (0 <= y < Y d /\ 0 <= x < X d) ->
  cell_at con h y x = None.
Proof.
  unfold cell_at. destruct (screens con h) as [b |]; [| reflexivity].
  cbn [option_map]. intros [= <-] Hout.
  destruct ((0 <=? y) && (y <? Y (dwSize b)) && (0 <=? x) && (x <? X (dwSize b))) eqn:E;
    [| reflexivity].
  exfalso. apply Hout. rewrite !andb_true_iff, !Z.leb_le, !Z.ltb_lt in E. lia.
Qed.

Lemma same_cells_dwSize (con con' : CONSOLE) (h : HANDLE) :
  same_cells con con' ->
  option_map dwSize (screens con' h) = option_map dwSize (screens con h).
Proof.
  intros Hsame. specialize (Hsame h).
  destruct (screens con h), (screens con' h); cbn; try contradiction; try reflexivity.
  destruct Hsame as [-> _]. reflexivity.
Qed.

Lemma WriteConsoleOutput_dwSize (con : CONSOLE) (h : HANDLE) (tbuf : list CHAR_INFO)
    (bsize : COORD) (r : SMALL_RECT) (h' : HANDLE) :
  option_map dwSize (screens (snd (fst (WriteConsoleOutput con h tbuf bsize origin r))) h') =
  option_map dwSize (screens con h').
Proof.
  unfold WriteConsoleOutput.
  destruct (screens con h) as [b |] eqn:Hb; [| reflexivity].
  cbn [fst snd]. unfold set_screen. cbn [screens].
  destruct (Z.eqb_spec h' h) as [-> | _]; [| reflexivity].
  now rewrite Hb.
Qed.

(** The state that [refresh] leaves, cell by cell.  [bp] and [bb] are the
    primary and the back buffer before the call. *)
Lemma refresh_cells (uninit : CHAR_INFO) (st : STATE) (bp bb : SCREEN_BUFFER) :
  let w := heap st (stdscr st) in
  let hp := hcon_at w (prim w) in
  let hb := hcon_at w (bbuf w) in
  screens (console st) hp = Some bp ->
  screens (console st) hb = Some bb ->
  0 <= Left (rect w) -> 0 <= Top (rect w) ->
  let st' := snd (refresh uninit st) in
  let bsize := {| X := X (size w); Y := Y (size w) |} in
  let u1 := used_rect (dwSize bb) bsize origin (rect w) in
  let u2 := used_rect (dwSize bp) bsize origin u1 in
  heap st' (stdscr st) =
    set_bbuf (lnot_c (lnot_c (prim w))) (set_prim (lnot_c (prim w)) (set_rect u2 w)) /\
  active (console st') = hb /\
  (forall h, option_map dwSize (screens (console st') h) =
             option_map dwSize (screens (console st) h)) /\
  (forall y x, in_rect u2 y x = true ->
     cell_at (console st') hp y x = Some (cells bb y x) /\
     cell_at (console st') hb y x = Some (cells bb y x) /\
     cell_at (console st) hb y x = Some (cells bb y x)).
Proof.
  intros w hp hb Hp Hb HL HT st' bsize u1 u2.
  destruct (refresh_unfold uninit st) as (_ & _ & Hcon & Hheap).
  fold w hp hb bsize in Hcon, Hheap. fold st' in Hcon, Hheap.
  pose proof (SetConsoleActiveScreenBuffer_same_cells (console st) hb) as Hsame1.
  pose proof (SetConsoleActiveScreenBuffer_active (console st) hb) as Hact1.
  set (con1 := snd (SetConsoleActiveScreenBuffer (console st) hb)) in *.
  destruct (SetConsoleCursorPosition_same_cells con1 hb (cur w)) as (Hsame2 & Hact2).
  set (con2 := snd (SetConsoleCursorPosition con1 hb (cur w))) in *.
  (* the two buffers as the copy finds them *)
  assert (Hp2 : exists bp2, screens con2 hp = Some bp2 /\
                            dwSize bp2 = dwSize bp /\ cells bp2 = cells bp).
  { pose proof (Hsame1 hp) as S1. pose proof (Hsame2 hp) as S2. rewrite Hp in S1.
    destruct (screens con1 hp) as [b1 |]; [| contradiction].
    destruct (screens con2 hp) as [b2 |]; [| contradiction].
    exists b2. destruct S1 as [E1 E2]. destruct S2 as [E3 E4].
    repeat split; congruence. }
  assert (Hb2 : exists bb2, screens con2 hb = Some bb2 /\
                            dwSize bb2 = dwSize bb /\ cells bb2 = cells bb).
  { pose proof (Hsame1 hb) as S1. pose proof (Hsame2 hb) as S2. rewrite Hb in S1.
    destruct (screens con1 hb) as [b1 |]; [| contradiction].
    destruct (screens con2 hb) as [b2 |]; [| contradiction].
    exists b2. destruct S1 as [E1 E2]. destruct S2 as [E3 E4].
    repeat split; congruence. }
  destruct Hp2 as (bp2 & Hp2 & Hdp & Hcp). destruct Hb2 as (bb2 & Hb2 & Hdb & Hcb).
  change {| X := 0; Y := 0 |} with origin in Hcon, Hheap.
  set (tbuf0 := repeat uninit (Z.to_nat (Y (size w) * X (size w)))) in *.
  pose proof (ReadConsoleOutput_rect con2 hb bb2 tbuf0 bsize (rect w) Hb2) as Hu1.
  rewrite Hdb in Hu1. fold u1 in Hu1.
  set (rd := ReadConsoleOutput con2 hb tbuf0 bsize origin (rect w)) in *.
  rewrite Hu1 in Hcon, Hheap.
  pose proof (WriteConsoleOutput_dwSize con2 hp (snd (fst rd)) bsize u1) as Hdims.
  destruct (WriteConsoleOutput_written con2 hp bp2 (snd (fst rd)) bsize u1 Hp2)
    as (Hu2 & Hact3 & Hother & Hcell).
  rewrite Hdp in Hu2, Hcell. fold u2 in Hu2, Hcell.
  rewrite Hu2 in Hheap. rewrite <- Hcon in Hact3, Hother, Hcell, Hdims.
  split; [exact Hheap |]. split.
  { rewrite Hact3, Hact2. apply Hact1. now rewrite Hb. }
  assert (Hlen : length tbuf0 = Z.to_nat (Y bsize * X bsize))
    by (subst tbuf0; now rewrite repeat_length).
  split.
  - intros h. rewrite Hdims.
    rewrite (same_cells_dwSize con1 con2 h Hsame2).
    apply (same_cells_dwSize (console st) con1 h Hsame1).
  - intros y x Hin.
    destruct (used_rect_twice (dwSize bb) (dwSize bp) bsize (rect w) y x HL HT Hin)
      as (Hin1 & _ & Hidx).
    fold u1 in Hin1, Hidx.
    assert (Hhp : cell_at (console st') hp y x = Some (cells bb y x)).
    { rewrite (Hcell y x Hin), Hidx. f_equal. rewrite <- Hcb.
      apply (ReadConsoleOutput_nth con2 hb bb2 tbuf0 bsize (rect w) y x); auto.
      now rewrite Hdb. }
    assert (Hinb : (0 <=? y) && (y <? Y (dwSize bb)) && (0 <=? x) && (x <? X (dwSize bb))
                   = true).
    { apply in_used_rect_iff in Hin1. destruct Hin1 as (_ & (Hy & Hx) & _).
      rewrite !andb_true_iff, !Z.leb_le, !Z.ltb_lt. lia. }
    split; [exact Hhp |]. split.
    + destruct (Z.eq_dec hb hp) as [Heq | Hne]; [now rewrite Heq |].
      unfold cell_at. rewrite (Hother hb Hne), Hb2, Hdb, Hcb, Hinb. reflexivity.
    + unfold cell_at. rewrite Hb, Hinb. reflexivity.
Qed.

(** The default window as [refresh] needs it: complementary buffer indices,
    two handles that denote open screen buffers, and a rectangle whose origin
    is not negative (it is a viewport).  [initscr] sets the window up so, and
    exits when it cannot. *)
Definition stdscr_ready (st : STATE) : Prop :=
  let w := heap st (stdscr st) in
  ((prim w = 0 /\ bbuf w = 1) \/ (prim w = 1 /\ bbuf w = 0)) /\
  screens (console st) (hcon_at w (prim w)) <> None /\
  screens (console st) (hcon_at w (bbuf w)) <> None /\
  0 <= Left (rect w) /\
  0 <= Top (rect w).

(** The primary and the back buffer of the default window hold the same at
    cell ([y], [x]), or neither has such a cell. *)
Definition in_sync (st : STATE) (y x : Z) : Prop :=
  let w := heap st (stdscr st) in
  cell_at (console st) (hcon_at w (prim w)) y x =
  cell_at (console st) (hcon_at w (bbuf w)) y x.

(** The further layout [initscr] gives on a console whose viewport starts at
    the origin of its buffer: the rectangle starts at the origin, the window
    size is the size of the rectangle, and both buffers have that size. *)
Definition fitted (st : STATE) : Prop :=
  let w := heap st (stdscr st) in
  Left (rect w) = 0 /\ Top (rect w) = 0 /\
  X (size w) = Right (rect w) + 1 /\ Y (size w) = Bottom (rect w) + 1 /\
  option_map dwSize (screens (console st) (hcon_at w (prim w))) = Some (size w) /\
  option_map dwSize (screens (console st) (hcon_at w (bbuf w))) = Some (size w).

(** What [refresh] does synchronise.  Take a state in which the default
    window is as [stdscr_ready] says.  [refresh] returns [OK] and afterwards:
    - the window is again as [stdscr_ready] says, so this applies to every
      later [refresh] as well;
    - the indices [prim] and [bbuf] are exchanged, each the logical negation
      of the other, and the buffer now called primary is the one the console
      displays;
    - at every cell of the window's rectangle the primary and the back
      buffer hold the same [CHAR_INFO] (character and attributes), namely
      what the back buffer held there before the call;
    - when the two buffers have one size and the window's size is that of
      its rectangle, the same goes for every cell of the rectangle the window
      had before the call;
    - under the layout [fitted], which is kept, the two buffers are the same
      at every cell whatever. *)
Theorem refresh_synchronises_buffers (uninit : CHAR_INFO) (st : STATE) :
  stdscr_ready st ->
  let w := heap st (stdscr st) in
  let st' := snd (refresh uninit st) in
  let w' := heap st' (stdscr st') in
  fst (refresh uninit st) = OK /\
  stdscr_ready st' /\
  (prim w' = bbuf w /\ bbuf w' = prim w /\ prim w' = lnot_c (prim w) /\
   bbuf w' = lnot_c (prim w')) /\
  active (console st') = hcon_at w' (prim w') /\
  (forall y x, in_rect (rect w') y x = true ->
     exists c,
       cell_at (console st') (hcon_at w' (prim w')) y x = Some c /\
       cell_at (console st') (hcon_at w' (bbuf w')) y x = Some c /\
       cell_at (console st) (hcon_at w (bbuf w)) y x = Some c) /\
  (option_map dwSize (screens (console st) (hcon_at w (prim w))) =
   option_map dwSize (screens (console st) (hcon_at w (bbuf w))) ->
   X (size w) = Right (rect w) - Left (rect w) + 1 ->
   Y (size w) = Bottom (rect w) - Top (rect w) + 1 ->
   forall y x, in_rect (rect w) y x = true -> in_sync st' y x) /\
  (fitted st -> fitted st' /\ rect w' = rect w /\ forall y x, in_sync st' y x).
Proof.
  intros (Hidx & Hp & Hb & HL & HT) w st' w'. fold w in Hidx, Hp, Hb, HL, HT.
  destruct (screens (console st) (hcon_at w (prim w))) as [bp |] eqn:Ep;
    [clear Hp | contradiction].
  destruct (screens (console st) (hcon_at w (bbuf w))) as [bb |] eqn:Eb;
    [clear Hb | contradiction].
  destruct (refresh_unfold uninit st) as (Hok & Hscr & _ & _).
  destruct (refresh_cells uninit st bp bb Ep Eb HL HT)
    as (Hheap & Hact & Hdims & Hcells).
  fold w st' in Hscr, Hheap, Hact, Hdims, Hcells.
  set (bsize := {| X := X (size w); Y := Y (size w) |}) in *.
  set (u1 := used_rect (dwSize bb) bsize origin (rect w)) in *.
  set (u2 := used_rect (dwSize bp) bsize origin u1) in *.
  assert (Hw' : w' = set_bbuf (lnot_c (lnot_c (prim w)))
                       (set_prim (lnot_c (prim w)) (set_rect u2 w)))
    by (subst w'; now rewrite Hscr, Hheap).
  assert (Hprim : prim w' = bbuf w /\ bbuf w' = prim w)
    by (rewrite Hw'; cbn; destruct Hidx as [[-> ->] | [-> ->]]; now split).
  destruct Hprim as [Hprim' Hbbuf'].
  assert (Hhcon : hcon w' = hcon w) by (now rewrite Hw').
  assert (Hrect : rect w' = u2) by (now rewrite Hw').
  assert (Hsize : size w' = size w) by (now rewrite Hw').
  assert (Hhp : hcon_at w' (prim w') = hcon_at w (bbuf w))
    by (unfold hcon_at; now rewrite Hhcon, Hprim').
  assert (Hhb : hcon_at w' (bbuf w') = hcon_at w (prim w))
    by (unfold hcon_at; now rewrite Hhcon, Hbbuf').
  assert (Hdp : option_map dwSize (screens (console st') (hcon_at w (prim w))) =
                Some (dwSize bp)) by (now rewrite Hdims, Ep).
  assert (Hdb : option_map dwSize (screens (console st') (hcon_at w (bbuf w))) =
                Some (dwSize bb)) by (now rewrite Hdims, Eb).
  assert (Hsync : forall y x, in_rect u2 y x = true -> in_sync st' y x).
  { intros y x Hin. unfold in_sync. fold w'. rewrite Hhp, Hhb.
    destruct (Hcells y x Hin) as (H1 & H2 & _). now rewrite H1, H2. }
  assert (Hout : forall y x, dwSize bp = dwSize bb ->
            ~ (0 <= y < Y (dwSize bb) /\ 0 <= x < X (dwSize bb)) -> in_sync st' y x).
  { intros y x Hd Hnot. unfold in_sync. fold w'. rewrite Hhp, Hhb.
    rewrite (cell_at_outside _ _ _ y x Hdb Hnot).
    rewrite Hd in Hdp. now rewrite (cell_at_outside _ _ _ y x Hdp Hnot). }
  split; [exact Hok |]. split.
  { unfold stdscr_ready. fold w'. rewrite Hhp, Hhb, Hrect.
    split; [destruct Hidx as [[E1 E2] | [E1 E2]]; rewrite Hprim', Hbbuf'; auto |].
    split; [intros E; rewrite E in Hdb; discriminate |].
    split; [intros E; rewrite E in Hdp; discriminate |].
    subst u2. cbn [used_rect Left Top]. lia. }
  split.
  { split; [exact Hprim' |]. split; [exact Hbbuf' |]. rewrite Hw'. cbn. now split. }
  split; [now rewrite Hhp |]. split; [| split].
  - intros y x Hin. rewrite Hhp, Hhb. exists (cells bb y x).
    rewrite Hrect in Hin. destruct (Hcells y x Hin) as (H1 & H2 & H3). auto.
  - cbn [option_map]. intros [= Hd] HX HY y x Hin.
    destruct (Z_lt_ge_dec y 0) as [Hy0 | Hy0]; [apply Hout; [exact Hd | lia] |].
    destruct (Z_lt_ge_dec y (Y (dwSize bb))) as [Hy1 | Hy1];
      [| apply Hout; [exact Hd | lia]].
    destruct (Z_lt_ge_dec x 0) as [Hx0 | Hx0]; [apply Hout; [exact Hd | lia] |].
    destruct (Z_lt_ge_dec x (X (dwSize bb))) as [Hx1 | Hx1];
      [| apply Hout; [exact Hd | lia]].
    apply Hsync. apply in_rect_iff in Hin.
    apply in_rect_iff. subst u2 u1 bsize. unfold used_rect, origin. cbn. rewrite Hd. lia.
  - intros (HL0 & HT0 & HX & HY & Hfp & Hfb). fold w in HL0, HT0, HX, HY, Hfp, Hfb.
    rewrite Ep in Hfp. rewrite Eb in Hfb. cbn [option_map] in Hfp, Hfb.
    injection Hfp as Hfp. injection Hfb as Hfb.
    assert (Hu2 : u2 = rect w).
    { subst u2 u1 bsize. unfold used_rect, origin. cbn. rewrite Hfp, Hfb.
      destruct (rect w) as [l t r b]. cbn in *. f_equal; lia. }
    split; [| split].
    + unfold fitted. fold w'. rewrite Hhp, Hhb, Hrect, Hsize, Hu2, Hdp, Hdb, Hfp, Hfb.
      repeat split; assumption.
    + now rewrite Hrect.
    + intros y x.
      destruct (Z_lt_ge_dec y 0) as [Hy0 | Hy0]; [apply Hout; [congruence | lia] |].
      destruct (Z_lt_ge_dec y (Y (dwSize bb))) as [Hy1 | Hy1];
        [| apply Hout; [congruence | lia]].
      destruct (Z_lt_ge_dec x 0) as [Hx0 | Hx0]; [apply Hout; [congruence | lia] |].
      destruct (Z_lt_ge_dec x (X (dwSize bb))) as [Hx1 | Hx1];
        [| apply Hout; [congruence | lia]].
      apply Hsync. rewrite Hu2. apply in_rect_iff. rewrite Hfb in Hy1, Hx1. lia.
Qed.

(** The session after ['X'] was written at the origin of the default
    window: the character is in the back buffer only. *)
Definition session_X : STATE := snd (addch 88 session0).

Lemma refresh_synchronises_buffers_witness :
  let st' := snd (refresh {| Char := 0; Attributes := 0 |} session_X) in
  (cell_at (console session_X) 100 0 0 = Some {| Char := 32; Attributes := 7 |} /\
   cell_at (console session_X) 101 0 0 = Some {| Char := 88; Attributes := 7 |}) /\
  (prim (heap st' 4096) = 1 /\ bbuf (heap st' 4096) = 0) /\
  rect (heap st' 4096) = {| Left := 0; Top := 0; Right := 79; Bottom := 24 |} /\
  (exists c,
     cell_at (console st') 101 0 0 = Some c /\
     cell_at (console st') 100 0 0 = Some c /\
     cell_at (console session_X) 101 0 0 = Some c) /\
  (forall y x, in_sync st' y x).
Proof.
  intros st'.
  split; [split; reflexivity |].
  split; [split; reflexivity |].
  split; [reflexivity |].
  assert (Hready : stdscr_ready session_X).
  { unfold stdscr_ready. split; [left; split; reflexivity |].
    split; [lazy; discriminate |]. split; [lazy; discriminate |].
    split; lazy; discriminate. }
  assert (Hfitted : fitted session_X) by (unfold fitted; repeat split; reflexivity).
  destruct (refresh_synchronises_buffers {| Char := 0; Attributes := 0 |} session_X Hready)
    as (_ & _ & _ & _ & Hcells & _ & Hall).
  split.
  - exact (Hcells 0 0 eq_refl).
  - exact (proj2 (proj2 (Hall Hfitted))).
Defined.

(** The same session on a console whose viewport was five rows down in its
    buffer when [initscr] ran: the window's rectangle is rows 5 to 29, while
    the two buffers [initscr] made have rows 0 to 24. *)
Definition session_offset : STATE :=
  set_heap
    (fun p => if p =? 4096
              then set_rect {| Left := 0; Top := 5; Right := 79; Bottom := 29 |} stdscr0
              else heap session0 p)
    session0.

(** There [refresh] copies the rows of the rectangle that the buffers have,
    rows 5 to 24, and reports that rectangle back into the window.  A
    character written at the origin is displayed, and the buffer that is now
    the back buffer does not have it: the two buffers differ outside
    the rectangle. *)
Lemma refresh_offset_viewport_out_of_sync :
  let st := snd (addch 88 session_offset) in
  let st' := snd (refresh {| Char := 0; Attributes := 0 |} st) in
  stdscr_ready st /\
  rect (heap st' 4096) = {| Left := 0; Top := 5; Right := 79; Bottom := 24 |} /\
  active (console st') = 101 /\
  cell_at (console st') 101 0 0 = Some {| Char := 88; Attributes := 7 |} /\
  cell_at (console st') 100 0 0 = Some {| Char := 32; Attributes := 7 |} /\
  ~ in_sync st' 0 0.
Proof.
  intros st st'.
  split.
  { unfold stdscr_ready. split; [left; split; reflexivity |].
    split; [lazy; discriminate |]. split; [lazy; discriminate |].
    split; lazy; discriminate. }
  split; [reflexivity |]. split; [reflexivity |].
  split; [reflexivity |]. split; [reflexivity |].
  unfold in_sync. intros H.
  change (cell_at (console st') 101 0 0 = cell_at (console st') 100 0 0) in H.
  change (Some {| Char := 88; Attributes := 7 |} = Some {| Char := 32; Attributes := 7 |}) in H.
  discriminate H.
Qed.

(** ** Further facts, with the sessions they are run on *)

Lemma PAIR_NUMBER_COLOR_PAIR_below_32_witness : PAIR_NUMBER (COLOR_PAIR 31) = 31.
Proof.
  apply (PAIR_NUMBER_COLOR_PAIR_below_32 31). lia.
Defined.

Lemma PAIR_NUMBER_COLOR_PAIR_from_32_witness : PAIR_NUMBER (COLOR_PAIR 63) = 63 - 64.
Proof.
  apply (PAIR_NUMBER_COLOR_PAIR_from_32 63). lia.
Defined.

Lemma init_pair_stores_witness :
  fst (init_pair 63 COLOR_YELLOW COLOR_BLUE session_color) = OK /\
  elt pair0 (color_pairs (snd (init_pair 63 COLOR_YELLOW COLOR_BLUE session_color))) 63 =
    ColorInfo.mk COLOR_YELLOW COLOR_BLUE.
Proof.
  apply (init_pair_stores 63 COLOR_YELLOW COLOR_BLUE session_color).
  - discriminate.
  - reflexivity.
  - unfold MAX_NUM_PAIRS. lia.
Defined.

Lemma mvprintw_restores_cursor_witness :
  cur (heap (snd (mvprintw 10 20 None session0)) (stdscr session0)) =
    cur (heap session0 (stdscr session0)).
Proof.
  apply (mvprintw_restores_cursor 10 20 None session0). reflexivity.
Defined.

Lemma mvwprintw_restores_cursor_of_stdscr_witness :
  cur (heap (snd (mvwprintw (stdscr session0) 10 20 None session0)) (stdscr session0)) =
    cur (heap session0 (stdscr session0)).
Proof.
  apply (mvwprintw_restores_cursor_of_stdscr 10 20 None session0). reflexivity.
Defined.

Lemma mvwprintw_leaves_other_window_moved_witness :
  cur (heap (snd (mvwprintw 8192 10 20 None session0)) 8192) = {| X := 20; Y := 10 |}.
Proof.
  apply (mvwprintw_leaves_other_window_moved 8192 10 20 None session0);
    try reflexivity; try discriminate; unfold is_SHORT; simpl; lia.
Defined.

Lemma clearmode_clears_witness :
  fst (clearmode 3 ENABLE_LINE_INPUT session0) = OK /\
  GetConsoleMode (console (snd (clearmode 3 ENABLE_LINE_INPUT session0))) 3 =
    Some (to_unsigned (Z.land 0 (Z.lnot ENABLE_LINE_INPUT))).
Proof.
  apply (clearmode_clears 3 ENABLE_LINE_INPUT 0 session0). reflexivity.
Defined.

(** A newline puts the cursor in column 0 of the next row, whatever the
    column and the row were: the row is not compared with the window's
    size. *)
Lemma waddch_newline (win : WINDOW_PTR) (st : STATE) :
  win <> NULL ->
  fst (waddch win 10 st) = OK /\
  cur (heap (snd (waddch win 10 st)) win) =
    {| X := 0; Y := to_short (Y (cur (heap st win)) + 1) |}.
Proof.
  intros Hwin. unfold waddch.
  destruct (Z.eqb_spec win NULL); [contradiction |].
  unfold bind, deref, gets, update, modify, ret. cbn. now rewrite !Z.eqb_refl.
Qed.

(** The session with the default window's cursor in the last row. *)
Definition session_last_row : STATE := snd (wmove 4096 24 7 session0).

Lemma waddch_newline_witness :
  Y (size (heap session_last_row 4096)) = 25 /\
  cur (heap session_last_row 4096) = {| X := 7; Y := 24 |} /\
  fst (waddch 4096 10 session_last_row) = OK /\
  cur (heap (snd (waddch 4096 10 session_last_row)) 4096) = {| X := 0; Y := 25 |}.
Proof.
  split; [reflexivity |]. split; [reflexivity |].
  apply (waddch_newline 4096 session_last_row). discriminate.
Defined.

(** In no-delay mode, with no key press waiting, [wgetch] returns [ERR] at
    once and takes nothing off the queue. *)
Lemma wgetch_nodelay_no_input (win : WINDOW_PTR) (st : STATE) :
  truth (Z.land (wflags (heap st win)) WC_NODELAY) = true ->
  kbhit (events (console st)) = false ->
  exists st',
    wgetch win st = Some (ERR, st') /\ events (console st') = events (console st).
Proof.
  unfold wgetch. intros -> Hkb.
  assert (Hpoll : poll_console true (events (console st)) = no_input (events (console st))).
  { destruct (events (console st)); unfold poll_console; now rewrite Hkb. }
  rewrite Hpoll. eexists. split; reflexivity.
Qed.

Lemma wgetch_nodelay_no_input_witness :
  exists st',
    wgetch 4096 (snd (nodelay 4096 TRUE session0)) = Some (ERR, st') /\
    events (console st') = events (console (snd (nodelay 4096 TRUE session0))).
Proof.
  apply (wgetch_nodelay_no_input 4096 (snd (nodelay 4096 TRUE session0))); reflexivity.
Defined.

(** Without no-delay mode and with no key press in the queue, [wgetch] does
    not return. *)
Lemma wgetch_blocks (win : WINDOW_PTR) (st : STATE) :
  truth (Z.land (wflags (heap st win)) WC_NODELAY) = false ->
  kbhit (events (console st)) = false ->
  wgetch win st = None.
Proof.
  unfold wgetch. intros -> Hkb.
  assert (Hpoll : poll_console false (events (console st)) = blocked).
  { induction (events (console st)) as [| c evs IH]; [reflexivity |].
    unfold kbhit in *. simpl in Hkb. apply orb_false_iff in Hkb. destruct Hkb as [Hc Hevs].
    unfold poll_console; fold poll_console. cbn [andb]. rewrite Hc. now apply IH. }
  now rewrite Hpoll.
Qed.

Lemma wgetch_blocks_witness :
  wgetch 4096 (set_console (set_events console0 [mouse_event]) session0) = None.
Proof.
  apply (wgetch_blocks 4096 (set_console (set_events console0 [mouse_event]) session0));
    reflexivity.
Defined.

(** *** Writing a line *)

(** An ordinary character in a window whose back buffer is open: [waddch]
    returns [OK], the cell under the cursor (when the buffer has it) takes
    the character with the window's attributes, and the cursor moves one
    column on, to column 0 of the next row after the last column.  Nothing
    else of the window changes and the buffer stays open. *)
Lemma waddch_ordinary (win : WINDOW_PTR) (ch : chtype) (st : STATE) (b : SCREEN_BUFFER) :
  win <> NULL -> ch <> 10 -> ch <> 13 ->
  screens (console st) (hcon_at (heap st win) (bbuf (heap st win))) = Some b ->
  let w := heap st win in
  let st' := snd (waddch win ch st) in
  let x1 := to_short (Z.rem (X (cur w) + 1) (X (size w))) in
  fst (waddch win ch st) = OK /\
  heap st' win =
    set_cur {| X := x1; Y := if x1 =? 0 then to_short (Y (cur w) + 1) else Y (cur w) |} w /\
  screens (console st') (hcon_at w (bbuf w)) <> None /\
  (0 <= Y (cur w) < Y (dwSize b) -> 0 <= X (cur w) < X (dwSize b) ->
   Y (cur w) < 32767 -> X (cur w) < 32767 ->
   cell_at (console st') (hcon_at w (bbuf w)) (Y (cur w)) (X (cur w)) =
     Some {| Char := to_WORD ch; Attributes := attrs w |}).
Proof.
  intros Hwin H10 H13 Hb w st' x1. subst st'. fold w in Hb. unfold waddch.
  destruct (Z.eqb_spec win NULL); [contradiction |].
  destruct (Z.eqb_spec ch 13); [contradiction |].
  destruct (Z.eqb_spec ch 10); [contradiction |].
  unfold bind, deref, gets, call_WriteConsoleOutput. fold w.
  set (region := {| Left := X (cur w); Top := Y (cur w);
                    Right := to_short (X (cur w) + X {| X := 1; Y := 1 |});
                    Bottom := to_short (Y (cur w) + Y {| X := 1; Y := 1 |}) |}).
  set (c := {| Char := to_WORD ch; Attributes := attrs w |}).
  change {| X := 0; Y := 0 |} with origin.
  destruct (WriteConsoleOutput_written (console st) (hcon_at w (bbuf w)) b [c]
              {| X := 1; Y := 1 |} region Hb) as (_ & _ & _ & Hcell).
  pose proof (WriteConsoleOutput_dwSize (console st) (hcon_at w (bbuf w)) [c]
                {| X := 1; Y := 1 |} region (hcon_at w (bbuf w))) as Hdims.
  assert (Hres : fst (fst (WriteConsoleOutput (console st) (hcon_at w (bbuf w)) [c]
                             {| X := 1; Y := 1 |} origin region)) = TRUE)
    by (unfold WriteConsoleOutput; now rewrite Hb).
  destruct (WriteConsoleOutput (console st) (hcon_at w (bbuf w)) [c]
              {| X := 1; Y := 1 |} origin region) as [[res con'] u].
  cbn [fst snd] in Hcell, Hdims, Hres. subst res.
  cbn [fst snd]. change (TRUE =? 0) with false. cbv iota.
  unfold update, modify, ret. cbn [fst snd heap set_heap set_console console].
  cbn [fst snd heap set_heap set_console console cur set_cur X Y].
  rewrite ?Z.eqb_refl. cbn [cur set_cur X Y]. fold w. fold x1.
  destruct (x1 =? 0) eqn:Ex;
    cbn [fst snd heap set_heap set_console console cur set_cur X Y];
    rewrite ?Z.eqb_refl; cbn [cur set_cur X Y];
    (split; [reflexivity |]); (split; [reflexivity |]);
    (split; [intros E; rewrite E, Hb in Hdims; discriminate |]);
    intros Hy Hx Hy' Hx';
    (assert (Hin : in_rect (used_rect (dwSize b) {| X := 1; Y := 1 |} origin region)
                           (Y (cur w)) (X (cur w)) = true)
       by (apply in_used_rect_iff; subst region; cbn [Left Top Right Bottom X Y];
           rewrite !to_short_id by (unfold is_SHORT; lia); lia));
    rewrite (Hcell _ _ Hin); unfold tbuf_index, origin; subst region;
    cbn [Left Top X Y]; rewrite !Z.sub_diag; reflexivity.
Qed.





(** *** The color scenario of the specification *)

(** [start_color], then [init_pair(1, COLOR_RED, COLOR_BLACK)], then
    [attrset(COLOR_PAIR(1))], then [addch('X')], on the session: every call
    returns [OK], the window's attributes are the console's red-foreground
    bit alone, and the cell written in the back buffer carries them. *)
Lemma color_scenario_red_on_black :
  let st1 := snd (start_color session0) in
  let st2 := snd (init_pair 1 COLOR_RED COLOR_BLACK st1) in
  let st3 := snd (attrset (COLOR_PAIR 1) st2) in
  let st4 := snd (addch 88 st3) in
  (fst (start_color session0) = OK /\
   fst (init_pair 1 COLOR_RED COLOR_BLACK st1) = OK /\
   fst (attrset (COLOR_PAIR 1) st2) = OK /\
   fst (addch 88 st3) = OK) /\
  PAIR_NUMBER (COLOR_PAIR 1) = 1 /\
  attrs (heap st3 4096) = FOREGROUND_RED /\
  cell_at (console st4) 101 0 0 = Some {| Char := 88; Attributes := FOREGROUND_RED |} /\
  cell_at (console st4) 100 0 0 = Some {| Char := 32; Attributes := 7 |} /\
  cur (heap st4 4096) = {| X := 1; Y := 0 |}.
Proof.
  vm_compute. repeat split.
Qed.

(** *** What the drawing calls leave of [stdscr_ready] *)

(** The members of a window that [refresh] reads besides the cursor. *)
Definition buffers_of (w : WINDOW) : list HANDLE * Z * Z * SMALL_RECT :=
  (hcon w, prim w, bbuf w, rect w).

Lemma keeps_update_buffers_of (p win : WINDOW_PTR) (u : WINDOW -> WINDOW) :
  (forall w, buffers_of (u w) = buffers_of w) ->
  keeps (fun st => buffers_of (heap st p)) (update win u).
Proof.
  intros Hu st. unfold update, modify. simpl.
  destruct (Z.eqb_spec p win) as [-> | _]; [apply Hu | reflexivity].
Qed.

Lemma keeps_call_WriteConsoleOutput_dwSize (h' h : HANDLE) (lpBuffer : list CHAR_INFO)
    (bsize : COORD) (region : SMALL_RECT) :
  keeps (fun st => option_map dwSize (screens (console st) h'))
        (call_WriteConsoleOutput h lpBuffer bsize origin region).
Proof.
  intros st. unfold call_WriteConsoleOutput.
  pose proof (WriteConsoleOutput_dwSize (console st) h lpBuffer bsize region h') as H.
  destruct (WriteConsoleOutput (console st) h lpBuffer bsize origin region)
    as [[res con] u].
  exact H.
Qed.

Lemma waddch_keeps_stdscr (win : WINDOW_PTR) (ch : chtype) :
  keeps stdscr (waddch win ch).
Proof.
  unfold waddch, deref, update.
  repeat match goal with
  | |- keeps _ (call_WriteConsoleOutput _ _ _ _ _) =>
      apply keeps_call_WriteConsoleOutput; intros ? ?; reflexivity
  | _ => keeps_step
  end.
Qed.

Lemma waddch_keeps_buffers_of (p win : WINDOW_PTR) (ch : chtype) :
  keeps (fun st => buffers_of (heap st p)) (waddch win ch).
Proof.
  unfold waddch, deref.
  repeat match goal with
  | |- keeps _ (update _ _) => apply keeps_update_buffers_of; intros ?; reflexivity
  | |- keeps _ (call_WriteConsoleOutput _ _ _ _ _) =>
      apply keeps_call_WriteConsoleOutput; intros ? ?; reflexivity
  | _ => keeps_step
  end.
Qed.

Lemma waddch_keeps_dwSize (h : HANDLE) (win : WINDOW_PTR) (ch : chtype) :
  keeps (fun st => option_map dwSize (screens (console st) h)) (waddch win ch).
Proof.
  unfold waddch, deref, update.
  change {| X := 0; Y := 0 |} with origin.
  repeat match goal with
  | |- keeps _ (call_WriteConsoleOutput _ _ _ _ _) =>
      apply keeps_call_WriteConsoleOutput_dwSize
  | _ => keeps_step
  end.
Qed.

Lemma stdscr_ready_transfer (st st' : STATE) :
  stdscr st' = stdscr st ->
  buffers_of (heap st' (stdscr st)) = buffers_of (heap st (stdscr st)) ->
  (forall h, option_map dwSize (screens (console st') h) =
             option_map dwSize (screens (console st) h)) ->
  stdscr_ready st -> stdscr_ready st'.
Proof.
  unfold stdscr_ready, buffers_of, hcon_at. intros -> [= Hh Hp Hb Hr] Hd.
  rewrite Hh, Hp, Hb, Hr. intros (H1 & H2 & H3 & H4 & H5).
  repeat split; try assumption.
  - intros E. apply H2. specialize (Hd (nth (Z.to_nat (prim (heap st (stdscr st))))
                                            (hcon (heap st (stdscr st))) INVALID_HANDLE_VALUE)).
    rewrite E in Hd. now destruct (screens (console st) _).
  - intros E. apply H3. specialize (Hd (nth (Z.to_nat (bbuf (heap st (stdscr st))))
                                            (hcon (heap st (stdscr st))) INVALID_HANDLE_VALUE)).
    rewrite E in Hd. now destruct (screens (console st) _).
Qed.

(** Writing a character, into any window, leaves the default window ready
    for [refresh]. *)
Lemma waddch_keeps_stdscr_ready (win : WINDOW_PTR) (ch : chtype) (st : STATE) :
  stdscr_ready st -> stdscr_ready (snd (waddch win ch st)).
Proof.
  apply stdscr_ready_transfer.
  - apply waddch_keeps_stdscr.
  - apply (waddch_keeps_buffers_of (stdscr st) win ch st).
  - intros h. apply (waddch_keeps_dwSize h win ch st).
Qed.

Lemma waddch_keeps_stdscr_ready_witness : stdscr_ready (snd (waddch 4096 88 session0)).
Proof.
  apply (waddch_keeps_stdscr_ready 4096 88 session0).
  unfold stdscr_ready. split; [left; split; reflexivity |].
  split; [lazy; discriminate |]. split; [lazy; discriminate |].
  split; lazy; discriminate.
Defined.

(** So does moving a cursor. *)
Lemma wmove_keeps_stdscr_ready (win : WINDOW_PTR) (y x : Z) (st : STATE) :
  stdscr_ready st -> stdscr_ready (snd (wmove win y x st)).
Proof.
  destruct (Z_lt_ge_dec y 0) as [Hy0 | Hy0];
    [now rewrite wmove_out_of_bounds by lia |].
  destruct (Z_lt_ge_dec y (Y (size (heap st win)))) as [Hy1 | Hy1];
    [| now rewrite wmove_out_of_bounds by lia].
  destruct (Z_lt_ge_dec x 0) as [Hx0 | Hx0];
    [now rewrite wmove_out_of_bounds by lia |].
  destruct (Z_lt_ge_dec x (X (size (heap st win)))) as [Hx1 | Hx1];
    [| now rewrite wmove_out_of_bounds by lia].
  destruct (wmove_in_bounds win y x st) as (_ & Hwin & Hother & Hrest); try lia.
  cbv zeta in Hwin, Hother, Hrest.
  assert (Hs : stdscr (snd (wmove win y x st)) = stdscr st)
    by (now rewrite <- Hrest at 2).
  assert (Hc : console (snd (wmove win y x st)) = console st)
    by (now rewrite <- Hrest at 2).
  apply stdscr_ready_transfer.
  - exact Hs.
  - destruct (Z.eq_dec (stdscr st) win) as [-> | Hne].
    + now rewrite Hwin.
    + now rewrite Hother.
  - intros h. now rewrite Hc.
Qed.

Lemma wmove_keeps_stdscr_ready_witness : stdscr_ready (snd (wmove 4096 3 4 session0)).
Proof.
  apply (wmove_keeps_stdscr_ready 4096 3 4 session0).
  unfold stdscr_ready. split; [left; split; reflexivity |].
  split; [lazy; discriminate |]. split; [lazy; discriminate |].
  split; lazy; discriminate.
Defined.

(** *** The window flags *)

Lemma land_set_bit (f m : Z) :
  Z.land m (Z.ones 32) = m -> Z.land (to_unsigned (Z.lor f m)) m = m.
Proof.
  intros Hm. unfold to_unsigned.
  change 4294967296 with (2 ^ 32). rewrite <- Z.land_ones by lia.
  apply Z.bits_inj'. intros n Hn.
  apply (f_equal (fun z => Z.testbit z n)) in Hm. rewrite Z.land_spec in Hm.
  rewrite !Z.land_spec, Z.lor_spec.
  now destruct (Z.testbit f n), (Z.testbit m n), (Z.testbit (Z.ones 32) n).
Qed.

Lemma land_clear_bit (f m : Z) :
  Z.land (to_unsigned (Z.land f (Z.lnot m))) m = 0.
Proof.
  unfold to_unsigned.
  change 4294967296 with (2 ^ 32). rewrite <- Z.land_ones by lia.
  apply Z.bits_inj'. intros n Hn.
  rewrite !Z.land_spec, Z.lnot_spec, Z.bits_0 by lia.
  now destruct (Z.testbit f n), (Z.testbit m n), (Z.testbit (Z.ones 32) n).
Qed.

(** [keypad win bf] on a window turns its keypad flag on when [bf] is not
    [FALSE] and off when it is; [nodelay win bf] turns the no-delay flag on
    when [bf] is [TRUE] and off otherwise. *)
Lemma keypad_nodelay_set_flags (win : WINDOW_PTR) (bf : Z) (st : STATE) :
  win <> NULL ->
  (fst (keypad win bf st) = OK /\
   truth (Z.land (wflags (heap (snd (keypad win bf st)) win)) WC_WKEYPAD) =
     negb (bf =? FALSE)) /\
  (fst (nodelay win bf st) = OK /\
   truth (Z.land (wflags (heap (snd (nodelay win bf st)) win)) WC_NODELAY) =
     (bf =? TRUE)).
Proof.
  intros Hwin. unfold keypad, nodelay.
  destruct (Z.eqb_spec win NULL); [contradiction |].
  unfold bind, update, modify, ret. split.
  - destruct (bf =? FALSE); cbn [fst snd heap set_heap wflags set_wflags negb];
      rewrite Z.eqb_refl; cbn [wflags set_wflags]; (split; [reflexivity |]).
    + now rewrite land_clear_bit.
    + now rewrite land_set_bit.
  - destruct (bf =? TRUE); cbn [fst snd heap set_heap wflags set_wflags negb];
      rewrite Z.eqb_refl; cbn [wflags set_wflags]; (split; [reflexivity |]).
    + now rewrite land_set_bit.
    + now rewrite land_clear_bit.
Qed.

Lemma keypad_nodelay_set_flags_witness :
  (fst (keypad 4096 TRUE session0) = OK /\
   truth (Z.land (wflags (heap (snd (keypad 4096 TRUE session0)) 4096)) WC_WKEYPAD) =
     negb (TRUE =? FALSE)) /\
  (fst (nodelay 4096 FALSE session0) = OK /\
   truth (Z.land (wflags (heap (snd (nodelay 4096 FALSE session0)) 4096)) WC_NODELAY) =
     (FALSE =? TRUE)).
Proof.
  split.
  - apply (keypad_nodelay_set_flags 4096 TRUE session0). discriminate.
  - apply (keypad_nodelay_set_flags 4096 FALSE session0). discriminate.
Defined.

(** ** Colors that cannot be changed *)

(** The state after the guard of [init_color] and [color_content]:
    [has_colors] has run when the color flag is on, and nothing else
    happened. *)
Definition after_color_guard (st : STATE) : STATE :=
  if truth (Z.land (flags st) WC_COLOR)
  then set_COLOR_PAIRS MAX_NUM_PAIRS (set_COLORS NUM_COLORS st)
  else st.

Lemma color_guard_false (color : Z) (st : STATE) :
  andc (fl <- gets flags ;; ret (truth (Z.land fl WC_COLOR)))
      (andc (hc <- has_colors ;; ret (truth hc))
      (andc (ccc <- can_change_color ;; ret (truth ccc))
      (andc (cs <- gets COLORS ;; ret (color <? cs))
            (ret (color >? 0))))) st = (false, after_color_guard st).
Proof.
  unfold andc, bind, gets, ret, after_color_guard.
  destruct (truth (Z.land (flags st) WC_COLOR)); [| reflexivity].
  rewrite has_colors_eq. reflexivity.
Qed.

(** [init_color] returns [ERR] for every color and every intensity, in every
    state, and stores no color: [can_change_color] is [FALSE]. *)
Lemma init_color_always_ERR (color red green blue : Z) (st : STATE) :
  init_color color red green blue st = (ERR, after_color_guard st) /\
  colors (after_color_guard st) = colors st.
Proof.
  split.
  - unfold init_color. unfold bind at 1. now rewrite color_guard_false.
  - unfold after_color_guard. now destruct (truth _).
Qed.

(** [color_content] returns [ERR] for every color, in every state; its
    pointer parameters are as they were and no [short] has changed. *)
Lemma color_content_always_ERR (color : Z) (red green blue : short_ptr) (st : STATE) :
  color_content color red green blue st = ((ERR, (red, green, blue)), after_color_guard st) /\
  forall p, load (after_color_guard st) p = load st p.
Proof.
  split.
  - unfold color_content. unfold bind at 1. now rewrite color_guard_false.
  - intros p. unfold after_color_guard. destruct (truth _); now destruct p.
Qed.

(** ** The input mode, continued *)

(** [nocbreak] and [noraw] return [ERR] in every state and change nothing. *)
Lemma nocbreak_noraw_always_ERR (st : STATE) :
  nocbreak st = (ERR, st) /\ noraw st = (ERR, st).
Proof.
  unfold nocbreak, noraw, bind, gets. now rewrite setmode_always_ERR.
Qed.

Lemma clearmode_eq (hcon : HANDLE) (bmask : Z) (st : STATE) :
  clearmode hcon bmask st =
  match input_mode (console st) hcon with
  | Some mode =>
      (OK, set_console (set_input_mode (console st) hcon
                          (to_unsigned (Z.land mode (Z.lnot bmask)))) st)
  | None => (ERR, st)
  end.
Proof.
  unfold clearmode, bind, call_GetConsoleMode, call_SetConsoleMode, gets, ret,
    GetConsoleMode, SetConsoleMode.
  destruct (input_mode (console st) hcon) as [mode |] eqn:E; [| reflexivity].
  cbn. now rewrite E.
Qed.

Lemma to_unsigned_land_lnot (m a b : Z) :
  to_unsigned (Z.land (to_unsigned (Z.land m (Z.lnot a))) (Z.lnot b)) =
  to_unsigned (Z.land m (Z.lnot (Z.lor a b))).
Proof.
  unfold to_unsigned. change 4294967296 with (2 ^ 32).
  rewrite <- !Z.land_ones by lia.
  apply Z.bits_inj'. intros n Hn.
  rewrite !Z.land_spec, !Z.lnot_spec, Z.lor_spec by lia.
  now destruct (Z.testbit m n), (Z.testbit a n), (Z.testbit b n),
    (Z.testbit (Z.ones 32) n).
Qed.

(** [raw] returns [OK] exactly when the console reports the mode of the
    input handle; the mode is then the old one with the line-input and the
    processed-input bits cleared.  Otherwise it returns [ERR] and changes
    nothing. *)
Lemma raw_clears_line_and_processed_input (st : STATE) :
  (forall mode, GetConsoleMode (console st) (hstdin st) = Some mode ->
     fst (raw st) = OK /\
     GetConsoleMode (console (snd (raw st))) (hstdin st) =
       Some (to_unsigned
               (Z.land mode (Z.lnot (Z.lor ENABLE_LINE_INPUT ENABLE_PROCESSED_INPUT))))) /\
  (GetConsoleMode (console st) (hstdin st) = None -> raw st = (ERR, st)).
Proof.
  unfold GetConsoleMode. split.
  - intros mode Hmode. unfold raw, bind, gets.
    rewrite clearmode_eq, Hmode. cbn [fst snd]. change (OK =? ERR) with false. cbv iota beta.
    rewrite clearmode_eq. cbn [console set_console hstdin input_mode set_input_mode].
    rewrite Z.eqb_refl. change (OK =? ERR) with false.
    cbn [fst snd ret console set_console input_mode set_input_mode].
    rewrite Z.eqb_refl. split; [reflexivity |].
    now rewrite to_unsigned_land_lnot.
  - intros Hmode. unfold raw, bind, gets. rewrite clearmode_eq, Hmode. reflexivity.
Qed.

(** [cbreak] on a console that reports its mode: the line-input bit is
    cleared, the processed-input bit is as it was, and the result is [ERR]
    all the same. *)
Lemma cbreak_clears_line_input_only (mode : Z) (st : STATE) :
  GetConsoleMode (console st) (hstdin st) = Some mode ->
  fst (cbreak st) = ERR /\
  GetConsoleMode (console (snd (cbreak st))) (hstdin st) =
    Some (to_unsigned (Z.land mode (Z.lnot ENABLE_LINE_INPUT))).
Proof.
  unfold GetConsoleMode. intros Hmode. unfold cbreak, bind, gets.
  rewrite clearmode_eq, Hmode. cbn [fst snd]. change (OK =? ERR) with false. cbv iota beta.
  rewrite setmode_always_ERR. cbn. now rewrite Z.eqb_refl.
Qed.

(** ** Moving and writing one character *)

Lemma wmove_in_bounds_eq (win : WINDOW_PTR) (y x : Z) (st : STATE) :
  0 <= y < Y (size (heap st win)) -> 0 <= x < X (size (heap st win)) ->
  Y (size (heap st win)) <= 32767 -> X (size (heap st win)) <= 32767 ->
  let st' := snd (wmove win y x st) in
  fst (wmove win y x st) = OK /\
  heap st' win = set_cur {| X := x; Y := y |} (heap st win) /\
  console st' = console st /\ stdscr st' = stdscr st.
Proof.
  intros Hy Hx HY HX st'.
  destruct (wmove_in_bounds win y x st Hy Hx) as (Hok & Hwin & _ & Hrest).
  fold st' in Hwin, Hrest.
  rewrite !to_short_id in Hwin by (unfold is_SHORT; lia).
  split; [exact Hok |]. split; [exact Hwin |]. split.
  - transitivity (console (set_heap (heap st) st')); [reflexivity | now rewrite Hrest].
  - transitivity (stdscr (set_heap (heap st) st')); [reflexivity | now rewrite Hrest].
Qed.

(** [mvwaddch] (and [mvaddch], which is [mvwaddch] on the default window)
    with a position outside the window returns [ERR] and changes nothing.
    With a position inside it and an ordinary character, in a window whose
    back buffer is open, it returns [OK], the cell at that position of the
    back buffer holds the character with the window's attributes, and the
    cursor is one column further, or in column 0 of the next row after the
    last column. *)
Lemma mvwaddch_moves_then_writes (win : WINDOW_PTR) (y x : Z) (ch : chtype)
    (st : STATE) (b : SCREEN_BUFFER) :
  let w := heap st win in
  win <> NULL -> ch <> 10 -> ch <> 13 ->
  screens (console st) (hcon_at w (bbuf w)) = Some b ->
  Y (size w) <= 32767 -> X (size w) <= 32767 ->
  (y < 0 \/ y >= Y (size w) \/ x < 0 \/ x >= X (size w) ->
     mvwaddch win y x ch st = (ERR, st)) /\
  (0 <= y < Y (size w) -> 0 <= x < X (size w) ->
     let st' := snd (mvwaddch win y x ch st) in
     fst (mvwaddch win y x ch st) = OK /\
     cur (heap st' win) =
       (if x + 1 =? X (size w) then {| X := 0; Y := y + 1 |}
        else {| X := x + 1; Y := y |}) /\
     (y < Y (dwSize b) -> x < X (dwSize b) ->
        cell_at (console st') (hcon_at w (bbuf w)) y x =
          Some {| Char := to_WORD ch; Attributes := attrs w |})) /\
  mvaddch y x ch st = mvwaddch (stdscr st) y x ch st.
Proof.
  intros w Hwin H10 H13 Hb HY HX. split; [| split; [| reflexivity]].
  - intros Hout. unfold mvwaddch, bind.
    now rewrite (wmove_out_of_bounds win y x st Hout).
  - intros Hy Hx st'. subst st'. unfold mvwaddch, bind.
    destruct (wmove_in_bounds_eq win y x st Hy Hx HY HX) as (Hok & Hheap & Hcon & _).
    destruct (wmove win y x st) as [res st1]. cbn [fst snd] in *. subst res.
    change (OK =? ERR) with false. cbv iota.
    assert (Hb1 : screens (console st1) (hcon_at (heap st1 win) (bbuf (heap st1 win))) = Some b).
    { rewrite Hcon, Hheap. exact Hb. }
    destruct (waddch_ordinary win ch st1 b Hwin H10 H13 Hb1) as (Hok' & Hheap' & _ & Hcell).
    rewrite Hheap in Hheap', Hcell.
    cbn [cur set_cur X Y size hcon_at hcon bbuf attrs] in Hheap', Hcell. fold w in Hheap', Hcell.
    split; [exact Hok' |]. split.
    + rewrite Hheap'. cbn [cur set_cur].
      destruct (Z.eqb_spec (x + 1) (X (size w))) as [E | E].
      * rewrite E, Z.rem_same by lia. change (to_short 0) with 0. cbn.
        rewrite to_short_id by (unfold is_SHORT; lia). reflexivity.
      * rewrite Z.rem_small by lia. rewrite to_short_id by (unfold is_SHORT; lia).
        destruct (Z.eqb_spec (x + 1) 0); [lia | reflexivity].
    + intros Hyb Hxb. apply Hcell; lia.
Qed.

(** ** Reading after a move that failed *)

(** [mvwgetch] does not look at the result of its move: with a position
    outside the default window it reads exactly as [wgetch] does, and
    [mvgetch] as [getch]. *)
Lemma mvwgetch_out_of_bounds_reads_anyway (win : WINDOW_PTR) (y x : Z) (st : STATE) :
  let w := heap st (stdscr st) in
  y < 0 \/ y >= Y (size w) \/ x < 0 \/ x >= X (size w) ->
  mvwgetch win y x st = wgetch win st /\ mvgetch y x st = getch st.
Proof.
  intros w Hout. unfold mvgetch, getch, mvwgetch.
  now rewrite (wmove_out_of_bounds (stdscr st) y x st Hout).
Qed.

(** ** When the printw family fails *)

(** [va_wprintw] returns [ERR] exactly when the text could not be formatted
    or has, with its terminating zero, more characters than the default
    window has cells, whatever window is written to; the state is then
    unchanged.  In every other case it returns [OK]. *)
Lemma va_wprintw_ERR_iff (win : WINDOW_PTR) (rendered : option (list chtype)) (st : STATE) :
  (fst (va_wprintw win rendered st) = ERR <->
   match rendered with
   | None => True
   | Some text => ~ fits st text
   end) /\
  (fst (va_wprintw win rendered st) = ERR -> snd (va_wprintw win rendered st) = st) /\
  (fst (va_wprintw win rendered st) = ERR \/ fst (va_wprintw win rendered st) = OK) /\
  printw rendered st = va_wprintw (stdscr st) rendered st /\
  (win <> NULL -> wprintw win rendered st = va_wprintw win rendered st) /\
  wprintw NULL rendered st = (ERR, st).
Proof.
  split; [| split; [apply va_wprintw_ERR_unchanged | split; [| split; [reflexivity | split]]]].
  - destruct rendered as [text |].
    + split.
      * intros Herr Hfits. rewrite va_wprintw_fits in Herr by exact Hfits. discriminate.
      * unfold fits. intros Hnot.
        unfold va_wprintw, bind, deref, gets, vsprintf_s. cbn [fst snd].
        destruct (Z.ltb_spec (Z.of_nat (length text))
                    (Y (size (heap st (stdscr st))) * X (size (heap st (stdscr st)))));
          [contradiction | reflexivity].
    + split; [trivial | reflexivity].
  - unfold va_wprintw, bind, deref, gets.
    destruct (fst (vsprintf_s _ rendered) <? 0); [now left |].
    destruct (va_wprintw_loop win _ st). now right.
  - intros Hwin. unfold wprintw. now destruct (Z.eqb_spec win NULL).
  - reflexivity.
Qed.

(** ** Attributes *)

Definition is_WORD (z : Z) : Prop := 0 <= z < 65536.

Lemma to_WORD_id (z : Z) : is_WORD z -> to_WORD z = z.
Proof. unfold is_WORD, to_WORD. intros H. now rewrite Z.mod_small. Qed.

Lemma to_WORD_is_WORD (z : Z) : is_WORD (to_WORD z).
Proof. unfold is_WORD, to_WORD. apply Z.mod_pos_bound. lia. Qed.

(** The console bits that [getattrs] derives from the four attributes it
    knows, and from the intensities of a color. *)
Definition style_bits (a : Z) : Z :=
  Z.lor (Z.lor (Z.lor (if truth (Z.land a A_BOLD) then FOREGROUND_INTENSITY else 0)
                      (if truth (Z.land a A_REVERSE) then COMMON_LVB_REVERSE_VIDEO else 0))
               (if truth (Z.land a A_STANDOUT) then BACKGROUND_INTENSITY else 0))
        (if truth (Z.land a A_UNDERLINE) then COMMON_LVB_UNDERSCORE else 0).

Definition color_bits (c : Color.color_t) : Z :=
  Z.lor (Z.lor (if Color.r c =? 0 then 0 else FOREGROUND_RED)
               (if Color.g c =? 0 then 0 else FOREGROUND_GREEN))
        (if Color.b c =? 0 then 0 else FOREGROUND_BLUE).

(** [getattrs] reads the color flag and the two tables and changes nothing;
    its result is the style bits and, with the color flag on, the bits of
    the foreground and of the background of the pair that the attribute word
    names. *)
Lemma getattrs_eq (a : Z) (st : STATE) :
  getattrs a st =
  (if truth (Z.land (flags st) WC_COLOR)
   then
     let pair := elt pair0 (color_pairs st) (PAIR_NUMBER (to_int a)) in
     Z.lor (Z.lor (style_bits a) (color_bits (elt color0 (colors st) (ColorInfo.f pair))))
           (FTOB (color_bits (elt color0 (colors st) (ColorInfo.b pair))))
   else style_bits a,
   st).
Proof.
  unfold getattrs, andc, can_change_color, bind, gets, ret. cbv zeta.
  destruct (truth (Z.land (flags st) WC_COLOR)); cbn [fst snd].
  - change (CAN_CHANGE_COLOR =? FALSE) with true. cbv iota. f_equal.
    unfold style_bits, color_bits.
    destruct (truth (Z.land a A_BOLD)), (truth (Z.land a A_REVERSE)),
      (truth (Z.land a A_STANDOUT)), (truth (Z.land a A_UNDERLINE));
      destruct (Color.r _ =? 0), (Color.g _ =? 0), (Color.b _ =? 0);
      destruct (Color.r _ =? 0), (Color.g _ =? 0), (Color.b _ =? 0);
      reflexivity.
  - f_equal. unfold style_bits.
    destruct (truth (Z.land a A_BOLD)), (truth (Z.land a A_REVERSE)),
      (truth (Z.land a A_STANDOUT)), (truth (Z.land a A_UNDERLINE)); reflexivity.
Qed.

Lemma getattrs_pure (a : Z) (st : STATE) : snd (getattrs a st) = st.
Proof. now rewrite getattrs_eq. Qed.

Lemma getattrs_frame (a : Z) (st st' : STATE) :
  flags st' = flags st -> colors st' = colors st -> color_pairs st' = color_pairs st ->
  fst (getattrs a st') = fst (getattrs a st).
Proof.
  intros Hf Hc Hp. rewrite !getattrs_eq. cbn [fst]. now rewrite Hf, Hc, Hp.
Qed.

Lemma is_WORD_iff (z : Z) : is_WORD z <-> Z.land z (Z.ones 16) = z.
Proof.
  unfold is_WORD. rewrite Z.land_ones by lia. change (2 ^ 16) with 65536.
  split.
  - intros H. now apply Z.mod_small.
  - intros <-. apply Z.mod_pos_bound. lia.
Qed.

Lemma lor_is_WORD (a b : Z) : is_WORD a -> is_WORD b -> is_WORD (Z.lor a b).
Proof.
  rewrite !is_WORD_iff. intros Ha Hb.
  rewrite Z.land_lor_distr_l. now rewrite Ha, Hb.
Qed.

Lemma land_is_WORD (a b : Z) : is_WORD a -> is_WORD (Z.land a b).
Proof.
  rewrite !is_WORD_iff. intros Ha.
  rewrite <- Z.land_assoc, (Z.land_comm b), Z.land_assoc. now rewrite Ha.
Qed.

Lemma style_bits_is_WORD (a : Z) : is_WORD (style_bits a).
Proof.
  unfold style_bits.
  destruct (truth (Z.land a A_BOLD)), (truth (Z.land a A_REVERSE)),
    (truth (Z.land a A_STANDOUT)), (truth (Z.land a A_UNDERLINE));
    cbv; split; congruence.
Qed.

Lemma color_bits_range (c : Color.color_t) : 0 <= color_bits c < 8.
Proof.
  unfold color_bits.
  destruct (Color.r c =? 0), (Color.g c =? 0), (Color.b c =? 0); cbv; split; congruence.
Qed.

Lemma getattrs_is_WORD (a : Z) (st : STATE) : is_WORD (fst (getattrs a st)).
Proof.
  rewrite getattrs_eq. cbn [fst].
  destruct (truth (Z.land (flags st) WC_COLOR)); [| apply style_bits_is_WORD].
  cbv zeta. apply lor_is_WORD; [apply lor_is_WORD; [apply style_bits_is_WORD |] |].
  - pose proof (color_bits_range (elt color0 (colors st)
      (ColorInfo.f (elt pair0 (color_pairs st) (PAIR_NUMBER (to_int a)))))).
    unfold is_WORD. lia.
  - pose proof (color_bits_range (elt color0 (colors st)
      (ColorInfo.b (elt pair0 (color_pairs st) (PAIR_NUMBER (to_int a)))))).
    unfold is_WORD, FTOB. rewrite Z.shiftl_mul_pow2 by lia. lia.
Qed.

Lemma land_lor_lnot (a m : Z) : Z.land (Z.lor a m) (Z.lnot m) = Z.land a (Z.lnot m).
Proof.
  apply Z.bits_inj'. intros n Hn.
  rewrite !Z.land_spec, Z.lor_spec, Z.lnot_spec by lia.
  now destruct (Z.testbit a n), (Z.testbit m n).
Qed.

Lemma land_lnot_disjoint (a m : Z) : Z.land a m = 0 -> Z.land a (Z.lnot m) = a.
Proof.
  intros H. apply Z.bits_inj'. intros n Hn.
  apply (f_equal (fun z => Z.testbit z n)) in H.
  rewrite Z.land_spec, Z.bits_0 in H.
  rewrite Z.land_spec, Z.lnot_spec by lia.
  now destruct (Z.testbit a n), (Z.testbit m n).
Qed.

Lemma wattron_eq (win : WINDOW_PTR) (a : Z) (st : STATE) :
  wattron win a st =
  (OK, snd (update win (fun w =>
              set_attrs (to_WORD (Z.lor (attrs w) (fst (getattrs (to_unsigned a) st)))) w) st)).
Proof.
  unfold wattron. unfold bind at 1.
  pose proof (getattrs_pure (to_unsigned a) st) as Hp.
  destruct (getattrs (to_unsigned a) st) as [m st1]. cbn [fst snd] in *. subst st1.
  reflexivity.
Qed.

Lemma wattroff_eq (win : WINDOW_PTR) (a : Z) (st : STATE) :
  wattroff win a st =
  (OK, snd (update win (fun w =>
              set_attrs (to_WORD (Z.land (attrs w)
                                    (Z.lnot (fst (getattrs (to_unsigned a) st))))) w) st)).
Proof.
  unfold wattroff. unfold bind at 1.
  pose proof (getattrs_pure (to_unsigned a) st) as Hp.
  destruct (getattrs (to_unsigned a) st) as [m st1]. cbn [fst snd] in *. subst st1.
  reflexivity.
Qed.

(** Switching attributes on and off again.  [wattron] ORs the console bits
    of the attribute word into the window's attributes and [wattroff] clears
    them, both returning [OK]; [attron] and [attroff] do so on the default
    window.  After the two calls the window has its old attributes less
    those bits: the attributes are restored exactly when none of the bits
    was on before. *)
Lemma wattron_wattroff_round_trip (win : WINDOW_PTR) (a : Z) (st : STATE) :
  let w := heap st win in
  let m := fst (getattrs (to_unsigned a) st) in
  let st1 := snd (wattron win a st) in
  let st2 := snd (wattroff win a st1) in
  win <> NULL ->
  is_WORD (attrs w) ->
  fst (wattron win a st) = OK /\ fst (wattroff win a st1) = OK /\
  attrs (heap st1 win) = Z.lor (attrs w) m /\
  attrs (heap st2 win) = Z.land (attrs w) (Z.lnot m) /\
  (attrs (heap st2 win) = attrs w <-> Z.land (attrs w) m = 0) /\
  attron a st = wattron (stdscr st) a st /\
  attroff a st = wattroff (stdscr st) a st.
Proof.
  intros w m st1 st2 _ Hw.
  pose proof (getattrs_is_WORD (to_unsigned a) st) as Hm. fold m in Hm.
  assert (H1 : attrs (heap st1 win) = Z.lor (attrs w) m).
  { subst st1. rewrite wattron_eq. cbn [snd]. rewrite heap_update_same.
    cbn [attrs set_attrs]. fold w m. apply to_WORD_id. now apply lor_is_WORD. }
  assert (Hm1 : fst (getattrs (to_unsigned a) st1) = m).
  { subst st1 m. rewrite wattron_eq. cbn [snd]. apply getattrs_frame; reflexivity. }
  assert (H2 : attrs (heap st2 win) = Z.land (attrs w) (Z.lnot m)).
  { subst st2. rewrite wattroff_eq. cbn [snd]. rewrite heap_update_same.
    cbn [attrs set_attrs]. rewrite Hm1, H1, land_lor_lnot.
    apply to_WORD_id. now apply land_is_WORD. }
  split; [now rewrite wattron_eq |]. split; [now rewrite wattroff_eq |].
  split; [exact H1 |]. split; [exact H2 |]. split; [| split; reflexivity].
  rewrite H2. split.
  - intros H. apply Z.bits_inj'. intros n Hn.
    apply (f_equal (fun z => Z.testbit z n)) in H.
    rewrite Z.land_spec, Z.lnot_spec in H by lia.
    rewrite Z.land_spec, Z.bits_0.
    now destruct (Z.testbit (attrs w) n), (Z.testbit m n).
  - apply land_lnot_disjoint.
Qed.

Lemma wattron_wattroff_round_trip_witness :
  attrs (heap (snd (wattron 4096 A_BOLD session0)) 4096) = 15 /\
  attrs (heap (snd (wattroff 4096 A_BOLD (snd (wattron 4096 A_BOLD session0)))) 4096) = 7.
Proof.
  destruct (wattron_wattroff_round_trip 4096 A_BOLD session0) as (_ & _ & H1 & H2 & _).
  - discriminate.
  - cbv. split; congruence.
  - split; [exact H1 | exact H2].
Defined.

(** ** Colors, from [start_color] to the attributes of a cell *)

(** The two tables as wincurses.h declares them: [colors[NUM_COLORS]] and
    [color_pairs[MAX_NUM_PAIRS]]. *)
Definition tables_declared (st : STATE) : Prop :=
  length (colors st) = Z.to_nat NUM_COLORS /\
  length (color_pairs st) = Z.to_nat MAX_NUM_PAIRS.

(** The intensities [start_color] gives the eight basic colors. *)
Definition basic_colors : list Color.color_t :=
  [Color.mk 0 0 0; Color.mk 0 0 1000; Color.mk 0 1000 0; Color.mk 0 1000 1000;
   Color.mk 1000 0 0; Color.mk 1000 0 1000; Color.mk 1000 1000 0;
   Color.mk 1000 1000 1000].

Lemma assign_nth_twice {A : Type} (n : nat) (v v' : A) (a : list A) :
  assign_nth n v' (assign_nth n v a) = assign_nth n v' a.
Proof.
  revert n. induction a as [| x a IH]; intros n; [reflexivity |].
  destruct n; cbn; [reflexivity | now rewrite IH].
Qed.

Lemma assign_color_eq (i r g b : Z) (st : STATE) :
  (Z.to_nat i < length (colors st))%nat ->
  assign_color i r g b st =
  (tt, set_colors (assign_elt (colors st) i (Color.mk r g b)) st).
Proof.
  intros Hi. unfold assign_color, bind, modify, elt, assign_elt.
  cbn [fst snd colors set_colors].
  rewrite !nth_assign_nth_same by (rewrite ?length_assign_nth; exact Hi).
  cbn [Color.r Color.g Color.b]. rewrite !assign_nth_twice. reflexivity.
Qed.

Lemma init_pair_0_eq (f b : Z) (st : STATE) :
  init_pair 0 f b st =
  (ERR, if truth (Z.land (flags st) WC_COLOR)
        then set_COLOR_PAIRS MAX_NUM_PAIRS (set_COLORS NUM_COLORS st) else st).
Proof.
  unfold init_pair, andc, bind, gets, ret.
  destruct (truth (Z.land (flags st) WC_COLOR)); [| reflexivity].
  rewrite has_colors_eq. reflexivity.
Qed.

Lemma wattrset_eq (win : WINDOW_PTR) (a : Z) (st : STATE) :
  wattrset win a st =
  (OK, snd (update win (set_attrs (fst (getattrs (to_unsigned a) st))) st)).
Proof.
  unfold wattrset. unfold bind at 1.
  pose proof (getattrs_pure (to_unsigned a) st) as Hp.
  destruct (getattrs (to_unsigned a) st) as [m st1]. cbn [fst snd] in *. subst st1.
  reflexivity.
Qed.

Lemma to_unsigned_lor_WC_COLOR (fl : Z) :
  truth (Z.land (to_unsigned (Z.lor fl WC_COLOR)) WC_COLOR) = true.
Proof.
  unfold truth. rewrite land_set_bit by reflexivity. reflexivity.
Qed.

Lemma bind_eq {A B : Type} (m : M A) (k : A -> M B) (st : STATE) :
  bind m k st = k (fst (m st)) (snd (m st)).
Proof. unfold bind. now destruct (m st). Qed.

Lemma assign_color_colors (i r g b : Z) (st : STATE) (L : list Color.color_t) :
  colors st = L -> (Z.to_nat i < length L)%nat ->
  colors (snd (assign_color i r g b st)) = assign_elt L i (Color.mk r g b).
Proof.
  intros <- Hi. now rewrite assign_color_eq.
Qed.

Lemma assign_color_keeps {B : Type} (proj : STATE -> B) (i r g b : Z) :
  (forall v st, proj (set_colors v st) = proj st) ->
  keeps proj (assign_color i r g b).
Proof.
  intros H. unfold assign_color.
  repeat match goal with
  | |- keeps _ (modify _) => apply keeps_modify; intros ?; apply H
  | _ => keeps_step
  end.
Qed.

Lemma has_colors_keeps {B : Type} (proj : STATE -> B) :
  (forall v st, proj (set_COLORS v st) = proj st) ->
  (forall v st, proj (set_COLOR_PAIRS v st) = proj st) ->
  keeps proj has_colors.
Proof.
  intros H1 H2. unfold has_colors.
  repeat match goal with
  | |- keeps _ (modify (set_COLORS _)) => apply keeps_modify; intros ?; apply H1
  | |- keeps _ (modify (set_COLOR_PAIRS _)) => apply keeps_modify; intros ?; apply H2
  | _ => keeps_step
  end.
Qed.

Lemma init_pair_0_keeps {B : Type} (proj : STATE -> B) (f b : Z) :
  (forall v st, proj (set_COLORS v st) = proj st) ->
  (forall v st, proj (set_COLOR_PAIRS v st) = proj st) ->
  keeps proj (init_pair 0 f b).
Proof.
  intros H1 H2 st. rewrite init_pair_0_eq. cbn [snd].
  destruct (truth _); [| reflexivity]. now rewrite H2, H1.
Qed.

Lemma attrset_keeps {B : Type} (proj : STATE -> B) (a : Z) :
  (forall v st, proj (set_heap v st) = proj st) ->
  keeps proj (attrset a).
Proof.
  intros H st. unfold attrset, bind, gets. rewrite wattrset_eq. cbn [snd].
  unfold update, modify. cbn [snd]. apply H.
Qed.

(** The steps of [start_color] after the test, and the state they are run
    in. *)
Lemma start_color_eq (st : STATE) :
  let s0 := snd (has_colors st) in
  let s1 := snd (assign_color COLOR_BLACK 0 0 0 s0) in
  let s2 := snd (assign_color COLOR_BLUE 0 0 1000 s1) in
  let s3 := snd (assign_color COLOR_GREEN 0 1000 0 s2) in
  let s4 := snd (assign_color COLOR_CYAN 0 1000 1000 s3) in
  let s5 := snd (assign_color COLOR_RED 1000 0 0 s4) in
  let s6 := snd (assign_color COLOR_MAGENTA 1000 0 1000 s5) in
  let s7 := snd (assign_color COLOR_YELLOW 1000 1000 0 s6) in
  let s8 := snd (assign_color COLOR_WHITE 1000 1000 1000 s7) in
  let s9 := snd (init_pair 0 COLOR_WHITE COLOR_BLACK s8) in
  let s10 := snd (attrset (COLOR_PAIR 0) s9) in
  start_color st = (OK, set_flags (to_unsigned (Z.lor (flags s10) WC_COLOR)) s10).
Proof.
  cbv zeta. unfold start_color.
  rewrite bind_eq. cbv beta. change (fst (has_colors st)) with TRUE.
  change (truth TRUE) with true. cbv iota.
  do 11 (rewrite bind_eq; cbv beta). reflexivity.
Qed.

(** What [start_color] does, step by step. *)
Lemma start_color_run (st : STATE) :
  tables_declared st ->
  let st' := snd (start_color st) in
  fst (start_color st) = OK /\
  colors st' = basic_colors /\
  flags st' = to_unsigned (Z.lor (flags st) WC_COLOR) /\
  COLORS st' = NUM_COLORS /\ COLOR_PAIRS st' = MAX_NUM_PAIRS /\
  color_pairs st' = color_pairs st /\
  stdscr st' = stdscr st /\ console st' = console st /\
  (forall p, p <> stdscr st -> heap st' p = heap st p) /\
  (exists a, heap st' (stdscr st) = set_attrs a (heap st (stdscr st))) /\
  (truth (Z.land (flags st) WC_COLOR) = false -> attrs (heap st' (stdscr st)) = 0).
Proof.
  intros [Hc Hp] st'. subst st'.
  pose proof (start_color_eq st) as Hrun. cbv zeta in Hrun.
  set (s0 := snd (has_colors st)) in *.
  set (s1 := snd (assign_color COLOR_BLACK 0 0 0 s0)) in *.
  set (s2 := snd (assign_color COLOR_BLUE 0 0 1000 s1)) in *.
  set (s3 := snd (assign_color COLOR_GREEN 0 1000 0 s2)) in *.
  set (s4 := snd (assign_color COLOR_CYAN 0 1000 1000 s3)) in *.
  set (s5 := snd (assign_color COLOR_RED 1000 0 0 s4)) in *.
  set (s6 := snd (assign_color COLOR_MAGENTA 1000 0 1000 s5)) in *.
  set (s7 := snd (assign_color COLOR_YELLOW 1000 1000 0 s6)) in *.
  set (s8 := snd (assign_color COLOR_WHITE 1000 1000 1000 s7)) in *.
  set (s9 := snd (init_pair 0 COLOR_WHITE COLOR_BLACK s8)) in *.
  set (s10 := snd (attrset (COLOR_PAIR 0) s9)) in *.
  rewrite Hrun. cbn [fst snd]. clear Hrun.
  (* what the steps keep *)
  assert (K : forall (B : Type) (proj : STATE -> B),
            (forall v st, proj (set_COLORS v st) = proj st) ->
            (forall v st, proj (set_COLOR_PAIRS v st) = proj st) ->
            (forall v st, proj (set_colors v st) = proj st) ->
            proj s9 = proj st).
  { intros B proj H1 H2 H3. subst s9 s8 s7 s6 s5 s4 s3 s2 s1 s0.
    rewrite (init_pair_0_keeps proj _ _ H1 H2).
    rewrite !(assign_color_keeps proj _ _ _ _ H3).
    apply (has_colors_keeps proj H1 H2). }
  assert (K10 : forall (B : Type) (proj : STATE -> B),
            (forall v st, proj (set_COLORS v st) = proj st) ->
            (forall v st, proj (set_COLOR_PAIRS v st) = proj st) ->
            (forall v st, proj (set_colors v st) = proj st) ->
            (forall v st, proj (set_heap v st) = proj st) ->
            proj s10 = proj st).
  { intros B proj H1 H2 H3 H4. subst s10. rewrite (attrset_keeps proj _ H4).
    now apply K. }
  assert (Hcol : colors s8 = basic_colors).
  { destruct (colors st) as [| c0 [| c1 [| c2 [| c3 [| c4 [| c5 [| c6 [| c7 [| c8 l]]]]]]]]] eqn:E;
      try discriminate Hc.
    assert (E0 : colors s0 = [c0; c1; c2; c3; c4; c5; c6; c7]).
    { subst s0. rewrite (has_colors_keeps colors); [exact E | reflexivity | reflexivity]. }
    pose proof (assign_color_colors COLOR_BLACK 0 0 0 s0 _ E0 ltac:(vm_compute; lia)) as E1.
    fold s1 in E1. lazy beta iota zeta delta [assign_elt assign_nth Z.to_nat Pos.to_nat Pos.iter_op Nat.add COLOR_BLACK COLOR_BLUE COLOR_GREEN COLOR_CYAN COLOR_RED COLOR_MAGENTA COLOR_YELLOW COLOR_WHITE] in E1.
    pose proof (assign_color_colors COLOR_BLUE 0 0 1000 s1 _ E1 ltac:(vm_compute; lia)) as E2.
    fold s2 in E2. lazy beta iota zeta delta [assign_elt assign_nth Z.to_nat Pos.to_nat Pos.iter_op Nat.add COLOR_BLACK COLOR_BLUE COLOR_GREEN COLOR_CYAN COLOR_RED COLOR_MAGENTA COLOR_YELLOW COLOR_WHITE] in E2.
    pose proof (assign_color_colors COLOR_GREEN 0 1000 0 s2 _ E2 ltac:(vm_compute; lia)) as E3.
    fold s3 in E3. lazy beta iota zeta delta [assign_elt assign_nth Z.to_nat Pos.to_nat Pos.iter_op Nat.add COLOR_BLACK COLOR_BLUE COLOR_GREEN COLOR_CYAN COLOR_RED COLOR_MAGENTA COLOR_YELLOW COLOR_WHITE] in E3.
    pose proof (assign_color_colors COLOR_CYAN 0 1000 1000 s3 _ E3 ltac:(vm_compute; lia)) as E4.
    fold s4 in E4. lazy beta iota zeta delta [assign_elt assign_nth Z.to_nat Pos.to_nat Pos.iter_op Nat.add COLOR_BLACK COLOR_BLUE COLOR_GREEN COLOR_CYAN COLOR_RED COLOR_MAGENTA COLOR_YELLOW COLOR_WHITE] in E4.
    pose proof (assign_color_colors COLOR_RED 1000 0 0 s4 _ E4 ltac:(vm_compute; lia)) as E5.
    fold s5 in E5. lazy beta iota zeta delta [assign_elt assign_nth Z.to_nat Pos.to_nat Pos.iter_op Nat.add COLOR_BLACK COLOR_BLUE COLOR_GREEN COLOR_CYAN COLOR_RED COLOR_MAGENTA COLOR_YELLOW COLOR_WHITE] in E5.
    pose proof (assign_color_colors COLOR_MAGENTA 1000 0 1000 s5 _ E5 ltac:(vm_compute; lia)) as E6.
    fold s6 in E6. lazy beta iota zeta delta [assign_elt assign_nth Z.to_nat Pos.to_nat Pos.iter_op Nat.add COLOR_BLACK COLOR_BLUE COLOR_GREEN COLOR_CYAN COLOR_RED COLOR_MAGENTA COLOR_YELLOW COLOR_WHITE] in E6.
    pose proof (assign_color_colors COLOR_YELLOW 1000 1000 0 s6 _ E6 ltac:(vm_compute; lia)) as E7.
    fold s7 in E7. lazy beta iota zeta delta [assign_elt assign_nth Z.to_nat Pos.to_nat Pos.iter_op Nat.add COLOR_BLACK COLOR_BLUE COLOR_GREEN COLOR_CYAN COLOR_RED COLOR_MAGENTA COLOR_YELLOW COLOR_WHITE] in E7.
    pose proof (assign_color_colors COLOR_WHITE 1000 1000 1000 s7 _ E7 ltac:(vm_compute; lia)) as E8.
    fold s8 in E8. lazy beta iota zeta delta [assign_elt assign_nth Z.to_nat Pos.to_nat Pos.iter_op Nat.add COLOR_BLACK COLOR_BLUE COLOR_GREEN COLOR_CYAN COLOR_RED COLOR_MAGENTA COLOR_YELLOW COLOR_WHITE] in E8. exact E8. }
  assert (HC : COLORS s9 = NUM_COLORS /\ COLOR_PAIRS s9 = MAX_NUM_PAIRS).
  { assert (H8 : COLORS s8 = NUM_COLORS /\ COLOR_PAIRS s8 = MAX_NUM_PAIRS).
    { subst s8 s7 s6 s5 s4 s3 s2 s1.
      rewrite !(assign_color_keeps COLORS) by reflexivity.
      rewrite !(assign_color_keeps COLOR_PAIRS) by reflexivity.
      subst s0. split; reflexivity. }
    subst s9. rewrite init_pair_0_eq. cbn [snd].
    destruct (truth _); [split; reflexivity | exact H8]. }
  assert (H10 : s10 = snd (update (stdscr s9)
                   (set_attrs (fst (getattrs (to_unsigned (COLOR_PAIR 0)) s9))) s9)).
  { subst s10. unfold attrset. rewrite bind_eq. unfold gets. cbn [fst snd].
    now rewrite wattrset_eq. }
  assert (Hscr : stdscr s9 = stdscr st) by (apply (K _ stdscr); reflexivity).
  assert (Hcol9 : colors s9 = basic_colors).
  { rewrite <- Hcol. subst s9. apply (init_pair_0_keeps colors); reflexivity. }
  assert (Hfl : flags s9 = flags st) by (apply (K _ flags); reflexivity).
  assert (Hcp : color_pairs s9 = color_pairs st) by (apply (K _ color_pairs); reflexivity).
  assert (Hcon : console s9 = console st) by (apply (K _ console); reflexivity).
  assert (Hheap : heap s9 = heap st) by (apply (K _ heap); reflexivity).
  destruct HC as [HC1 HC2].
  clear K K10 Hcol. clearbody s10 s9. clear s0 s1 s2 s3 s4 s5 s6 s7 s8.
  subst s10. unfold update, modify.
  cbn [snd colors flags COLORS COLOR_PAIRS color_pairs stdscr console heap set_flags set_heap].
  rewrite Hscr, Hcol9, Hfl, Hcp, Hcon, Hheap, HC1, HC2, Z.eqb_refl.
  repeat (split; [reflexivity |]).
  split; [intros p Hp'; destruct (Z.eqb_spec p (stdscr st)); [contradiction | reflexivity] |].
  split; [eexists; reflexivity |].
  intros Ef. cbn [attrs set_attrs]. rewrite getattrs_eq. cbn [fst]. now rewrite Hfl, Ef.
Qed.

(** [start_color], in a state whose tables have their declared lengths:
    it returns [OK]; the eight basic colors have their intensities; the
    color flag is on and the other flags are as they were; [COLORS] and
    [COLOR_PAIRS] are 8 and 64; the pair table is untouched, pair 0
    included; of the windows only the default one changed, and of it only
    the attributes, which are 0 when the color flag was off before. *)
Theorem start_color_sets_up_colors (st : STATE) :
  tables_declared st ->
  let st' := snd (start_color st) in
  fst (start_color st) = OK /\
  colors st' = basic_colors /\
  flags st' = to_unsigned (Z.lor (flags st) WC_COLOR) /\
  COLORS st' = NUM_COLORS /\ COLOR_PAIRS st' = MAX_NUM_PAIRS /\
  color_pairs st' = color_pairs st /\
  stdscr st' = stdscr st /\ console st' = console st /\
  (forall p, p <> stdscr st -> heap st' p = heap st p) /\
  (exists a, heap st' (stdscr st) = set_attrs a (heap st (stdscr st))) /\
  (truth (Z.land (flags st) WC_COLOR) = false -> attrs (heap st' (stdscr st)) = 0).
Proof.
  exact (start_color_run st).
Qed.

Lemma init_pair_eq (p f b : Z) (st : STATE) :
  truth (Z.land (flags st) WC_COLOR) = true ->
  length (color_pairs st) = Z.to_nat MAX_NUM_PAIRS ->
  1 <= p < MAX_NUM_PAIRS ->
  init_pair p f b st =
  (OK, set_color_pairs (assign_elt (color_pairs st) p (ColorInfo.mk f b))
         (set_COLOR_PAIRS MAX_NUM_PAIRS (set_COLORS NUM_COLORS st))).
Proof.
  intros Hflag Hlen Hp.
  unfold init_pair, andc, bind, gets, ret. rewrite Hflag, has_colors_eq.
  change (truth TRUE) with true. cbv iota.
  cbn [COLOR_PAIRS set_COLOR_PAIRS].
  destruct (Z.ltb_spec p MAX_NUM_PAIRS); [| lia].
  replace (p >? 0) with true by (symmetry; apply Z.gtb_lt; lia).
  unfold modify, elt, assign_elt.
  cbn [fst snd color_pairs set_color_pairs set_COLOR_PAIRS set_COLORS].
  unfold MAX_NUM_PAIRS in *.
  rewrite nth_assign_nth_same by lia. cbn [ColorInfo.f ColorInfo.b].
  rewrite assign_nth_twice. reflexivity.
Qed.

Lemma to_int_to_unsigned (z : Z) : to_int (to_unsigned (to_int z)) = to_int z.
Proof.
  unfold to_int, to_unsigned.
  rewrite Z.add_mod_idemp_l by lia.
  rewrite Z.sub_add. now rewrite Z.mod_mod by lia.
Qed.

Lemma color_bits_basic (c : Z) :
  0 <= c < NUM_COLORS -> color_bits (elt color0 basic_colors c) = c.
Proof.
  unfold NUM_COLORS. intros Hc.
  assert (H : c = 0 \/ c = 1 \/ c = 2 \/ c = 3 \/ c = 4 \/ c = 5 \/ c = 6 \/ c = 7) by lia.
  repeat (destruct H as [-> | H]; [reflexivity |]). now subst c.
Qed.

Lemma COLOR_PAIR_small (p : Z) :
  0 <= p < 32 -> to_unsigned (COLOR_PAIR p) = Z.shiftl p 26.
Proof.
  intros Hp. unfold COLOR_PAIR, COLOR_BITS, to_int, to_unsigned.
  change (32 - 6) with 26. rewrite Z.shiftl_mul_pow2 by lia.
  change (2 ^ 26) with 67108864.
  rewrite (Z.mod_small (p * 67108864 + 2147483648)) by lia.
  rewrite Z.mod_small by lia. lia.
Qed.

Lemma style_bits_COLOR_PAIR (p : Z) :
  0 <= p < 32 -> style_bits (to_unsigned (COLOR_PAIR p)) = 0.
Proof.
  intros Hp. rewrite COLOR_PAIR_small by exact Hp.
  assert (H : forall k, 0 <= k < 26 -> Z.land (Z.shiftl p 26) (Z.shiftl 1 k) = 0).
  { intros k Hk. apply Z.bits_inj'. intros n Hn.
    rewrite Z.land_spec, Z.bits_0, !Z.shiftl_spec by lia.
    destruct (Z_lt_ge_dec n 26) as [Hlt | Hge].
    - rewrite (Z.testbit_neg_r p) by lia. reflexivity.
    - destruct (Z.eq_dec (n - k) 0); [lia |].
      replace (Z.testbit 1 (n - k)) with false; [apply andb_false_r |].
      symmetry. apply Z.bits_above_log2; cbn; lia. }
  unfold style_bits, A_BOLD, A_REVERSE, A_STANDOUT, A_UNDERLINE.
  rewrite !H by lia. reflexivity.
Qed.

(** With the color flag on and the basic colors in the table:
    [init_pair(p, f, b)] and [attrset(COLOR_PAIR(p))] return [OK], the
    attributes of the default window are then [f | b << 4], and an ordinary
    character that [addch] writes next lands in the back buffer with them. *)
Lemma color_pair_style_aux (p f b : Z) (st1 : STATE) :
  let w := heap st1 (stdscr st1) in
  let st2 := snd (init_pair p f b st1) in
  let st3 := snd (attrset (COLOR_PAIR p) st2) in
  colors st1 = basic_colors ->
  truth (Z.land (flags st1) WC_COLOR) = true ->
  length (color_pairs st1) = Z.to_nat MAX_NUM_PAIRS ->
  stdscr st1 <> NULL ->
  1 <= p < 32 -> 0 <= f < NUM_COLORS -> 0 <= b < NUM_COLORS ->
  (fst (init_pair p f b st1) = OK /\ fst (attrset (COLOR_PAIR p) st2) = OK) /\
  stdscr st3 = stdscr st1 /\
  attrs (heap st3 (stdscr st3)) = Z.lor f (FTOB b) /\
  (forall ch buf,
     ch <> 10 -> ch <> 13 ->
     screens (console st1) (hcon_at w (bbuf w)) = Some buf ->
     0 <= Y (cur w) < Y (dwSize buf) -> 0 <= X (cur w) < X (dwSize buf) ->
     Y (dwSize buf) <= 32767 -> X (dwSize buf) <= 32767 ->
     fst (addch ch st3) = OK /\
     cell_at (console (snd (addch ch st3))) (hcon_at w (bbuf w)) (Y (cur w)) (X (cur w)) =
       Some {| Char := to_WORD ch; Attributes := Z.lor f (FTOB b) |}).
Proof.
  intros w st2 st3 Hcol1 Hflag1 Hlen1 Hscr Hp Hf Hb.
  assert (Hp' : 1 <= p < MAX_NUM_PAIRS) by (unfold MAX_NUM_PAIRS; lia).
  pose proof (init_pair_eq p f b st1 Hflag1 Hlen1 Hp') as Hrun2.
  assert (Hst2 : st2 = set_color_pairs (assign_elt (color_pairs st1) p (ColorInfo.mk f b))
                         (set_COLOR_PAIRS MAX_NUM_PAIRS (set_COLORS NUM_COLORS st1)))
    by (subst st2; now rewrite Hrun2).
  assert (Hpair : elt pair0 (color_pairs st2) p = ColorInfo.mk f b).
  { rewrite Hst2. cbn [color_pairs set_color_pairs]. unfold elt, assign_elt.
    apply nth_assign_nth_same. unfold MAX_NUM_PAIRS in *. lia. }
  assert (Hfl2 : flags st2 = flags st1) by (rewrite Hst2; reflexivity).
  assert (Hcol2 : colors st2 = basic_colors) by (rewrite Hst2; exact Hcol1).
  assert (Hscr2 : stdscr st2 = stdscr st1) by (rewrite Hst2; reflexivity).
  assert (Hcon2 : console st2 = console st1) by (rewrite Hst2; reflexivity).
  assert (Hheap2 : heap st2 = heap st1) by (rewrite Hst2; reflexivity).
  assert (Hm : fst (getattrs (to_unsigned (COLOR_PAIR p)) st2) = Z.lor f (FTOB b)).
  { rewrite getattrs_eq. cbn [fst]. rewrite Hfl2, Hflag1. cbv zeta. rewrite Hcol2.
    unfold COLOR_PAIR at 2 3. rewrite to_int_to_unsigned.
    change (to_int (Z.shiftl p (32 - COLOR_BITS))) with (COLOR_PAIR p).
    rewrite PAIR_NUMBER_COLOR_PAIR_below_32 by lia.
    rewrite Hpair. cbn [ColorInfo.f ColorInfo.b].
    rewrite !color_bits_basic by assumption.
    rewrite style_bits_COLOR_PAIR by lia. reflexivity. }
  assert (Hst3 : st3 = snd (update (stdscr st1) (set_attrs (Z.lor f (FTOB b))) st2)).
  { subst st3. unfold attrset. rewrite bind_eq. unfold gets. cbn [fst snd].
    rewrite wattrset_eq, Hm, Hscr2. reflexivity. }
  clearbody st2 st3.
  assert (Hheap3 : heap st3 (stdscr st1) = set_attrs (Z.lor f (FTOB b)) w).
  { rewrite Hst3, heap_update_same, Hheap2. reflexivity. }
  assert (Hscr3 : stdscr st3 = stdscr st1).
  { rewrite Hst3. unfold update, modify. cbn [snd stdscr set_heap]. exact Hscr2. }
  assert (Hcon3 : console st3 = console st1).
  { rewrite Hst3. unfold update, modify. cbn [snd console set_heap]. exact Hcon2. }
  split; [split |].
  - now rewrite Hrun2.
  - unfold attrset. rewrite bind_eq. unfold gets. cbn [fst snd]. now rewrite wattrset_eq.
  - split; [exact Hscr3 |]. split; [now rewrite Hscr3, Hheap3 |].
    intros ch buf H10 H13 Hbuf Hy Hx HY HX.
    unfold addch. rewrite bind_eq. unfold gets. cbn [fst snd]. rewrite Hscr3.
    assert (Hbuf3 : screens (console st3)
              (hcon_at (heap st3 (stdscr st1)) (bbuf (heap st3 (stdscr st1)))) = Some buf)
      by (rewrite Hcon3, Hheap3; exact Hbuf).
    destruct (waddch_ordinary (stdscr st1) ch st3 buf Hscr H10 H13 Hbuf3)
      as (Hok & _ & _ & Hcell).
    rewrite Hheap3 in Hcell. cbn [cur hcon_at hcon bbuf attrs set_attrs] in Hcell.
    fold w in Hcell. split; [exact Hok |].
    apply Hcell; lia.
Qed.

(** From [start_color] to a cell.  In a state whose tables have their
    declared lengths, for a pair number from 1 to 31 and two of the eight
    basic colors: [start_color], [init_pair(p, f, b)] and
    [attrset(COLOR_PAIR(p))] all return [OK]; the attributes of the default
    window are then the console's foreground bits of [f] and background bits
    of [b], which are the color numbers themselves ([f | b << 4]); and an
    ordinary character that [addch] writes next lands in the back buffer, at
    the cursor, with exactly these attributes. *)
Lemma color_pair_style (p f b : Z) (st : STATE) :
  let w := heap st (stdscr st) in
  let st1 := snd (start_color st) in
  let st2 := snd (init_pair p f b st1) in
  let st3 := snd (attrset (COLOR_PAIR p) st2) in
  tables_declared st ->
  stdscr st <> NULL ->
  1 <= p < 32 -> 0 <= f < NUM_COLORS -> 0 <= b < NUM_COLORS ->
  (fst (start_color st) = OK /\ fst (init_pair p f b st1) = OK /\
   fst (attrset (COLOR_PAIR p) st2) = OK) /\
  attrs (heap st3 (stdscr st3)) = Z.lor f (FTOB b) /\
  (forall ch buf,
     ch <> 10 -> ch <> 13 ->
     screens (console st) (hcon_at w (bbuf w)) = Some buf ->
     0 <= Y (cur w) < Y (dwSize buf) -> 0 <= X (cur w) < X (dwSize buf) ->
     Y (dwSize buf) <= 32767 -> X (dwSize buf) <= 32767 ->
     fst (addch ch st3) = OK /\
     cell_at (console (snd (addch ch st3))) (hcon_at w (bbuf w)) (Y (cur w)) (X (cur w)) =
       Some {| Char := to_WORD ch; Attributes := Z.lor f (FTOB b) |}).
Proof.
  cbv zeta. intros Htab Hscr Hp Hf Hb.
  destruct (start_color_run st Htab)
    as (Hok1 & Hcol1 & Hfl1 & _ & _ & Hcp1 & Hscr1 & Hcon1 & _ & (a1 & Hheap1) & _).
  assert (Hflag1 : truth (Z.land (flags (snd (start_color st))) WC_COLOR) = true)
    by (rewrite Hfl1; apply to_unsigned_lor_WC_COLOR).
  assert (Hlen1 : length (color_pairs (snd (start_color st))) = Z.to_nat MAX_NUM_PAIRS)
    by (rewrite Hcp1; apply Htab).
  assert (Hscr' : stdscr (snd (start_color st)) <> NULL) by (now rewrite Hscr1).
  destruct (color_pair_style_aux p f b (snd (start_color st))
              Hcol1 Hflag1 Hlen1 Hscr' Hp Hf Hb) as ((Hok2 & Hok3) & _ & Hattrs & Hcell).
  split; [repeat split; assumption |]. split; [exact Hattrs |].
  rewrite Hscr1, Hheap1, Hcon1 in Hcell.
  cbn [hcon_at hcon bbuf cur set_attrs] in Hcell.
  exact Hcell.
Qed.

Lemma color_pair_style_witness :
  let w := heap session0 (stdscr session0) in
  let st1 := snd (start_color session0) in
  let st2 := snd (init_pair 1 COLOR_RED COLOR_BLACK st1) in
  let st3 := snd (attrset (COLOR_PAIR 1) st2) in
  (fst (start_color session0) = OK /\ fst (init_pair 1 COLOR_RED COLOR_BLACK st1) = OK /\
   fst (attrset (COLOR_PAIR 1) st2) = OK) /\
  attrs (heap st3 (stdscr st3)) = Z.lor COLOR_RED (FTOB COLOR_BLACK) /\
  (forall ch buf,
     ch <> 10 -> ch <> 13 ->
     screens (console session0) (hcon_at w (bbuf w)) = Some buf ->
     0 <= Y (cur w) < Y (dwSize buf) -> 0 <= X (cur w) < X (dwSize buf) ->
     Y (dwSize buf) <= 32767 -> X (dwSize buf) <= 32767 ->
     fst (addch ch st3) = OK /\
     cell_at (console (snd (addch ch st3))) (hcon_at w (bbuf w)) (Y (cur w)) (X (cur w)) =
       Some {| Char := to_WORD ch; Attributes := Z.lor COLOR_RED (FTOB COLOR_BLACK) |}).
Proof.
  assert (H1 : tables_declared session0) by (split; reflexivity).
  assert (H2 : stdscr session0 <> NULL) by discriminate.
  assert (H3 : 1 <= 1 < 32) by lia.
  assert (H4 : 0 <= COLOR_RED < NUM_COLORS) by (unfold COLOR_RED, NUM_COLORS; lia).
  assert (H5 : 0 <= COLOR_BLACK < NUM_COLORS) by (unfold COLOR_BLACK, NUM_COLORS; lia).
  exact (color_pair_style 1 COLOR_RED COLOR_BLACK session0 H1 H2 H3 H4 H5).
Defined.

(** ** initscr *)

Lemma bindP_returned {A B : Type} (m : P A) (k : A -> P B) (p p' : PROCESS) (a : A) :
  m p = returned a p' -> bindP m k p = k a p'.
Proof. unfold bindP. now intros ->. Qed.

(** *** The parts of the process that [initscr] works on

    [SHAPE] lists what changes while [initscr] runs: the window being set
    up, the four globals it assigns, [LINES] and [COLS], the two buffers it
    creates with their viewports and text attributes, the buffer on display,
    the input mode and the two supplies.  [has_shape] reads them off a
    process, next to the parts that stay as they are. *)
Record SHAPE : Type := mkSHAPE {
  sh_win : WINDOW;
  sh_stdscr : WINDOW_PTR;
  sh_hstdout : HANDLE;
  sh_hstdin : HANDLE;
  sh_cursize : Z;
  sh_LINES : Z;
  sh_COLS : Z;
  sh_b0 : option SCREEN_BUFFER;
  sh_b1 : option SCREEN_BUFFER;
  sh_view0 : SMALL_RECT;
  sh_view1 : SMALL_RECT;
  sh_attr0 : Z;
  sh_attr1 : Z;
  sh_active : HANDLE;
  sh_mode : option Z;
  sh_handles : list HANDLE;
  sh_blocks : list WINDOW_PTR
}.

Definition sh_set_win (v : WINDOW) (s : SHAPE) : SHAPE :=
  mkSHAPE v (sh_stdscr s) (sh_hstdout s) (sh_hstdin s) (sh_cursize s) (sh_LINES s)
    (sh_COLS s) (sh_b0 s) (sh_b1 s) (sh_view0 s) (sh_view1 s) (sh_attr0 s) (sh_attr1 s)
    (sh_active s) (sh_mode s) (sh_handles s) (sh_blocks s).
Definition sh_set_stdscr (v : WINDOW_PTR) (s : SHAPE) : SHAPE :=
  mkSHAPE (sh_win s) v (sh_hstdout s) (sh_hstdin s) (sh_cursize s) (sh_LINES s)
    (sh_COLS s) (sh_b0 s) (sh_b1 s) (sh_view0 s) (sh_view1 s) (sh_attr0 s) (sh_attr1 s)
    (sh_active s) (sh_mode s) (sh_handles s) (sh_blocks s).
Definition sh_set_hstdout (v : HANDLE) (s : SHAPE) : SHAPE :=
  mkSHAPE (sh_win s) (sh_stdscr s) v (sh_hstdin s) (sh_cursize s) (sh_LINES s)
    (sh_COLS s) (sh_b0 s) (sh_b1 s) (sh_view0 s) (sh_view1 s) (sh_attr0 s) (sh_attr1 s)
    (sh_active s) (sh_mode s) (sh_handles s) (sh_blocks s).
Definition sh_set_hstdin (v : HANDLE) (s : SHAPE) : SHAPE :=
  mkSHAPE (sh_win s) (sh_stdscr s) (sh_hstdout s) v (sh_cursize s) (sh_LINES s)
    (sh_COLS s) (sh_b0 s) (sh_b1 s) (sh_view0 s) (sh_view1 s) (sh_attr0 s) (sh_attr1 s)
    (sh_active s) (sh_mode s) (sh_handles s) (sh_blocks s).
Definition sh_set_cursize (v : Z) (s : SHAPE) : SHAPE :=
  mkSHAPE (sh_win s) (sh_stdscr s) (sh_hstdout s) (sh_hstdin s) v (sh_LINES s)
    (sh_COLS s) (sh_b0 s) (sh_b1 s) (sh_view0 s) (sh_view1 s) (sh_attr0 s) (sh_attr1 s)
    (sh_active s) (sh_mode s) (sh_handles s) (sh_blocks s).
Definition sh_set_LINES (v : Z) (s : SHAPE) : SHAPE :=
  mkSHAPE (sh_win s) (sh_stdscr s) (sh_hstdout s) (sh_hstdin s) (sh_cursize s) v
    (sh_COLS s) (sh_b0 s) (sh_b1 s) (sh_view0 s) (sh_view1 s) (sh_attr0 s) (sh_attr1 s)
    (sh_active s) (sh_mode s) (sh_handles s) (sh_blocks s).
Definition sh_set_COLS (v : Z) (s : SHAPE) : SHAPE :=
  mkSHAPE (sh_win s) (sh_stdscr s) (sh_hstdout s) (sh_hstdin s) (sh_cursize s) (sh_LINES s)
    v (sh_b0 s) (sh_b1 s) (sh_view0 s) (sh_view1 s) (sh_attr0 s) (sh_attr1 s)
    (sh_active s) (sh_mode s) (sh_handles s) (sh_blocks s).
Definition sh_set_b0 (v : option SCREEN_BUFFER) (s : SHAPE) : SHAPE :=
  mkSHAPE (sh_win s) (sh_stdscr s) (sh_hstdout s) (sh_hstdin s) (sh_cursize s) (sh_LINES s)
    (sh_COLS s) v (sh_b1 s) (sh_view0 s) (sh_view1 s) (sh_attr0 s) (sh_attr1 s)
    (sh_active s) (sh_mode s) (sh_handles s) (sh_blocks s).
Definition sh_set_b1 (v : option SCREEN_BUFFER) (s : SHAPE) : SHAPE :=
  mkSHAPE (sh_win s) (sh_stdscr s) (sh_hstdout s) (sh_hstdin s) (sh_cursize s) (sh_LINES s)
    (sh_COLS s) (sh_b0 s) v (sh_view0 s) (sh_view1 s) (sh_attr0 s) (sh_attr1 s)
    (sh_active s) (sh_mode s) (sh_handles s) (sh_blocks s).
Definition sh_set_new0 (b : SCREEN_BUFFER) (v : SMALL_RECT) (a : Z) (hs : list HANDLE)
    (s : SHAPE) : SHAPE :=
  mkSHAPE (sh_win s) (sh_stdscr s) (sh_hstdout s) (sh_hstdin s) (sh_cursize s) (sh_LINES s)
    (sh_COLS s) (Some b) (sh_b1 s) v (sh_view1 s) a (sh_attr1 s)
    (sh_active s) (sh_mode s) hs (sh_blocks s).
Definition sh_set_new1 (b : SCREEN_BUFFER) (v : SMALL_RECT) (a : Z) (hs : list HANDLE)
    (s : SHAPE) : SHAPE :=
  mkSHAPE (sh_win s) (sh_stdscr s) (sh_hstdout s) (sh_hstdin s) (sh_cursize s) (sh_LINES s)
    (sh_COLS s) (sh_b0 s) (Some b) (sh_view0 s) v (sh_attr0 s) a
    (sh_active s) (sh_mode s) hs (sh_blocks s).
Definition sh_set_active (v : HANDLE) (s : SHAPE) : SHAPE :=
  mkSHAPE (sh_win s) (sh_stdscr s) (sh_hstdout s) (sh_hstdin s) (sh_cursize s) (sh_LINES s)
    (sh_COLS s) (sh_b0 s) (sh_b1 s) (sh_view0 s) (sh_view1 s) (sh_attr0 s) (sh_attr1 s)
    v (sh_mode s) (sh_handles s) (sh_blocks s).
Definition sh_set_mode (v : option Z) (s : SHAPE) : SHAPE :=
  mkSHAPE (sh_win s) (sh_stdscr s) (sh_hstdout s) (sh_hstdin s) (sh_cursize s) (sh_LINES s)
    (sh_COLS s) (sh_b0 s) (sh_b1 s) (sh_view0 s) (sh_view1 s) (sh_attr0 s) (sh_attr1 s)
    (sh_active s) v (sh_handles s) (sh_blocks s).
Definition sh_set_blocks (v : list WINDOW_PTR) (s : SHAPE) : SHAPE :=
  mkSHAPE (sh_win s) (sh_stdscr s) (sh_hstdout s) (sh_hstdin s) (sh_cursize s) (sh_LINES s)
    (sh_COLS s) (sh_b0 s) (sh_b1 s) (sh_view0 s) (sh_view1 s) (sh_attr0 s) (sh_attr1 s)
    (sh_active s) (sh_mode s) (sh_handles s) v.

Section Initscr.

Variables (scr : WINDOW_PTR) (hout hin h0 h1 : HANDLE).
Variables (bout : SCREEN_BUFFER) (vout : SMALL_RECT) (aout : Z)
          (cout : CursorInfo.CONSOLE_CURSOR_INFO) (fl : Z).

Hypothesis h0_h1 : h0 <> h1.
Hypothesis hout_h0 : hout <> h0.
Hypothesis hout_h1 : hout <> h1.

Record has_shape (s : SHAPE) (p : PROCESS) : Prop := {
  hs_win : heap (globals p) scr = sh_win s;
  hs_stdscr : stdscr (globals p) = sh_stdscr s;
  hs_hstdout : hstdout (globals p) = sh_hstdout s;
  hs_hstdin : hstdin (globals p) = sh_hstdin s;
  hs_cursize : cursize (globals p) = sh_cursize s;
  hs_LINES : LINES p = sh_LINES s;
  hs_COLS : COLS p = sh_COLS s;
  hs_b0 : screens (console (globals p)) h0 = sh_b0 s;
  hs_b1 : screens (console (globals p)) h1 = sh_b1 s;
  hs_view0 : viewport p h0 = sh_view0 s;
  hs_view1 : viewport p h1 = sh_view1 s;
  hs_attr0 : text_attributes p h0 = sh_attr0 s;
  hs_attr1 : text_attributes p h1 = sh_attr1 s;
  hs_active : active (console (globals p)) = sh_active s;
  hs_mode : input_mode (console (globals p)) hin = sh_mode s;
  hs_handles : new_handles p = sh_handles s;
  hs_blocks : new_blocks p = sh_blocks s;
  (* what stays *)
  hs_out : screens (console (globals p)) hout = Some bout;
  hs_vout : viewport p hout = vout;
  hs_aout : text_attributes p hout = aout;
  hs_cout : cursor_info p hout = cout;
  hs_std_output : std_output p = hout;
  hs_std_input : std_input p = hin;
  hs_flags : flags (globals p) = fl
}.

Ltac eqb_facts :=
  rewrite ?Z.eqb_refl;
  rewrite ?(proj2 (Z.eqb_neq h0 h1) h0_h1);
  rewrite ?(proj2 (Z.eqb_neq h1 h0) (not_eq_sym h0_h1));
  rewrite ?(proj2 (Z.eqb_neq hout h0) hout_h0);
  rewrite ?(proj2 (Z.eqb_neq hout h1) hout_h1);
  rewrite ?(proj2 (Z.eqb_neq h0 hout) (not_eq_sym hout_h0));
  rewrite ?(proj2 (Z.eqb_neq h1 hout) (not_eq_sym hout_h1)).

Ltac shape_fields :=
  cbn [globals LINES COLS std_output std_input viewport text_attributes cursor_info
       new_handles new_blocks freed
       set_globals set_LINES set_COLS set_viewport set_text_attributes set_cursor_info
       set_new_handles set_new_blocks set_freed set_process_console
       heap stdscr hstdout hstdin cursize flags COLORS COLOR_PAIRS colors color_pairs
       console user_shorts
       set_heap set_flags set_console set_stdscr set_hstdout set_hstdin set_cursize
       screens active input_mode events set_screen set_active set_input_mode
       sh_win sh_stdscr sh_hstdout sh_hstdin sh_cursize sh_LINES sh_COLS sh_b0 sh_b1
       sh_view0 sh_view1 sh_attr0 sh_attr1 sh_active sh_mode sh_handles sh_blocks
       sh_set_win sh_set_stdscr sh_set_hstdout sh_set_hstdin sh_set_cursize sh_set_LINES
       sh_set_COLS sh_set_b0 sh_set_b1 sh_set_new0 sh_set_new1 sh_set_active sh_set_mode
       sh_set_blocks fst snd];
  eqb_facts.

Ltac shape_solve H :=
  destruct H; constructor; shape_fields; try assumption; try reflexivity.

(** The steps. *)

Lemma step_malloc (s : SHAPE) (p : PROCESS) (a : WINDOW_PTR) (rest : list WINDOW_PTR) :
  has_shape s p -> sh_blocks s = a :: rest ->
  exists p', malloc p = returned a p' /\ has_shape (sh_set_blocks rest s) p'.
Proof.
  intros H Hb. unfold malloc. rewrite (hs_blocks _ _ H), Hb.
  eexists. split; [reflexivity |]. shape_solve H.
Qed.

Lemma step_modify (u : STATE -> STATE) (s s' : SHAPE) (p : PROCESS) :
  has_shape s p ->
  (forall q, has_shape s q -> has_shape s' (set_globals (u (globals q)) q)) ->
  exists p', lift (modify u) p = returned tt p' /\ has_shape s' p'.
Proof.
  intros H Hu. eexists. split; [reflexivity |]. now apply Hu.
Qed.

Lemma step_update (u : WINDOW -> WINDOW) (s : SHAPE) (p : PROCESS) :
  has_shape s p ->
  exists p', lift (update scr u) p = returned tt p' /\
             has_shape (sh_set_win (u (sh_win s)) s) p'.
Proof.
  intros H. eexists. split; [reflexivity |].
  unfold update, modify. cbn [snd]. destruct H. constructor; shape_fields;
    try assumption; try reflexivity.
  now rewrite hs_win0.
Qed.

Lemma step_deref (s : SHAPE) (p : PROCESS) :
  has_shape s p -> lift (deref scr) p = returned (sh_win s) p.
Proof.
  intros H. unfold lift, deref, gets. rewrite (hs_win _ _ H).
  now destruct p.
Qed.

Lemma step_set_stdscr (v : WINDOW_PTR) (s : SHAPE) (p : PROCESS) :
  has_shape s p ->
  exists p', lift (modify (set_stdscr v)) p = returned tt p' /\
             has_shape (sh_set_stdscr v s) p'.
Proof. intros H. eexists. split; [reflexivity |]. shape_solve H. Qed.

Lemma step_set_hstdout (v : HANDLE) (s : SHAPE) (p : PROCESS) :
  has_shape s p ->
  exists p', lift (modify (set_hstdout v)) p = returned tt p' /\
             has_shape (sh_set_hstdout v s) p'.
Proof. intros H. eexists. split; [reflexivity |]. shape_solve H. Qed.

Lemma step_set_hstdin (v : HANDLE) (s : SHAPE) (p : PROCESS) :
  has_shape s p ->
  exists p', lift (modify (set_hstdin v)) p = returned tt p' /\
             has_shape (sh_set_hstdin v s) p'.
Proof. intros H. eexists. split; [reflexivity |]. shape_solve H. Qed.

Lemma step_set_cursize (v : Z) (s : SHAPE) (p : PROCESS) :
  has_shape s p ->
  exists p', lift (modify (set_cursize v)) p = returned tt p' /\
             has_shape (sh_set_cursize v s) p'.
Proof. intros H. eexists. split; [reflexivity |]. shape_solve H. Qed.

Lemma step_set_LINES (v : Z) (s : SHAPE) (p : PROCESS) :
  has_shape s p ->
  exists p', modifyP (set_LINES v) p = returned tt p' /\ has_shape (sh_set_LINES v s) p'.
Proof. intros H. eexists. split; [reflexivity |]. shape_solve H. Qed.

Lemma step_set_COLS (v : Z) (s : SHAPE) (p : PROCESS) :
  has_shape s p ->
  exists p', modifyP (set_COLS v) p = returned tt p' /\ has_shape (sh_set_COLS v s) p'.
Proof. intros H. eexists. split; [reflexivity |]. shape_solve H. Qed.

Lemma step_GetStdHandle_output (s : SHAPE) (p : PROCESS) :
  has_shape s p -> GetStdHandle STD_OUTPUT_HANDLE p = returned hout p.
Proof.
  intros H. unfold GetStdHandle, getsP. rewrite Z.eqb_refl. now rewrite (hs_std_output _ _ H).
Qed.

Lemma step_GetStdHandle_input (s : SHAPE) (p : PROCESS) :
  has_shape s p -> GetStdHandle STD_INPUT_HANDLE p = returned hin p.
Proof.
  intros H. unfold GetStdHandle, getsP.
  change (STD_INPUT_HANDLE =? STD_OUTPUT_HANDLE) with false. rewrite Z.eqb_refl.
  now rewrite (hs_std_input _ _ H).
Qed.

Lemma step_GetConsoleScreenBufferInfo_output (s : SHAPE) (p : PROCESS) :
  has_shape s p ->
  GetConsoleScreenBufferInfo hout p = returned (Some (BufferInfo.mk (dwSize bout) vout)) p.
Proof.
  intros H. unfold GetConsoleScreenBufferInfo, getsP.
  now rewrite (hs_out _ _ H), (hs_vout _ _ H).
Qed.

Lemma step_GetConsoleCursorInfo_output (s : SHAPE) (p : PROCESS) :
  has_shape s p -> GetConsoleCursorInfo hout p = returned (Some cout) p.
Proof.
  intros H. unfold GetConsoleCursorInfo, getsP.
  now rewrite (hs_out _ _ H), (hs_cout _ _ H).
Qed.

(** The buffer that [CreateConsoleScreenBuffer] makes while the standard
    output is on display, and its viewport. *)
Definition created : SCREEN_BUFFER :=
  {| dwSize := {| X := Right vout - Left vout + 1; Y := Bottom vout - Top vout + 1 |};
     dwCursorPosition := {| X := 0; Y := 0 |};
     cells := fun _ _ => {| Char := 32; Attributes := aout |} |}.

Definition created_view : SMALL_RECT :=
  {| Left := 0; Top := 0;
     Right := Right vout - Left vout + 1 - 1; Bottom := Bottom vout - Top vout + 1 - 1 |}.

Lemma step_Create0 (s : SHAPE) (p : PROCESS) (rest : list HANDLE) :
  has_shape s p -> sh_handles s = h0 :: rest -> sh_active s = hout ->
  exists p', CreateConsoleScreenBuffer p = returned h0 p' /\
             has_shape (sh_set_new0 created created_view aout rest s) p'.
Proof.
  intros H Hh Ha. unfold CreateConsoleScreenBuffer.
  rewrite (hs_handles _ _ H), Hh. cbv zeta.
  rewrite (hs_active _ _ H), Ha, (hs_vout _ _ H), (hs_aout _ _ H).
  eexists. split; [reflexivity |].
  destruct H. constructor; unfold set_process_console; shape_fields;
    try assumption; try reflexivity.
Qed.

Lemma step_Create1 (s : SHAPE) (p : PROCESS) (rest : list HANDLE) :
  has_shape s p -> sh_handles s = h1 :: rest -> sh_active s = hout ->
  exists p', CreateConsoleScreenBuffer p = returned h1 p' /\
             has_shape (sh_set_new1 created created_view aout rest s) p'.
Proof.
  intros H Hh Ha. unfold CreateConsoleScreenBuffer.
  rewrite (hs_handles _ _ H), Hh. cbv zeta.
  rewrite (hs_active _ _ H), Ha, (hs_vout _ _ H), (hs_aout _ _ H).
  eexists. split; [reflexivity |].
  destruct H. constructor; unfold set_process_console; shape_fields;
    try assumption; try reflexivity.
Qed.

(** The buffer [b] after [SetConsoleScreenBufferSize] to [sz], new cells
    taking the attributes [attr]. *)
Definition resized (sz : COORD) (attr : Z) (b : SCREEN_BUFFER) : SCREEN_BUFFER :=
  {| dwSize := sz;
     dwCursorPosition := dwCursorPosition b;
     cells := fun y x =>
       if (y <? Y (dwSize b)) && (x <? X (dwSize b)) then cells b y x
       else {| Char := 32; Attributes := attr |} |}.

Definition resizable (shown : SMALL_RECT) (sz : COORD) : bool :=
  (Right shown - Left shown + 1 <=? X sz) && (Bottom shown - Top shown + 1 <=? Y sz) &&
  (0 <? X sz) && (0 <? Y sz).

Lemma step_Resize0 (sz : COORD) (b : SCREEN_BUFFER) (s : SHAPE) (p : PROCESS) :
  has_shape s p -> sh_b0 s = Some b -> resizable (sh_view0 s) sz = true ->
  exists p', SetConsoleScreenBufferSize h0 sz p = returned TRUE p' /\
             has_shape (sh_set_b0 (Some (resized sz (sh_attr0 s) b)) s) p'.
Proof.
  intros H Hb Hr. unfold SetConsoleScreenBufferSize. cbv zeta.
  rewrite (hs_b0 _ _ H), Hb, (hs_view0 _ _ H), (hs_attr0 _ _ H).
  unfold resizable in Hr. rewrite Hr.
  eexists. split; [reflexivity |].
  destruct H. constructor; unfold set_process_console; shape_fields;
    try assumption; try reflexivity.
Qed.

Lemma step_Resize1 (sz : COORD) (b : SCREEN_BUFFER) (s : SHAPE) (p : PROCESS) :
  has_shape s p -> sh_b1 s = Some b -> resizable (sh_view1 s) sz = true ->
  exists p', SetConsoleScreenBufferSize h1 sz p = returned TRUE p' /\
             has_shape (sh_set_b1 (Some (resized sz (sh_attr1 s) b)) s) p'.
Proof.
  intros H Hb Hr. unfold SetConsoleScreenBufferSize. cbv zeta.
  rewrite (hs_b1 _ _ H), Hb, (hs_view1 _ _ H), (hs_attr1 _ _ H).
  unfold resizable in Hr. rewrite Hr.
  eexists. split; [reflexivity |].
  destruct H. constructor; unfold set_process_console; shape_fields;
    try assumption; try reflexivity.
Qed.

(** The buffer [b] after [cls]. *)
Definition cleared (b : SCREEN_BUFFER) : SCREEN_BUFFER :=
  {| dwSize := dwSize b;
     dwCursorPosition := dwCursorPosition b;
     cells := fun y x =>
       let k := y * X (dwSize b) + x in
       if (0 <=? y) && (y <? Y (dwSize b)) && (0 <=? x) && (x <? X (dwSize b)) &&
          (0 * X (dwSize b) + 0 <=? k) &&
          (k <? 0 * X (dwSize b) + 0 + to_unsigned (to_int (Y (dwSize b) * X (dwSize b))))
       then {| Char := WC_BGND; Attributes := Attributes (cells b y x) |}
       else cells b y x |}.

Lemma step_cls0 (u : BufferInfo.CONSOLE_SCREEN_BUFFER_INFO) (b : SCREEN_BUFFER)
    (s : SHAPE) (p : PROCESS) :
  has_shape s p -> sh_b0 s = Some b -> 0 < X (dwSize b) -> 0 < Y (dwSize b) ->
  exists p', cls u h0 p = returned tt p' /\ has_shape (sh_set_b0 (Some (cleared b)) s) p'.
Proof.
  intros H Hb HX HY.
  unfold cls, bindP, GetConsoleScreenBufferInfo, getsP, FillConsoleOutputCharacter, retP.
  cbv zeta. rewrite (hs_b0 _ _ H), Hb. cbn [BufferInfo.dwSize X Y].
  rewrite (proj2 (Z.ltb_lt 0 (X (dwSize b))) HX), (proj2 (Z.ltb_lt 0 (Y (dwSize b))) HY).
  cbn [Z.leb Z.compare andb].
  eexists. split; [reflexivity |].
  destruct H. constructor; unfold set_process_console; shape_fields;
    try assumption; try reflexivity.
Qed.

Lemma step_cls1 (u : BufferInfo.CONSOLE_SCREEN_BUFFER_INFO) (b : SCREEN_BUFFER)
    (s : SHAPE) (p : PROCESS) :
  has_shape s p -> sh_b1 s = Some b -> 0 < X (dwSize b) -> 0 < Y (dwSize b) ->
  exists p', cls u h1 p = returned tt p' /\ has_shape (sh_set_b1 (Some (cleared b)) s) p'.
Proof.
  intros H Hb HX HY.
  unfold cls, bindP, GetConsoleScreenBufferInfo, getsP, FillConsoleOutputCharacter, retP.
  cbv zeta. rewrite (hs_b1 _ _ H), Hb. cbn [BufferInfo.dwSize X Y].
  rewrite (proj2 (Z.ltb_lt 0 (X (dwSize b))) HX), (proj2 (Z.ltb_lt 0 (Y (dwSize b))) HY).
  cbn [Z.leb Z.compare andb].
  eexists. split; [reflexivity |].
  destruct H. constructor; unfold set_process_console; shape_fields;
    try assumption; try reflexivity.
Qed.

Lemma step_SetConsoleMode (mode m : Z) (s : SHAPE) (p : PROCESS) :
  has_shape s p -> sh_mode s = Some m ->
  exists p', lift (call_SetConsoleMode hin mode) p = returned TRUE p' /\
             has_shape (sh_set_mode (Some mode) s) p'.
Proof.
  intros H Hm. unfold lift, call_SetConsoleMode, SetConsoleMode.
  rewrite (hs_mode _ _ H), Hm.
  eexists. split; [reflexivity |].
  destruct H. constructor; shape_fields; try assumption; try reflexivity.
Qed.

Lemma step_SetActive0 (b : SCREEN_BUFFER) (s : SHAPE) (p : PROCESS) :
  has_shape s p -> sh_b0 s = Some b ->
  exists p', lift (call_SetConsoleActiveScreenBuffer h0) p = returned TRUE p' /\
             has_shape (sh_set_active h0 s) p'.
Proof.
  intros H Hb. unfold lift, call_SetConsoleActiveScreenBuffer, SetConsoleActiveScreenBuffer.
  rewrite (hs_b0 _ _ H), Hb.
  eexists. split; [reflexivity |].
  destruct H. constructor; shape_fields; try assumption; try reflexivity.
Qed.

Lemma cleared_resized_created_cells (sz : COORD) (y x : Z) :
  cells (cleared (resized sz aout created)) y x = {| Char := 32; Attributes := aout |}.
Proof.
  unfold cleared, resized, created. cbn [cells dwSize X Y Attributes].
  cbv zeta.
  repeat match goal with
         | |- context [if ?c then _ else _] => destruct c
         end; reflexivity.
Qed.

Ltac norm_shape S :=
  change (lnot_c 0) with 1 in S;
  cbv beta iota delta
      [sh_win sh_stdscr sh_hstdout sh_hstdin sh_cursize sh_LINES sh_COLS sh_b0 sh_b1
       sh_view0 sh_view1 sh_attr0 sh_attr1 sh_active sh_mode sh_handles sh_blocks
       sh_set_win sh_set_stdscr sh_set_hstdout sh_set_hstdin sh_set_cursize sh_set_LINES
       sh_set_COLS sh_set_b0 sh_set_b1 sh_set_new0 sh_set_new1 sh_set_active sh_set_mode
       sh_set_blocks
       set_rect set_cur set_prim set_bbuf set_wflags set_attrs set_size set_hcon
       rect size cur hcon prim bbuf wflags attrs X Y
       assign_elt assign_nth Z.to_nat Pos.to_nat Pos.iter_op Nat.add] in S.

Ltac norm_goal :=
  cbv beta iota;
  cbn [sh_win rect size cur hcon prim bbuf wflags attrs X Y hcon_at nth
       Z.to_nat BufferInfo.srWindow BufferInfo.dwSize CursorInfo.dwSize];
  change (Pos.to_nat 1) with 1%nat;
  cbv beta iota.

Ltac run S L :=
  let p' := fresh "p" in
  let Hrun := fresh "Hrun" in
  let S' := fresh "S" in
  destruct L as (p' & Hrun & S');
  rewrite (bindP_returned _ _ _ _ _ Hrun); clear Hrun;
  norm_shape S'; clear S; rename S' into S; norm_goal.

Ltac look S L :=
  rewrite (bindP_returned _ _ _ _ _ L); norm_goal.

Lemma initscr_shape (u1 : BufferInfo.CONSOLE_SCREEN_BUFFER_INFO)
    (u2 : CursorInfo.CONSOLE_CURSOR_INFO) (s : SHAPE) (p : PROCESS)
    (restb : list WINDOW_PTR) (resth : list HANDLE) (x0 x1 : HANDLE) (m0 : Z) :
  has_shape s p ->
  sh_blocks s = scr :: restb -> scr <> NULL ->
  hcon (sh_win s) = [x0; x1] ->
  sh_handles s = h0 :: h1 :: resth ->
  h0 <> INVALID_HANDLE_VALUE -> h1 <> INVALID_HANDLE_VALUE ->
  hout <> INVALID_HANDLE_VALUE -> hin <> INVALID_HANDLE_VALUE ->
  sh_active s = hout -> sh_mode s = Some m0 ->
  0 < Right vout - Left vout + 1 <= 32767 ->
  0 < Bottom vout - Top vout + 1 <= 32767 ->
  exists p', initscr u1 u2 p = returned scr p' /\
    has_shape
      {| sh_win :=
           {| rect := vout;
              size := {| X := Right vout - Left vout + 1;
                         Y := Bottom vout - Top vout + 1 |};
              cur := {| X := 0; Y := 0 |};
              hcon := [h0; h1];
              prim := 0;
              bbuf := 1;
              wflags := wflags (sh_win s);
              attrs := 7 |};
         sh_stdscr := scr;
         sh_hstdout := hout;
         sh_hstdin := hin;
         sh_cursize := CursorInfo.dwSize cout;
         sh_LINES := Bottom vout - Top vout + 1;
         sh_COLS := Right vout - Left vout + 1;
         sh_b0 := Some (cleared (resized {| X := Right vout - Left vout + 1;
                                            Y := Bottom vout - Top vout + 1 |}
                                         aout created));
         sh_b1 := Some (cleared (resized {| X := Right vout - Left vout + 1;
                                            Y := Bottom vout - Top vout + 1 |}
                                         aout created));
         sh_view0 := created_view;
         sh_view1 := created_view;
         sh_attr0 := aout;
         sh_attr1 := aout;
         sh_active := h0;
         sh_mode := Some 0;
         sh_handles := resth;
         sh_blocks := restb |} p'.
Proof.
  intros S Hb Hnn Hhc Hh Hi0 Hi1 Hio Hii Ha Hm Hcols Hrows.
  destruct s as [w ? ? ? ? ? ? ? ? ? ? ? ? ? ? ? ?].
  destruct w as [wr wsz wc wh wp wb wf wa].
  cbn [sh_win sh_blocks sh_handles sh_active sh_mode hcon] in Hb, Hhc, Hh, Ha, Hm.
  subst.
  unfold initscr.
  run S (step_malloc _ _ _ _ S eq_refl).
  run S (step_set_stdscr scr _ _ S).
  rewrite (proj2 (Z.eqb_neq scr NULL) Hnn). norm_goal.
  run S (step_update (set_prim 0) _ _ S).
  run S (step_update (set_bbuf (lnot_c 0)) _ _ S).
  look S (step_GetStdHandle_output _ _ S).
  look S (step_GetConsoleScreenBufferInfo_output _ _ S).
  run S (step_update (set_rect vout) _ _ S).
  run S (step_update (fun w =>
    set_size {| X := X (size w);
                Y := to_short (Bottom (rect w) - Top (rect w) + 1) |} w) _ _ S).
  run S (step_update (fun w =>
    set_size {| X := to_short (Right (rect w) - Left (rect w) + 1);
                Y := Y (size w) |} w) _ _ S).
  rewrite !to_short_id in S by (unfold is_SHORT; lia).
  look S (step_deref _ _ S).
  run S (step_set_LINES (Bottom vout - Top vout + 1) _ _ S).
  run S (step_set_COLS (Right vout - Left vout + 1) _ _ S).
  run S (step_update (fun w => set_cur {| X := 0; Y := Y (cur w) |} w) _ _ S).
  run S (step_update (fun w => set_cur {| X := X (cur w); Y := 0 |} w) _ _ S).
  run S (step_Create0 _ _ _ S eq_refl eq_refl).
  run S (step_update (fun w => set_hcon (assign_elt (hcon w) (prim w) h0) w) _ _ S).
  look S (step_deref _ _ S).
  rewrite (proj2 (Z.eqb_neq h0 INVALID_HANDLE_VALUE) Hi0). norm_goal.
  run S (step_Create1 _ _ _ S eq_refl eq_refl).
  run S (step_update (fun w => set_hcon (assign_elt (hcon w) (bbuf w) h1) w) _ _ S).
  look S (step_deref _ _ S).
  rewrite (proj2 (Z.eqb_neq h1 INVALID_HANDLE_VALUE) Hi1). norm_goal.
  assert (Hsz : resizable created_view
            {| X := Right vout - Left vout + 1; Y := Bottom vout - Top vout + 1 |} = true).
  { unfold resizable, created_view. cbn [Left Top Right Bottom X Y].
    rewrite !andb_true_iff, !Z.leb_le, !Z.ltb_lt. lia. }
  run S (step_Resize0 _ _ _ _ S eq_refl Hsz).
  change (TRUE =? 0) with false. norm_goal.
  run S (step_Resize1 _ _ _ _ S eq_refl Hsz).
  change (TRUE =? 0) with false. norm_goal.
  assert (HcX : 0 < X (dwSize (resized
            {| X := Right vout - Left vout + 1; Y := Bottom vout - Top vout + 1 |}
            aout created))) by (cbn; lia).
  assert (HcY : 0 < Y (dwSize (resized
            {| X := Right vout - Left vout + 1; Y := Bottom vout - Top vout + 1 |}
            aout created))) by (cbn; lia).
  run S (step_cls0 u1 _ _ _ S eq_refl HcX HcY).
  run S (step_cls1 u1 _ _ _ S eq_refl HcX HcY).
  look S (step_GetStdHandle_output _ _ S).
  run S (step_set_hstdout hout _ _ S).
  rewrite (proj2 (Z.eqb_neq hout INVALID_HANDLE_VALUE) Hio). norm_goal.
  look S (step_GetConsoleCursorInfo_output _ _ S).
  run S (step_set_cursize (CursorInfo.dwSize cout) _ _ S).
  look S (step_GetStdHandle_input _ _ S).
  run S (step_set_hstdin hin _ _ S).
  rewrite (proj2 (Z.eqb_neq hin INVALID_HANDLE_VALUE) Hii). norm_goal.
  run S (step_update (set_attrs
    (to_WORD (Z.lor (Z.lor FOREGROUND_RED FOREGROUND_GREEN) FOREGROUND_BLUE))) _ _ S).
  run S (step_SetConsoleMode 0 _ _ _ S eq_refl).
  change (TRUE =? 0) with false. norm_goal.
  look S (step_deref _ _ S).
  run S (step_SetActive0 _ _ _ S eq_refl).
  change (TRUE =? 0) with false. norm_goal.
  exists p24. split; [reflexivity |]. exact S.
Qed.

End Initscr.

(** [initscr] on a process that can start: [malloc] has a block for the
    window, the console has two fresh handles for the new buffers, the
    standard output is an open screen buffer and on display, the standard
    input has an input mode, and the viewport has between 1 and 32767 rows
    and columns.  The call returns the new window, which is [stdscr]:
    - its rectangle is the viewport, its size the number of columns and rows
      of the viewport, also in [COLS] and [LINES]; the cursor is at the
      origin, the primary buffer has index 0 and the back buffer index 1,
      the attributes are grey on black; the member [flags] is what the block
      held;
    - [hstdout], [hstdin] and [cursize] hold the standard handles and the
      cursor size of the standard output;
    - the two new buffers are open, have the size of the window and are
      blank, in the text attributes of the standard output; the first one is
      on display; the buffer of the standard output is still open and as it
      was;
    - the input mode is 0, and the global [flags] are as they were;
    - the window is as [stdscr_ready] says; it is [fitted] when the viewport
      starts at the origin of its buffer. *)
Theorem initscr_sets_up_stdscr
    (u1 : BufferInfo.CONSOLE_SCREEN_BUFFER_INFO) (u2 : CursorInfo.CONSOLE_CURSOR_INFO)
    (p : PROCESS) (scr : WINDOW_PTR) (restb : list WINDOW_PTR)
    (h0 h1 : HANDLE) (resth : list HANDLE) (bout : SCREEN_BUFFER) (m0 : Z) :
  let hout := std_output p in
  let hin := std_input p in
  let v := viewport p hout in
  let cols := Right v - Left v + 1 in
  let rows := Bottom v - Top v + 1 in
  new_blocks p = scr :: restb -> scr <> NULL ->
  length (hcon (heap (globals p) scr)) = 2%nat ->
  new_handles p = h0 :: h1 :: resth ->
  h0 <> h1 -> h0 <> INVALID_HANDLE_VALUE -> h1 <> INVALID_HANDLE_VALUE ->
  hout <> h0 -> hout <> h1 ->
  hout <> INVALID_HANDLE_VALUE -> hin <> INVALID_HANDLE_VALUE ->
  screens (console (globals p)) hout = Some bout ->
  active (console (globals p)) = hout ->
  input_mode (console (globals p)) hin = Some m0 ->
  0 < cols <= 32767 -> 0 < rows <= 32767 -> 0 <= Left v -> 0 <= Top v ->
  exists p',
    initscr u1 u2 p = returned scr p' /\
    stdscr (globals p') = scr /\
    heap (globals p') scr =
      {| rect := v;
         size := {| X := cols; Y := rows |};
         cur := {| X := 0; Y := 0 |};
         hcon := [h0; h1];
         prim := 0;
         bbuf := 1;
         wflags := wflags (heap (globals p) scr);
         attrs := Z.lor (Z.lor FOREGROUND_RED FOREGROUND_GREEN) FOREGROUND_BLUE |} /\
    LINES p' = rows /\ COLS p' = cols /\
    hstdout (globals p') = hout /\ hstdin (globals p') = hin /\
    cursize (globals p') = CursorInfo.dwSize (cursor_info p hout) /\
    (forall h, h = h0 \/ h = h1 ->
       exists b, screens (console (globals p')) h = Some b /\
                 dwSize b = {| X := cols; Y := rows |} /\
                 forall y x, cells b y x =
                             {| Char := WC_BGND; Attributes := text_attributes p hout |}) /\
    active (console (globals p')) = h0 /\
    screens (console (globals p')) hout = Some bout /\
    input_mode (console (globals p')) hin = Some 0 /\
    flags (globals p') = flags (globals p) /\
    stdscr_ready (globals p') /\
    (Left v = 0 -> Top v = 0 -> fitted (globals p')).
Proof.
  intros hout hin v cols rows Hb Hnn Hlen Hh H01 Hi0 Hi1 Ho0 Ho1 Hio Hii Hout Hact Hm
         Hcols Hrows HL HT.
  destruct (hcon (heap (globals p) scr)) as [| x0 [| x1 [| ? ?]]] eqn:Ehc;
    try discriminate Hlen. clear Hlen.
  assert (S : has_shape scr hout hin h0 h1 bout v (text_attributes p hout)
                (cursor_info p hout) (flags (globals p))
                (mkSHAPE (heap (globals p) scr) (stdscr (globals p)) (hstdout (globals p))
                   (hstdin (globals p)) (cursize (globals p)) (LINES p) (COLS p)
                   (screens (console (globals p)) h0) (screens (console (globals p)) h1)
                   (viewport p h0) (viewport p h1) (text_attributes p h0)
                   (text_attributes p h1) hout (Some m0) (h0 :: h1 :: resth)
                   (scr :: restb)) p).
  { constructor; cbn; try reflexivity; assumption. }
  destruct (initscr_shape scr hout hin h0 h1 bout v (text_attributes p hout)
              (cursor_info p hout) (flags (globals p)) H01 Ho0 Ho1 u1 u2 _ p restb resth
              x0 x1 m0 S eq_refl Hnn Ehc eq_refl Hi0 Hi1 Hio Hii eq_refl eq_refl
              Hcols Hrows) as (p' & Hrun & F).
  clear S. exists p'. destruct F. cbn in *.
  assert (Hb0 : forall h, h = h0 \/ h = h1 ->
       exists b, screens (console (globals p')) h = Some b /\
                 dwSize b = {| X := cols; Y := rows |} /\
                 forall y x, cells b y x =
                             {| Char := WC_BGND; Attributes := text_attributes p hout |}).
  { intros h [-> | ->]; eexists; (split; [eassumption |]);
      (split; [reflexivity |]); intros y x; apply cleared_resized_created_cells. }
  repeat match goal with |- _ /\ _ => split end; try assumption; try reflexivity.
  - unfold stdscr_ready. rewrite hs_stdscr0, hs_win0. unfold hcon_at. cbn.
    change (Pos.to_nat 1) with 1%nat. cbv iota.
    rewrite hs_b2, hs_b3. repeat split; try assumption; try discriminate.
    left. now split.
  - intros EL ET. unfold fitted. rewrite hs_stdscr0, hs_win0. unfold hcon_at. cbn.
    change (Pos.to_nat 1) with 1%nat. cbv iota.
    rewrite hs_b2, hs_b3. cbn. fold v. fold cols. fold rows.
    repeat split; try assumption; subst cols rows; lia.
Qed.

(** ** endwin *)

(** [endwin] returns [OK], whatever the console calls say.  Afterwards both
    buffers of the default window are closed and every other buffer is as it
    was; the buffer of [hstdout] is on display if it was open; the block of
    the default window has been freed, while [stdscr] still holds its
    address; the input mode, which [initscr] has set to 0, is not touched. *)
Theorem endwin_closes_buffers (p : PROCESS) :
  let st := globals p in
  let w := heap st (stdscr st) in
  exists p',
    endwin p = returned OK p' /\
    screens (console (globals p')) (hcon_at w (prim w)) = None /\
    screens (console (globals p')) (hcon_at w (bbuf w)) = None /\
    (forall h, h <> hcon_at w (prim w) -> h <> hcon_at w (bbuf w) ->
       screens (console (globals p')) h = screens (console st) h) /\
    active (console (globals p')) =
      match screens (console st) (hstdout st) with
      | Some _ => hstdout st
      | None => active (console st)
      end /\
    input_mode (console (globals p')) = input_mode (console st) /\
    stdscr (globals p') = stdscr st /\
    heap (globals p') = heap st /\
    freed p' = stdscr st :: freed p.
Proof.
  destruct p as [st L C so si vp ta ci nh nb fr].
  destruct st as [hp sc ho hi cs fl nc ncp cols cps con us].
  destruct con as [scrs act im evs].
  cbn [globals heap stdscr console screens hstdout active input_mode freed].
  cbv zeta.
  set (hprim := hcon_at (hp sc) (prim (hp sc))).
  set (hback := hcon_at (hp sc) (bbuf (hp sc))).
  unfold endwin, bindP, lift, deref, gets, call_SetConsoleActiveScreenBuffer,
    SetConsoleActiveScreenBuffer, CloseHandle, free, modifyP, retP, set_process_console.
  cbn [globals heap stdscr console screens hstdout active input_mode freed
       set_globals set_console set_active set_freed fst snd].
  fold hprim. fold hback.
  destruct (scrs ho) eqn:Eo;
    cbn [globals heap stdscr console screens hstdout active input_mode freed
         set_globals set_console set_active set_freed fst snd];
    fold hprim; fold hback;
    destruct (scrs hprim) eqn:Ep;
    cbn [globals heap stdscr console screens hstdout active input_mode freed
         set_globals set_console set_active set_freed fst snd];
    fold hprim; fold hback;
    destruct (Z.eqb_spec hback hprim) as [E | NE];
    rewrite ?E, ?Ep;
    destruct (scrs hback) eqn:Eb;
    cbn [globals heap stdscr console screens hstdout active input_mode freed
         set_globals set_console set_active set_freed fst snd];
    eexists; (split; [reflexivity |]);
    cbn [globals heap stdscr console screens hstdout active input_mode freed
         set_globals set_console set_active set_freed fst snd];
    rewrite ?Z.eqb_refl;
    repeat match goal with |- _ /\ _ => split end;
    try reflexivity; try assumption; try congruence;
    try (destruct (Z.eqb_spec hprim hback); congruence);
    try (destruct (hback =? hprim); congruence);
    try (intros h H1 H2;
         rewrite ?(proj2 (Z.eqb_neq _ _) H1), ?(proj2 (Z.eqb_neq _ _) H2); reflexivity).
Qed.

(** ** curs_set *)

(** The cursor shape that [curs_set] asks for. *)
Definition curs_set_shape (visibility cs : Z) (curold : CursorInfo.CONSOLE_CURSOR_INFO)
    : CursorInfo.CONSOLE_CURSOR_INFO :=
  if visibility =? 0 then CursorInfo.mk (CursorInfo.dwSize curold) FALSE
  else if visibility =? 1 then CursorInfo.mk cs TRUE
  else CursorInfo.mk 100 TRUE.

(** The level that [curs_set] reports for a cursor shape. *)
Definition curs_set_level (cs : Z) (curold : CursorInfo.CONSOLE_CURSOR_INFO) : Z :=
  if CursorInfo.bVisible curold =? FALSE then 0
  else if CursorInfo.dwSize curold =? cs then 1
  else 2.

Ltac simpl_process :=
  cbv beta iota delta
      [globals LINES COLS std_output std_input viewport text_attributes cursor_info
       new_handles new_blocks freed set_globals set_cursor_info].

Lemma curs_set_run (visibility : Z) (p : PROCESS) (b : SCREEN_BUFFER) :
  let st := globals p in
  let w := heap st (stdscr st) in
  let hprim := hcon_at w (prim w) in
  let hback := hcon_at w (bbuf w) in
  screens (console st) hprim = Some b ->
  1 <= cursize st <= 100 ->
  1 <= CursorInfo.dwSize (cursor_info p hprim) <= 100 ->
  0 <= visibility <= 2 ->
  exists p',
    curs_set visibility p = returned (curs_set_level (cursize st) (cursor_info p hprim)) p' /\
    globals p' = globals p /\
    (screens (console st) hback <> None ->
     cursor_info p' hback = curs_set_shape visibility (cursize st) (cursor_info p hprim)) /\
    cursor_info p' hprim = curs_set_shape visibility (cursize st) (cursor_info p hprim).
Proof.
  destruct p as [st L C so si vp ta ci nh nb fr].
  cbn [globals cursor_info]. cbv zeta.
  set (hprim := hcon_at (heap st (stdscr st)) (prim (heap st (stdscr st)))).
  set (hback := hcon_at (heap st (stdscr st)) (bbuf (heap st (stdscr st)))).
  intros Hb Hcs Hold Hv.
  assert (Hshape : 1 <= CursorInfo.dwSize (curs_set_shape visibility (cursize st) (ci hprim))
                   <= 100).
  { unfold curs_set_shape.
    destruct (visibility =? 0); [exact Hold |].
    destruct (visibility =? 1); [exact Hcs |]. cbn. lia. }
  assert (Hok : (1 <=? CursorInfo.dwSize
                          (curs_set_shape visibility (cursize st) (ci hprim))) &&
                (CursorInfo.dwSize (curs_set_shape visibility (cursize st) (ci hprim))
                   <=? 100) = true).
  { apply andb_true_iff. split; apply Z.leb_le; lia. }
  assert (Hsel :
    (if visibility =? 0
     then retP (Some (CursorInfo.mk (CursorInfo.dwSize (ci hprim)) FALSE))
     else if visibility =? 1
          then cs <~ lift (gets cursize) ;; retP (Some (CursorInfo.mk cs TRUE))
          else if visibility =? 2 then retP (Some (CursorInfo.mk 100 TRUE))
               else retP None)
      (mkPROCESS st L C so si vp ta ci nh nb fr) =
    returned (Some (curs_set_shape visibility (cursize st) (ci hprim)))
             (mkPROCESS st L C so si vp ta ci nh nb fr)).
  { unfold curs_set_shape.
    assert (Hc : visibility = 0 \/ visibility = 1 \/ visibility = 2) by lia.
    destruct Hc as [-> | [-> | ->]]; reflexivity. }
  unfold curs_set.
  unfold bindP at 1. unfold lift at 1, gets at 1. simpl_process.
  unfold bindP at 1. unfold lift at 1, deref at 1, gets at 1. simpl_process.
  fold hprim. fold hback.
  unfold bindP at 1. unfold GetConsoleCursorInfo at 1, getsP at 1.
  simpl_process. rewrite Hb.
  rewrite (bindP_returned _ _ _ _ _ Hsel). cbv beta iota.
  unfold bindP at 1. unfold SetConsoleCursorInfo at 1. simpl_process.
  rewrite Hb, Hok.
  unfold bindP at 1. unfold SetConsoleCursorInfo at 1.
  simpl_process. rewrite Hok.
  unfold curs_set_level.
  destruct (screens (console st) hback) eqn:Eb.
  - change (Z.lor TRUE TRUE =? 0) with false. cbv iota.
    destruct (CursorInfo.bVisible (ci hprim) =? FALSE).
    + eexists. split; [reflexivity |]. simpl_process.
      rewrite !Z.eqb_refl. split; [reflexivity |]. split; [reflexivity |].
      now destruct (hprim =? hback).
    + unfold bindP, lift, gets. simpl_process.
      destruct (CursorInfo.dwSize (ci hprim) =? cursize st);
        (eexists; split; [reflexivity |]); simpl_process;
        rewrite !Z.eqb_refl; (split; [reflexivity |]); (split; [reflexivity |]);
        now destruct (hprim =? hback).
  - change (Z.lor TRUE FALSE =? 0) with false. cbv iota.
    destruct (CursorInfo.bVisible (ci hprim) =? FALSE).
    + eexists. split; [reflexivity |]. simpl_process.
      rewrite !Z.eqb_refl. split; [reflexivity |]. split; [congruence | reflexivity].
    + unfold bindP, lift, gets. simpl_process.
      destruct (CursorInfo.dwSize (ci hprim) =? cursize st);
        (eexists; split; [reflexivity |]); simpl_process;
        rewrite !Z.eqb_refl; (split; [reflexivity |]); (split; [congruence | reflexivity]).
Qed.

(** [curs_set] with a visibility that is not 0, 1 or 2 returns [ERR] and
    changes nothing, whatever the state of the console. *)
Theorem curs_set_bad_visibility_ERR (visibility : Z) (p : PROCESS) :
  visibility < 0 \/ 2 < visibility ->
  curs_set visibility p = returned ERR p.
Proof.
  intros Hv. destruct p as [st L C so si vp ta ci nh nb fr].
  unfold curs_set, bindP, lift, deref, gets, GetConsoleCursorInfo, getsP, retP.
  cbn [globals set_globals cursor_info].
  destruct (screens (console st) _); [| reflexivity].
  destruct (Z.eqb_spec visibility 0); [lia |].
  destruct (Z.eqb_spec visibility 1); [lia |].
  destruct (Z.eqb_spec visibility 2); [lia |].
  reflexivity.
Qed.

(** Two calls of [curs_set] in a row, with visibilities from 0 to 2, while
    the primary buffer of the default window is open and the cursor sizes
    are from 1 to 100.  The first call gives both buffers of the window the
    same cursor shape; the second call returns the visibility that the first
    one has set, with one exception: when the standard cursor size is 100,
    the high visibility 2 is reported as 1.  The library's own state is not
    changed. *)
Theorem curs_set_returns_previous_level (v1 v2 : Z) (p : PROCESS) (b : SCREEN_BUFFER) :
  let st := globals p in
  let w := heap st (stdscr st) in
  let hprim := hcon_at w (prim w) in
  let hback := hcon_at w (bbuf w) in
  screens (console st) hprim = Some b ->
  1 <= cursize st <= 100 ->
  1 <= CursorInfo.dwSize (cursor_info p hprim) <= 100 ->
  0 <= v1 <= 2 -> 0 <= v2 <= 2 ->
  exists r p1 p2,
    curs_set v1 p = returned r p1 /\
    (screens (console st) hback <> None ->
     cursor_info p1 hback = cursor_info p1 hprim) /\
    curs_set v2 p1 =
      returned (if (v1 =? 2) && (cursize st =? 100) then 1 else v1) p2 /\
    globals p2 = st.
Proof.
  intros st w hprim hback Hb Hcs Hold Hv1 Hv2.
  destruct (curs_set_run v1 p b Hb Hcs Hold Hv1) as (p1 & Hrun1 & Hg1 & Hback1 & Hprim1).
  fold st in Hrun1, Hg1, Hback1, Hprim1. fold w in Hback1, Hprim1.
  fold hprim in Hrun1, Hback1, Hprim1. fold hback in Hback1.
  assert (Hshape : 1 <= CursorInfo.dwSize (cursor_info p1 hprim) <= 100).
  { rewrite Hprim1. unfold curs_set_shape.
    destruct (v1 =? 0); [exact Hold |].
    destruct (v1 =? 1); [exact Hcs |]. cbn. lia. }
  assert (Hb' : screens (console (globals p1))
                  (hcon_at (heap (globals p1) (stdscr (globals p1)))
                           (prim (heap (globals p1) (stdscr (globals p1))))) = Some b)
    by (rewrite Hg1; exact Hb).
  assert (Hcs' : 1 <= cursize (globals p1) <= 100) by (rewrite Hg1; exact Hcs).
  assert (Hshape' : 1 <= CursorInfo.dwSize
            (cursor_info p1 (hcon_at (heap (globals p1) (stdscr (globals p1)))
                               (prim (heap (globals p1) (stdscr (globals p1)))))) <= 100)
    by (rewrite Hg1; exact Hshape).
  destruct (curs_set_run v2 p1 b Hb' Hcs' Hshape' Hv2) as (p2 & Hrun2 & Hg2 & _ & _).
  rewrite Hg1 in Hrun2. fold st in Hrun2. fold w in Hrun2. fold hprim in Hrun2.
  exists (curs_set_level (cursize st) (cursor_info p hprim)), p1, p2.
  split; [exact Hrun1 |].
  split; [intros Ho; rewrite Hprim1; now apply Hback1 |].
  split; [| now rewrite Hg2, Hg1].
  rewrite Hrun2. f_equal.
  rewrite Hprim1. unfold curs_set_level, curs_set_shape.
  assert (Hc : v1 = 0 \/ v1 = 1 \/ v1 = 2) by lia.
  destruct Hc as [-> | [-> | ->]]; cbn [Z.eqb andb CursorInfo.bVisible CursorInfo.dwSize].
  - reflexivity.
  - change (TRUE =? FALSE) with false. cbv iota. now rewrite Z.eqb_refl.
  - change (TRUE =? FALSE) with false. cbv iota. rewrite (Z.eqb_sym 100).
    now destruct (cursize st =? 100).
Qed.

(** ** initscr: the fatal errors *)

Lemma lift_modify_eq (u : STATE -> STATE) (q : PROCESS) :
  lift (modify u) q = returned tt (set_globals (u (globals q)) q).
Proof. reflexivity. Qed.

Lemma lift_update_eq (a : WINDOW_PTR) (u : WINDOW -> WINDOW) (q : PROCESS) :
  lift (update a u) q = returned tt (set_globals (snd (update a u (globals q))) q).
Proof. reflexivity. Qed.

Lemma GetStdHandle_output_eq (q : PROCESS) :
  GetStdHandle STD_OUTPUT_HANDLE q = returned (std_output q) q.
Proof. unfold GetStdHandle, getsP. now rewrite Z.eqb_refl. Qed.

Lemma GetConsoleScreenBufferInfo_closed (h : HANDLE) (q : PROCESS) :
  screens (console (globals q)) h = None ->
  GetConsoleScreenBufferInfo h q = returned None q.
Proof. intros H. unfold GetConsoleScreenBufferInfo, getsP. now rewrite H. Qed.

(** [initscr] ends the process with status 1 when [malloc] has no memory
    for the window, and when the standard output is not a screen buffer that
    reports its geometry. *)
Theorem initscr_exits_when_setup_fails
    (u1 : BufferInfo.CONSOLE_SCREEN_BUFFER_INFO) (u2 : CursorInfo.CONSOLE_CURSOR_INFO)
    (p : PROCESS) :
  new_blocks p = [] \/ screens (console (globals p)) (std_output p) = None ->
  initscr u1 u2 p = exited 1.
Proof.
  intros H. unfold initscr.
  destruct (new_blocks p) as [| a rest] eqn:Eb.
  - rewrite (bindP_returned _ _ p p NULL) by (unfold malloc; now rewrite Eb).
    rewrite (bindP_returned _ _ _ _ _ (lift_modify_eq _ _)). reflexivity.
  - destruct H as [H | H]; [discriminate H |].
    rewrite (bindP_returned _ _ p (set_new_blocks rest p) a)
      by (unfold malloc; now rewrite Eb).
    rewrite (bindP_returned _ _ _ _ _ (lift_modify_eq _ _)).
    destruct (a =? NULL); [reflexivity |].
    rewrite (bindP_returned _ _ _ _ _ (lift_update_eq _ _ _)).
    rewrite (bindP_returned _ _ _ _ _ (lift_update_eq _ _ _)).
    rewrite (bindP_returned _ _ _ _ _ (GetStdHandle_output_eq _)).
    match goal with
    | |- bindP (GetConsoleScreenBufferInfo ?h) _ ?q = _ =>
        rewrite (bindP_returned _ _ _ _ _ (GetConsoleScreenBufferInfo_closed h q H))
    end.
    reflexivity.
Qed.

(** ** refresh: what it leaves alone *)

Lemma cell_at_same_cells (con con' : CONSOLE) (h : HANDLE) (y x : Z) :
  same_cells con con' -> cell_at con' h y x = cell_at con h y x.
Proof.
  intros Hsame. specialize (Hsame h). unfold cell_at.
  destruct (screens con h) as [b |], (screens con' h) as [b' |];
    try contradiction; try reflexivity.
  destruct Hsame as [-> ->]. reflexivity.
Qed.

Lemma WriteConsoleOutput_elsewhere (con : CONSOLE) (h : HANDLE) (tbuf : list CHAR_INFO)
    (bsize bcoord : COORD) (r : SMALL_RECT) :
  let res := WriteConsoleOutput con h tbuf bsize bcoord r in
  (forall h' y x, h' <> h -> cell_at (snd (fst res)) h' y x = cell_at con h' y x) /\
  (forall y x, in_rect (snd res) y x = false ->
     cell_at (snd (fst res)) h y x = cell_at con h y x).
Proof.
  cbv zeta. unfold WriteConsoleOutput.
  destruct (screens con h) as [b |] eqn:Hb; cbn [fst snd]; [| now split].
  split.
  - intros h' y x Hh'. unfold cell_at, set_screen. cbn [screens].
    destruct (Z.eqb_spec h' h); [contradiction | reflexivity].
  - intros y x Hout. unfold cell_at, set_screen. cbn [screens].
    rewrite Z.eqb_refl, Hb. cbn [dwSize cells]. now rewrite Hout.
Qed.

Lemma ReadConsoleOutput_shrinks (con : CONSOLE) (h : HANDLE) (tbuf : list CHAR_INFO)
    (bsize : COORD) (r : SMALL_RECT) (y x : Z) :
  in_rect (snd (ReadConsoleOutput con h tbuf bsize origin r)) y x = true ->
  in_rect r y x = true.
Proof.
  unfold ReadConsoleOutput. destruct (screens con h); cbn [snd]; [| trivial].
  intros H. apply in_used_rect_iff in H. apply in_rect_iff. tauto.
Qed.

Lemma WriteConsoleOutput_shrinks (con : CONSOLE) (h : HANDLE) (tbuf : list CHAR_INFO)
    (bsize : COORD) (r : SMALL_RECT) (y x : Z) :
  in_rect (snd (WriteConsoleOutput con h tbuf bsize origin r)) y x = true ->
  in_rect r y x = true.
Proof.
  unfold WriteConsoleOutput. destruct (screens con h); cbn [snd]; [| trivial].
  intros H. apply in_used_rect_iff in H. apply in_rect_iff. tauto.
Qed.

(** What [refresh] does not touch, in every state.  The only cells that
    change are cells of the buffer that was the primary one, inside the
    rectangle that the window has after the call; that rectangle lies within
    the one it had before.  The cursor, the size, the attributes, the flags
    and the two handles of the window stay, and so does [stdscr]. *)
Theorem refresh_touches_only_the_rectangle (uninit : CHAR_INFO) (st : STATE) :
  let w := heap st (stdscr st) in
  let st' := snd (refresh uninit st) in
  let w' := heap st' (stdscr st') in
  (forall h y x, h <> hcon_at w (prim w) ->
     cell_at (console st') h y x = cell_at (console st) h y x) /\
  (forall y x, in_rect (rect w') y x = false ->
     cell_at (console st') (hcon_at w (prim w)) y x =
     cell_at (console st) (hcon_at w (prim w)) y x) /\
  (forall y x, in_rect (rect w') y x = true -> in_rect (rect w) y x = true) /\
  stdscr st' = stdscr st /\
  cur w' = cur w /\ size w' = size w /\ attrs w' = attrs w /\ wflags w' = wflags w /\
  hcon w' = hcon w.
Proof.
  intros w st' w'.
  destruct (refresh_unfold uninit st) as (_ & Hscr & Hcon & Hheap).
  fold w in Hcon, Hheap. fold st' in Hscr, Hcon, Hheap.
  assert (Hw' : w' = set_bbuf (lnot_c (lnot_c (prim w)))
                       (set_prim (lnot_c (prim w))
                          (set_rect (snd (WriteConsoleOutput
                             (snd (SetConsoleCursorPosition
                                (snd (SetConsoleActiveScreenBuffer (console st)
                                        (hcon_at w (bbuf w))))
                                (hcon_at w (bbuf w)) (cur w)))
                             (hcon_at w (prim w))
                             (snd (fst (ReadConsoleOutput
                                (snd (SetConsoleCursorPosition
                                   (snd (SetConsoleActiveScreenBuffer (console st)
                                           (hcon_at w (bbuf w))))
                                   (hcon_at w (bbuf w)) (cur w)))
                                (hcon_at w (bbuf w))
                                (repeat uninit (Z.to_nat (Y (size w) * X (size w))))
                                {| X := X (size w); Y := Y (size w) |}
                                {| X := 0; Y := 0 |} (rect w))))
                             {| X := X (size w); Y := Y (size w) |}
                             {| X := 0; Y := 0 |}
                             (snd (ReadConsoleOutput
                                (snd (SetConsoleCursorPosition
                                   (snd (SetConsoleActiveScreenBuffer (console st)
                                           (hcon_at w (bbuf w))))
                                   (hcon_at w (bbuf w)) (cur w)))
                                (hcon_at w (bbuf w))
                                (repeat uninit (Z.to_nat (Y (size w) * X (size w))))
                                {| X := X (size w); Y := Y (size w) |}
                                {| X := 0; Y := 0 |} (rect w))))) w)))
    by (subst w'; now rewrite Hscr, Hheap).
  pose proof (SetConsoleActiveScreenBuffer_same_cells (console st) (hcon_at w (bbuf w)))
    as Hsame1.
  set (con1 := snd (SetConsoleActiveScreenBuffer (console st) (hcon_at w (bbuf w)))) in *.
  destruct (SetConsoleCursorPosition_same_cells con1 (hcon_at w (bbuf w)) (cur w))
    as (Hsame2 & _).
  set (con2 := snd (SetConsoleCursorPosition con1 (hcon_at w (bbuf w)) (cur w))) in *.
  set (rd := ReadConsoleOutput con2 (hcon_at w (bbuf w))
               (repeat uninit (Z.to_nat (Y (size w) * X (size w))))
               {| X := X (size w); Y := Y (size w) |} {| X := 0; Y := 0 |} (rect w)) in *.
  destruct (WriteConsoleOutput_elsewhere con2 (hcon_at w (prim w)) (snd (fst rd))
              {| X := X (size w); Y := Y (size w) |} {| X := 0; Y := 0 |} (snd rd))
    as (Hother & Hout).
  set (wr := WriteConsoleOutput con2 (hcon_at w (prim w)) (snd (fst rd))
               {| X := X (size w); Y := Y (size w) |} {| X := 0; Y := 0 |} (snd rd)) in *.
  assert (Hcells : forall h y x, cell_at con2 h y x = cell_at (console st) h y x).
  { intros h y x. rewrite (cell_at_same_cells con1 con2 h y x Hsame2).
    apply (cell_at_same_cells (console st) con1 h y x Hsame1). }
  assert (Hrect : rect w' = snd wr) by (now rewrite Hw').
  split; [| split; [| split]].
  - intros h y x Hh. rewrite Hcon, (Hother h y x Hh). apply Hcells.
  - intros y x Hin. rewrite Hrect in Hin. rewrite Hcon, (Hout y x Hin). apply Hcells.
  - intros y x Hin. rewrite Hrect in Hin. subst wr.
    change {| X := 0; Y := 0 |} with origin in Hin.
    apply WriteConsoleOutput_shrinks in Hin. subst rd.
    change {| X := 0; Y := 0 |} with origin in Hin.
    now apply ReadConsoleOutput_shrinks in Hin.
  - rewrite Hw'. repeat split; try reflexivity. exact Hscr.
Qed.

(** ** From addch to the display *)

Lemma waddch_console (win : WINDOW_PTR) (ch : chtype) (st : STATE) :
  let w := heap st win in
  console (snd (waddch win ch st)) = console st \/
  exists (c : CHAR_INFO) (r : SMALL_RECT),
    console (snd (waddch win ch st)) =
    snd (fst (WriteConsoleOutput (console st) (hcon_at w (bbuf w)) [c]
                {| X := 1; Y := 1 |} {| X := 0; Y := 0 |} r)).
Proof.
  cbv zeta. unfold waddch.
  destruct (win =? NULL); [now left |].
  destruct (ch =? 13); [now left |].
  destruct (ch =? 10); [now left |].
  right. eexists. eexists.
  unfold bind, deref, update, gets, modify, ret, call_WriteConsoleOutput.
  destruct (WriteConsoleOutput (console st) _ _ _ _ _) as [[res con] u] eqn:E.
  cbn [fst snd]. rewrite E. cbn [fst snd].
  destruct (res =? 0); cbn [fst snd console set_console set_heap heap];
    [reflexivity |].
  rewrite !Z.eqb_refl.
  match goal with |- context [if ?c then _ else _] => destruct c end; reflexivity.
Qed.

(** [waddch] writes into the back buffer of its window, and nowhere else. *)
Lemma waddch_other_buffers (win : WINDOW_PTR) (ch : chtype) (st : STATE) (h : HANDLE)
    (y x : Z) :
  h <> hcon_at (heap st win) (bbuf (heap st win)) ->
  cell_at (console (snd (waddch win ch st))) h y x = cell_at (console st) h y x.
Proof.
  intros Hh. destruct (waddch_console win ch st) as [-> | (c & r & ->)]; [reflexivity |].
  now apply (WriteConsoleOutput_elsewhere (console st)).
Qed.

(** A character is displayed by [refresh], not by [addch].  Take a state as
    [initscr] leaves it on a viewport at the origin ([stdscr_ready],
    [fitted], two different buffers), with the cursor inside the window, and
    an ordinary character.  [addch] returns [OK] and leaves the primary
    buffer as it is; after [refresh] the buffer on display is the one that
    was written to, and both buffers hold the character, with the window's
    attributes, where the cursor was. *)
Theorem addch_refresh_displays (uninit : CHAR_INFO) (ch : chtype) (st : STATE) :
  let w := heap st (stdscr st) in
  let hp := hcon_at w (prim w) in
  let hb := hcon_at w (bbuf w) in
  stdscr_ready st -> fitted st -> stdscr st <> NULL -> hp <> hb ->
  ch <> 10 -> ch <> 13 ->
  0 <= Y (cur w) < Y (size w) -> 0 <= X (cur w) < X (size w) ->
  Y (size w) <= 32767 -> X (size w) <= 32767 ->
  let st1 := snd (addch ch st) in
  let st2 := snd (refresh uninit st1) in
  fst (addch ch st) = OK /\
  (forall y x, cell_at (console st1) hp y x = cell_at (console st) hp y x) /\
  fst (refresh uninit st1) = OK /\
  active (console st2) = hb /\
  cell_at (console st2) hb (Y (cur w)) (X (cur w)) =
    Some {| Char := to_WORD ch; Attributes := attrs w |} /\
  cell_at (console st2) hp (Y (cur w)) (X (cur w)) =
    Some {| Char := to_WORD ch; Attributes := attrs w |}.
Proof.
  intros w hp hb Hready Hfit Hnn Hne H10 H13 HY HX HsY HsX st1 st2.
  destruct Hready as (Hidx & Hp & Hb & HL & HT). fold w in Hidx, Hp, Hb, HL, HT.
  fold hp in Hp. fold hb in Hb.
  destruct Hfit as (HL0 & HT0 & HfX & HfY & Hfp & Hfb). fold w in HL0, HT0, HfX, HfY, Hfp, Hfb.
  fold hp in Hfp. fold hb in Hfb.
  destruct (screens (console st) hp) as [bp |] eqn:Ep; [clear Hp | contradiction].
  destruct (screens (console st) hb) as [bb |] eqn:Eb; [clear Hb | contradiction].
  cbn [option_map] in Hfp, Hfb. injection Hfp as Hfp. injection Hfb as Hfb.
  assert (Haddch : addch ch st = waddch (stdscr st) ch st) by reflexivity.
  destruct (waddch_ordinary (stdscr st) ch st bb Hnn H10 H13 Eb)
    as (Hok & Hheap1 & Hopen1 & Hcell1).
  fold w in Hheap1, Hopen1, Hcell1. fold hb in Hopen1, Hcell1.
  rewrite <- Haddch in Hok, Hheap1, Hopen1, Hcell1. fold st1 in Hheap1, Hopen1, Hcell1.
  assert (Hcell : cell_at (console st1) hb (Y (cur w)) (X (cur w)) =
                  Some {| Char := to_WORD ch; Attributes := attrs w |}).
  { apply Hcell1; rewrite ?Hfb; lia. }
  clear Hcell1.
  assert (Hscr1 : stdscr st1 = stdscr st)
    by (subst st1; rewrite Haddch; apply waddch_keeps_stdscr).
  assert (Hbuf1 : buffers_of (heap st1 (stdscr st)) = buffers_of w)
    by (subst st1; rewrite Haddch; apply (waddch_keeps_buffers_of (stdscr st))).
  assert (Hdim1 : forall h, option_map dwSize (screens (console st1) h) =
                            option_map dwSize (screens (console st) h))
    by (intros h; subst st1; rewrite Haddch; apply (waddch_keeps_dwSize h)).
  assert (Hprim1 : forall y x, cell_at (console st1) hp y x = cell_at (console st) hp y x)
    by (intros y x; subst st1; rewrite Haddch; now apply waddch_other_buffers).
  set (w1 := heap st1 (stdscr st1)).
  assert (Hw1 : w1 = heap st1 (stdscr st)) by (subst w1; now rewrite Hscr1).
  unfold buffers_of in Hbuf1. rewrite <- Hw1 in Hbuf1. injection Hbuf1 as Hh Hpr Hbb Hre.
  assert (Hsz1 : size w1 = size w) by (rewrite Hw1, Hheap1; reflexivity).
  assert (Hhp1 : hcon_at w1 (prim w1) = hp) by (unfold hcon_at, hp; now rewrite Hh, Hpr).
  assert (Hhb1 : hcon_at w1 (bbuf w1) = hb) by (unfold hcon_at, hb; now rewrite Hh, Hbb).
  pose proof (Hdim1 hp) as Dp. rewrite Ep in Dp.
  pose proof (Hdim1 hb) as Db. rewrite Eb in Db.
  destruct (screens (console st1) hp) as [bp1 |] eqn:Ep1; [| discriminate Dp].
  destruct (screens (console st1) hb) as [bb1 |] eqn:Eb1; [| discriminate Db].
  cbn [option_map] in Dp, Db. injection Dp as Dp. injection Db as Db.
  destruct (refresh_unfold uninit st1) as (Hok2 & _ & _ & _).
  assert (Ep1' : screens (console st1) (hcon_at w1 (prim w1)) = Some bp1)
    by (now rewrite Hhp1).
  assert (Eb1' : screens (console st1) (hcon_at w1 (bbuf w1)) = Some bb1)
    by (now rewrite Hhb1).
  assert (HL1 : 0 <= Left (rect w1)) by (rewrite Hre; exact HL).
  assert (HT1 : 0 <= Top (rect w1)) by (rewrite Hre; exact HT).
  destruct (refresh_cells uninit st1 bp1 bb1 Ep1' Eb1' HL1 HT1)
    as (_ & Hact & _ & Hcells).
  fold w1 in Hact, Hcells. fold st2 in Hact, Hcells.
  rewrite Hhp1, Hhb1, Hsz1, Hre, Dp, Db, Hfp, Hfb in Hcells.
  rewrite Hhb1 in Hact.
  assert (Hin : in_rect
            (used_rect (size w) {| X := X (size w); Y := Y (size w) |} origin
               (used_rect (size w) {| X := X (size w); Y := Y (size w) |} origin (rect w)))
            (Y (cur w)) (X (cur w)) = true).
  { apply in_rect_iff. unfold used_rect, origin. cbn [Left Top Right Bottom X Y]. lia. }
  destruct (Hcells _ _ Hin) as (Hc1 & Hc2 & Hc3).
  rewrite Hcell in Hc3.
  split; [exact Hok |]. split; [exact Hprim1 |]. split; [exact Hok2 |].
  split; [exact Hact |]. split; congruence.
Qed.

(** ** Echo *)

(** [echo] and [noecho] return [OK].  After [echo], [wgetch] writes the
    character of the key press it returns with [addch], that is into the
    default window, whatever window it reads for; after [noecho] it writes
    nothing.  In both cases the events up to the key press are taken off the
    queue. *)
Theorem wgetch_echoes_into_stdscr (win : WINDOW_PTR) (st : STATE)
    (pre : list INPUT_RECORD) (e : INPUT_RECORD) (post : list INPUT_RECORD) :
  events (console st) = pre ++ e :: post ->
  forallb (fun c => negb (is_key_down c)) pre = true ->
  is_key_down e = true ->
  let taken := fun s : STATE => set_console (set_events (console s) post) s in
  fst (echo st) = OK /\ fst (noecho st) = OK /\
  option_map snd (wgetch win (snd (echo st))) =
    Some (snd (addch (AsciiChar e) (taken (snd (echo st))))) /\
  option_map snd (wgetch win (snd (noecho st))) = Some (taken (snd (noecho st))).
Proof.
  intros Hevs Hpre He taken.
  split; [reflexivity |]. split; [reflexivity |].
  assert (Hon : truth (Z.land (to_unsigned (Z.lor (flags st) WC_ECHO)) WC_ECHO) = true)
    by (rewrite land_set_bit; reflexivity).
  assert (Hoff : truth (Z.land (to_unsigned (Z.land (flags st) (Z.lnot WC_ECHO))) WC_ECHO)
                 = false)
    by (rewrite land_clear_bit; reflexivity).
  split.
  - unfold wgetch.
    change (console (snd (echo st))) with (console st).
    rewrite Hevs, (poll_console_skips _ pre e post Hpre He).
    cbn [option_map snd].
    change (flags (set_console (set_events (console st) post) (snd (echo st))))
      with (to_unsigned (Z.lor (flags st) WC_ECHO)).
    rewrite Hon. reflexivity.
  - unfold wgetch.
    change (console (snd (noecho st))) with (console st).
    rewrite Hevs, (poll_console_skips _ pre e post Hpre He).
    cbn [option_map snd].
    change (flags (set_console (set_events (console st) post) (snd (noecho st))))
      with (to_unsigned (Z.land (flags st) (Z.lnot WC_ECHO))).
    rewrite Hoff. reflexivity.
Qed.

(** ** The statements above, put together *)

(** [cbreak] returns [ERR] in every state.  When the console reports the
    mode of the input handle it has cleared the line-input bit all the
    same, and the processed-input bit is as it was; when the console does
    not, nothing has changed. *)
Theorem cbreak_ERR_after_clearing_line_input (st : STATE) :
  fst (cbreak st) = ERR /\
  (forall mode, GetConsoleMode (console st) (hstdin st) = Some mode ->
     GetConsoleMode (console (snd (cbreak st))) (hstdin st) =
       Some (to_unsigned (Z.land mode (Z.lnot ENABLE_LINE_INPUT)))) /\
  (GetConsoleMode (console st) (hstdin st) = None -> snd (cbreak st) = st).
Proof.
  split; [apply cbreak_always_ERR |]. split.
  - intros mode Hmode. now apply cbreak_clears_line_input_only.
  - unfold GetConsoleMode. intros Hmode. unfold cbreak, bind, gets.
    rewrite clearmode_eq, Hmode. reflexivity.
Qed.

(** [init_color] and [color_content] return [ERR] for every color, in every
    state: [can_change_color] is [FALSE].  No color is stored, the pointer
    parameters of [color_content] are as they were, and no [short] of the
    caller has changed. *)
Theorem colors_cannot_be_changed (color red green blue : Z) (r g b : short_ptr)
    (st : STATE) :
  fst (init_color color red green blue st) = ERR /\
  colors (snd (init_color color red green blue st)) = colors st /\
  fst (color_content color r g b st) = (ERR, (r, g, b)) /\
  (forall p, load (snd (color_content color r g b st)) p = load st p) /\
  colors (snd (color_content color r g b st)) = colors st.
Proof.
  destruct (init_color_always_ERR color red green blue st) as [E1 E2].
  destruct (color_content_always_ERR color r g b st) as [E3 E4].
  rewrite E1, E3. cbn [fst snd]. repeat split; assumption.
Qed.

(** The pair number read back from [COLOR_PAIR p] is [p] for the pairs 0 to
    31; from 32 on the encoding is a negative [int], and the arithmetic
    shift gives the pair number less 64. *)
Theorem PAIR_NUMBER_COLOR_PAIR_round_trip (p : Z) :
  0 <= p < 64 ->
  PAIR_NUMBER (COLOR_PAIR p) = if p <? 32 then p else p - 64.
Proof.
  intros Hp. destruct (Z.ltb_spec p 32).
  - apply PAIR_NUMBER_COLOR_PAIR_below_32. lia.
  - apply PAIR_NUMBER_COLOR_PAIR_from_32. lia.
Qed.

(** When its write step fails, [mvwprintw] puts back the cursor of the
    default window, whatever window it was given: in the default window the
    move is undone, in any other window the cursor stays where [wmove] has
    put it. *)
Theorem mvwprintw_restores_stdscr_cursor_only (win : WINDOW_PTR) (y x : Z)
    (rendered : option (list chtype)) (st : STATE) :
  fst (mvwprintw win y x rendered st) = ERR ->
  (win = stdscr st ->
     cur (heap (snd (mvwprintw win y x rendered st)) win) = cur (heap st win)) /\
  (win <> NULL -> win <> stdscr st ->
   is_SHORT (Y (size (heap st win))) -> is_SHORT (X (size (heap st win))) ->
   0 <= y < Y (size (heap st win)) -> 0 <= x < X (size (heap st win)) ->
     cur (heap (snd (mvwprintw win y x rendered st)) win) = {| X := x; Y := y |}).
Proof.
  intros Hres. split.
  - intros ->. now apply mvwprintw_restores_cursor_of_stdscr.
  - intros. now apply mvwprintw_leaves_other_window_moved.
Qed.

(** [wgetch] with no key press in the queue: in no-delay mode it returns
    [ERR] at once and takes nothing off the queue; otherwise it does not
    return. *)
Theorem wgetch_without_key_press (win : WINDOW_PTR) (st : STATE) :
  kbhit (events (console st)) = false ->
  (truth (Z.land (wflags (heap st win)) WC_NODELAY) = true ->
     exists st',
       wgetch win st = Some (ERR, st') /\ events (console st') = events (console st)) /\
  (truth (Z.land (wflags (heap st win)) WC_NODELAY) = false -> wgetch win st = None).
Proof.
  intros Hk. split; intros Hn.
  - now apply wgetch_nodelay_no_input.
  - now apply wgetch_blocks.
Qed.

(** Moving a cursor and writing a character, in any window, leave the
    default window ready for [refresh]. *)
Theorem drawing_keeps_stdscr_ready (win : WINDOW_PTR) (y x : Z) (ch : chtype)
    (st : STATE) :
  stdscr_ready st ->
  stdscr_ready (snd (wmove win y x st)) /\
  stdscr_ready (snd (waddch win ch st)) /\
  stdscr_ready (snd (mvwaddch win y x ch st)).
Proof.
  intros Hready.
  pose proof (wmove_keeps_stdscr_ready win y x st Hready) as Hmove.
  split; [exact Hmove |]. split; [now apply waddch_keeps_stdscr_ready |].
  unfold mvwaddch, bind.
  destruct (wmove win y x st) as [res st1]. cbn [snd] in Hmove.
  destruct (res =? ERR); [exact Hmove |].
  now apply waddch_keeps_stdscr_ready.
Qed.

(** ** The process of the session

    [process_start] is the process before [initscr]: the standard output is
    the screen buffer 7, 80 x 25 and on display, the standard input is the
    handle 3 with the three mode bits of a fresh console; the console will
    hand out the handles 100 and 101, and [malloc] the address 4096, where
    the memory holds zeros.  [process0] is a process in the state
    [session0]. *)

Definition zero_window : WINDOW :=
  {| rect := {| Left := 0; Top := 0; Right := 0; Bottom := 0 |};
     size := {| X := 0; Y := 0 |};
     cur := {| X := 0; Y := 0 |};
     hcon := [0; 0];
     prim := 0;
     bbuf := 0;
     wflags := 0;
     attrs := 0 |}.

Definition process_start : PROCESS :=
  {| globals :=
       {| heap := fun _ => zero_window;
          stdscr := NULL;
          hstdout := 0;
          hstdin := 0;
          cursize := 0;
          flags := 0;
          COLORS := 0;
          COLOR_PAIRS := 0;
          colors := repeat color0 (Z.to_nat NUM_COLORS);
          color_pairs := repeat pair0 (Z.to_nat MAX_NUM_PAIRS);
          console :=
            {| screens := fun h => if h =? 7 then Some blank_buffer else None;
               active := 7;
               input_mode := fun h => if h =? 3 then Some 7 else None;
               events := [] |};
          user_shorts := fun _ => -1 |};
     LINES := 0;
     COLS := 0;
     std_output := 7;
     std_input := 3;
     viewport := fun _ => {| Left := 0; Top := 0; Right := 79; Bottom := 24 |};
     text_attributes := fun _ => 7;
     cursor_info := fun _ => CursorInfo.mk 25 TRUE;
     new_handles := [100; 101];
     new_blocks := [4096];
     freed := [] |}.

Definition process0 : PROCESS :=
  {| globals := session0;
     LINES := 25;
     COLS := 80;
     std_output := 7;
     std_input := 3;
     viewport := fun _ => {| Left := 0; Top := 0; Right := 79; Bottom := 24 |};
     text_attributes := fun _ => 7;
     cursor_info := fun _ => CursorInfo.mk 25 TRUE;
     new_handles := [];
     new_blocks := [];
     freed := [] |}.

Definition no_coninfo : BufferInfo.CONSOLE_SCREEN_BUFFER_INFO :=
  BufferInfo.mk {| X := 0; Y := 0 |} {| Left := 0; Top := 0; Right := 0; Bottom := 0 |}.

Definition no_curinfo : CursorInfo.CONSOLE_CURSOR_INFO := CursorInfo.mk 0 0.

Lemma session0_ready : stdscr_ready session0.
Proof.
  unfold stdscr_ready. split; [left; split; reflexivity |].
  split; [lazy; discriminate |]. split; [lazy; discriminate |].
  split; lazy; discriminate.
Defined.

Lemma session0_fitted : fitted session0.
Proof. unfold fitted. repeat split. Defined.

Lemma initscr_sets_up_stdscr_witness :
  exists p',
    initscr no_coninfo no_curinfo process_start = returned 4096 p' /\
    heap (globals p') 4096 = stdscr0 /\
    LINES p' = 25 /\ COLS p' = 80 /\
    stdscr_ready (globals p') /\ fitted (globals p').
Proof.
  assert (H1 : new_blocks process_start = [4096]) by reflexivity.
  assert (H2 : 4096 <> NULL) by discriminate.
  assert (H3 : length (hcon (heap (globals process_start) 4096)) = 2%nat) by reflexivity.
  assert (H4 : new_handles process_start = [100; 101]) by reflexivity.
  assert (H5 : 100 <> 101) by discriminate.
  assert (H6 : 100 <> INVALID_HANDLE_VALUE) by discriminate.
  assert (H7 : 101 <> INVALID_HANDLE_VALUE) by discriminate.
  assert (H8 : std_output process_start <> 100) by discriminate.
  assert (H9 : std_output process_start <> 101) by discriminate.
  assert (H10 : std_output process_start <> INVALID_HANDLE_VALUE) by discriminate.
  assert (H11 : std_input process_start <> INVALID_HANDLE_VALUE) by discriminate.
  assert (H12 : screens (console (globals process_start)) (std_output process_start) =
                Some blank_buffer) by reflexivity.
  assert (H13 : active (console (globals process_start)) = std_output process_start)
    by reflexivity.
  assert (H14 : input_mode (console (globals process_start)) (std_input process_start) =
                Some 7) by reflexivity.
  assert (H15 : 0 < 79 - 0 + 1 <= 32767) by lia.
  assert (H16 : 0 < 24 - 0 + 1 <= 32767) by lia.
  assert (H17 : 0 <= 0) by lia.
  destruct (initscr_sets_up_stdscr no_coninfo no_curinfo process_start 4096 [] 100 101 []
              blank_buffer 7 H1 H2 H3 H4 H5 H6 H7 H8 H9 H10 H11 H12 H13 H14 H15 H16
              H17 H17)
    as (p' & Hrun & _ & Hw & HL & HC & _ & _ & _ & _ & _ & _ & _ & _ & Hready & Hfit).
  exists p'.
  split; [exact Hrun |]. split; [exact Hw |]. split; [exact HL |]. split; [exact HC |].
  split; [exact Hready |]. exact (Hfit eq_refl eq_refl).
Defined.

Lemma initscr_exits_when_setup_fails_witness :
  initscr no_coninfo no_curinfo (set_new_blocks [] process_start) = exited 1.
Proof.
  apply (initscr_exits_when_setup_fails no_coninfo no_curinfo
           (set_new_blocks [] process_start)).
  left. reflexivity.
Defined.

Lemma curs_set_bad_visibility_ERR_witness : curs_set 3 process0 = returned ERR process0.
Proof.
  apply (curs_set_bad_visibility_ERR 3 process0). right. lia.
Defined.

Lemma curs_set_returns_previous_level_witness :
  exists r p1 p2,
    curs_set 2 process0 = returned r p1 /\ curs_set 0 p1 = returned 2 p2.
Proof.
  destruct (curs_set_returns_previous_level 2 0 process0 blank_buffer)
    as (r & p1 & p2 & H1 & _ & H2 & _);
    try reflexivity; try (cbn; lia).
  exists r, p1, p2. split; [exact H1 | exact H2].
Defined.

Lemma wgetch_echoes_into_stdscr_witness :
  let st := set_console (set_events console0 [mouse_event; key_press 65 97]) session0 in
  option_map snd (wgetch 8192 (snd (echo st))) =
    Some (snd (addch 97 (set_console (set_events (console (snd (echo st))) [])
                           (snd (echo st))))).
Proof.
  intros st.
  exact (proj1 (proj2 (proj2
    (wgetch_echoes_into_stdscr 8192 st [mouse_event] (key_press 65 97) []
       eq_refl eq_refl eq_refl)))).
Defined.

Lemma PAIR_NUMBER_COLOR_PAIR_round_trip_witness : PAIR_NUMBER (COLOR_PAIR 40) = 40 - 64.
Proof.
  apply (PAIR_NUMBER_COLOR_PAIR_round_trip 40). lia.
Defined.

Lemma mvwprintw_restores_stdscr_cursor_only_witness :
  cur (heap (snd (mvwprintw 8192 0 0 (Some long_text) session0)) 8192) =
    {| X := 0; Y := 0 |}.
Proof.
  apply (mvwprintw_restores_stdscr_cursor_only 8192 0 0 (Some long_text) session0).
  - vm_compute. reflexivity.
  - discriminate.
  - discriminate.
  - cbn. unfold is_SHORT. lia.
  - cbn. unfold is_SHORT. lia.
  - cbn. lia.
  - cbn. lia.
Defined.

Lemma wgetch_without_key_press_witness : wgetch 4096 session0 = None.
Proof.
  apply (wgetch_without_key_press 4096 session0); reflexivity.
Defined.

Lemma drawing_keeps_stdscr_ready_witness :
  stdscr_ready (snd (mvwaddch 4096 3 4 88 session0)).
Proof.
  apply (drawing_keeps_stdscr_ready 4096 3 4 88 session0). exact session0_ready.
Defined.

Lemma start_color_sets_up_colors_witness :
  colors (snd (start_color session0)) = basic_colors /\
  attrs (heap (snd (start_color session0)) 4096) = 0.
Proof.
  destruct (start_color_sets_up_colors session0)
    as (_ & Hcolors & _ & _ & _ & _ & _ & _ & _ & _ & Hattrs).
  - split; reflexivity.
  - split; [exact Hcolors | apply Hattrs; reflexivity].
Defined.

Lemma mvwaddch_moves_then_writes_witness :
  cur (heap (snd (mvwaddch 4096 3 79 88 session0)) 4096) = {| X := 0; Y := 4 |}.
Proof.
  assert (H1 : 4096 <> NULL) by discriminate.
  assert (H2 : 88 <> 10) by discriminate.
  assert (H3 : 88 <> 13) by discriminate.
  assert (H4 : screens (console session0)
                 (hcon_at (heap session0 4096) (bbuf (heap session0 4096))) =
               Some blank_buffer) by reflexivity.
  assert (H5 : 25 <= 32767) by lia.
  assert (H6 : 80 <= 32767) by lia.
  assert (H7 : 0 <= 3 < 25) by lia.
  assert (H8 : 0 <= 79 < 80) by lia.
  exact (proj1 (proj2 (proj1 (proj2
    (mvwaddch_moves_then_writes 4096 3 79 88 session0 blank_buffer H1 H2 H3 H4 H5 H6))
    H7 H8))).
Defined.

Lemma mvwgetch_out_of_bounds_reads_anyway_witness :
  mvwgetch 4096 25 0 session0 = wgetch 4096 session0.
Proof.
  apply (mvwgetch_out_of_bounds_reads_anyway 4096 25 0 session0).
  right. left. cbn. lia.
Defined.

Lemma addch_refresh_displays_witness :
  let st2 := snd (refresh {| Char := 0; Attributes := 0 |} (snd (addch 88 session0))) in
  active (console st2) = 101 /\
  cell_at (console st2) 101 0 0 = Some {| Char := 88; Attributes := 7 |} /\
  cell_at (console st2) 100 0 0 = Some {| Char := 88; Attributes := 7 |}.
Proof.
  intros st2.
  destruct (addch_refresh_displays {| Char := 0; Attributes := 0 |} 88 session0)
    as (_ & _ & _ & Hact & Hb & Hp);
    try exact session0_ready; try exact session0_fitted; try discriminate;
    try (cbn; lia).
  split; [exact Hact |]. split; [exact Hb | exact Hp].
Defined.

(** ** refresh after initscr on a console that has scrolled

    The process before [initscr] on a console whose window has scrolled
    five rows down in its buffer: the standard output is a screen buffer of
    80 x 300 cells, and the viewport shows its rows 5 to 29. *)

Definition scrolled_buffer : SCREEN_BUFFER :=
  {| dwSize := {| X := 80; Y := 300 |};
     dwCursorPosition := {| X := 0; Y := 5 |};
     cells := fun _ _ => {| Char := 32; Attributes := 7 |} |}.

Definition process_scrolled : PROCESS :=
  {| globals :=
       set_console
         {| screens := fun h => if h =? 7 then Some scrolled_buffer else None;
            active := 7;
            input_mode := fun h => if h =? 3 then Some 7 else None;
            events := [] |}
         (globals process_start);
     LINES := 0;
     COLS := 0;
     std_output := 7;
     std_input := 3;
     viewport := fun _ => {| Left := 0; Top := 5; Right := 79; Bottom := 29 |};
     text_attributes := fun _ => 7;
     cursor_info := fun _ => CursorInfo.mk 25 TRUE;
     new_handles := [100; 101];
     new_blocks := [4096];
     freed := [] |}.

(** C1, as the code has it.  [initscr] on this process returns the
    default window at 4096, ready for [refresh]: a window of 80 x 25 cells
    with the cursor at its origin, whose rectangle is the viewport, rows 5 to
    29, while the two buffers it draws into have rows 0 to 24.  [addch]
    then writes ['X'] at the origin of the window and [refresh], the first
    one of the session, returns [OK] and exchanges the two indices.
    Afterwards the buffer on display, 101, holds ['X'] at row 0, column 0,
    and the other buffer, 100, holds a blank there: [refresh] has copied the
    rows 5 to 24 only, which is the rectangle it leaves in the window, and
    the two buffers are not the same. *)
Theorem refresh_after_initscr_on_scrolled_console :
  exists p',
    initscr no_coninfo no_curinfo process_scrolled = returned 4096 p' /\
    let st0 := globals p' in
    let st := snd (addch 88 st0) in
    let st' := snd (refresh {| Char := 0; Attributes := 0 |} st) in
    let w' := heap st' (stdscr st') in
    (stdscr st0 = 4096 /\ stdscr_ready st0 /\
     rect (heap st0 4096) = {| Left := 0; Top := 5; Right := 79; Bottom := 29 |} /\
     size (heap st0 4096) = {| X := 80; Y := 25 |} /\
     cur (heap st0 4096) = {| X := 0; Y := 0 |} /\
     option_map dwSize (screens (console st0) 100) = Some {| X := 80; Y := 25 |} /\
     option_map dwSize (screens (console st0) 101) = Some {| X := 80; Y := 25 |}) /\
    (fst (addch 88 st0) = OK /\ fst (refresh {| Char := 0; Attributes := 0 |} st) = OK) /\
    (prim w' = 1 /\ bbuf w' = 0 /\ hcon_at w' (prim w') = 101 /\
     hcon_at w' (bbuf w') = 100 /\ active (console st') = 101) /\
    rect w' = {| Left := 0; Top := 5; Right := 79; Bottom := 24 |} /\
    cell_at (console st') 101 0 0 = Some {| Char := 88; Attributes := 7 |} /\
    cell_at (console st') 100 0 0 = Some {| Char := 32; Attributes := 7 |} /\
    ~ in_sync st' 0 0.
Proof.
  eexists. split; [vm_compute; reflexivity |].
  cbv zeta.
  split.
  { split; [reflexivity |]. split.
    - unfold stdscr_ready. split; [left; split; reflexivity |].
      split; [lazy; discriminate |]. split; [lazy; discriminate |].
      split; lazy; discriminate.
    - repeat split; reflexivity. }
  split; [split; reflexivity |].
  split; [repeat split; reflexivity |].
  split; [reflexivity |]. split; [reflexivity |]. split; [reflexivity |].
  unfold in_sync. intros H.
  match type of H with
  | ?l = ?r =>
      change (Some {| Char := 88; Attributes := 7 |} = Some {| Char := 32; Attributes := 7 |})
        in H
  end.
  discriminate H.
Qed.
